(** * Kanban backend: card ordering engine, authorization gate, authentication

    A shallow embedding of the request handlers of [backend/src/routes.ts],
    [backend/src/auth/routes.ts], [backend/src/auth/middleware.ts] and
    [backend/src/auth/trustedDevice.ts], together with the view router of
    [frontend/src/App.tsx].

    The relational store is a record of tables; every table is the list of
    its rows in storage order.  A handler is a function from the store (and
    the session of the request) to an outcome: the response, the store
    afterwards, and the effects the handler dispatched.  Exceptions thrown by
    a handler ([HttpError], [ZodError], a failed Prisma call) are values of
    [Failure]; a handler that throws leaves the store as it found it. *)

From stdpp Require Import base option list strings sorting.
From Stdlib Require Import ZArith Lia Ascii.

Local Open Scope string_scope.
Local Open Scope list_scope.
Local Open Scope Z_scope.

(* ================================================================== *)
(** * Platform functions                                                *)
(* ================================================================== *)

(** Library functions the handlers call: zod's string formats, the password
    hash of [auth/password.ts], otplib's authenticator at the time of the
    request, SHA-256, JavaScript's [trim] and [toLowerCase], and the
    case-insensitive comparison of the database ([mode: "insensitive"]). *)
Class Platform := {
  isUuid : string → bool;
  isEmail : string → bool;
  isDatetime : string → bool;
  hashPassword : string → string;
  verifyPassword : string → string → bool;
  verifyTotp : string → string → bool;
  sha256Hex : string → string;
  trim : string → string;
  toLowerCase : string → string;
  equalsInsensitive : string → string → bool
}.

(* ================================================================== *)
(** * Errors and results                                                *)
(* ================================================================== *)

(** What a handler can throw. [HttpError status message] is the class of
    [utils/httpError.ts]; [ZodError] is a failed schema [parse];
    [PrismaError] is a rejected database call (unique constraint, record to
    update not found). *)
Inductive Failure :=
  | HttpError (status : Z) (message : string)
  | ZodError
  | PrismaError.

Inductive Result (A : Type) :=
  | Ok (a : A)
  | Throw (e : Failure).
Arguments Ok {A} a.
Arguments Throw {A} e.

Global Instance Failure_eq_dec : EqDecision Failure.
Proof. solve_decision. Defined.

(* ================================================================== *)
(** * Data model                                                        *)
(* ================================================================== *)

Inductive ColumnId :=
  | BACKLOG | HIGH_PRIORITY | TODO | IN_PROGRESS | READY_FOR_ACCEPTANCE | DONE.

Inductive Importance := LOW | MEDIUM | HIGH.

Inductive Role := ADMIN | MEMBER.

Global Instance ColumnId_eq_dec : EqDecision ColumnId.
Proof. solve_decision. Defined.
Global Instance Importance_eq_dec : EqDecision Importance.
Proof. solve_decision. Defined.
Global Instance Role_eq_dec : EqDecision Role.
Proof. solve_decision. Defined.

(** The permanent default board of [boards/ids.ts]. *)
Definition DEFAULT_BOARD_ID : string := "00000000-0000-0000-0000-000000000001".

(** A row of table [Card]. [position] is an SQL INTEGER; the handlers only
    ever store list indices and [max + 1] in it, so it is an unbounded [Z]
    here.  The timestamps [createdAt] and [updatedAt] are left out: the
    development speaks of the ids, columns, positions and contents of the
    cards, and an update that writes the value a field already has is the
    identity here, although the program refreshes [updatedAt] with it. *)
Record Card := mkCard {
  card_id : string;
  card_boardId : string;
  card_description : string;
  card_details : option string;
  card_assignee : option string;
  card_dueDate : option string;
  card_column : ColumnId;
  card_position : Z;
  card_importance : Importance;
  card_paused : bool;
  card_authorId : option string
}.

Record User := mkUser {
  user_id : string;
  user_email : string;
  user_name : string;
  user_role : Role;
  user_isSystem : bool;
  user_passwordHash : string;
  user_mustChangePassword : bool;
  user_totpEnabled : bool;
  user_totpSecret : option string;
  user_totpTempSecret : option string;
  user_defaultBoardId : option string
}.

Record Board := mkBoard {
  board_id : string;
  board_name : string
}.

(** Rows of [BoardMembership], in creation order. *)
Record BoardMembership := mkMembership {
  bm_boardId : string;
  bm_userId : string
}.

Record CardParticipant := mkParticipant {
  cp_cardId : string;
  cp_userId : string
}.

(** Times are milliseconds since the epoch. *)
Record TrustedDevice := mkTrustedDevice {
  td_id : string;
  td_userId : string;
  td_tokenHash : string;
  td_expiresAt : Z;
  td_lastUsedAt : Z
}.

Record PasswordResetToken := mkResetToken {
  prt_id : string;
  prt_userId : string;
  prt_tokenHash : string;
  prt_expiresAt : Z;
  prt_usedAt : option Z
}.

(** The data express-session keeps per session ([SessionData] of
    [auth/session.ts]); an absent [twoFactorPassed] is [false]. *)
Record Session := mkSession {
  sess_user : option string;
  sess_twoFactorPassed : bool;
  sess_boardId : option string
}.

Definition empty_session : Session := mkSession None false None.

Global Instance BoardMembership_eq_dec : EqDecision BoardMembership.
Proof. solve_decision. Defined.
Global Instance Session_eq_dec : EqDecision Session.
Proof. solve_decision. Defined.

(** The store: one list of rows per table; [db_sessions] is the table
    ["session"] of connect-pg-simple, keyed by session id. *)
Record Db := mkDb {
  db_users : list User;
  db_boards : list Board;
  db_memberships : list BoardMembership;
  db_cards : list Card;
  db_participants : list CardParticipant;
  db_trustedDevices : list TrustedDevice;
  db_resetTokens : list PasswordResetToken;
  db_sessions : list (string * Session)
}.

Definition empty_db : Db := mkDb [] [] [] [] [] [] [] [].

(** Writing one table. *)
Definition set_users (x : list User) (db : Db) : Db :=
  mkDb x (db_boards db) (db_memberships db) (db_cards db)
       (db_participants db) (db_trustedDevices db) (db_resetTokens db) (db_sessions db).
Definition set_memberships (x : list BoardMembership) (db : Db) : Db :=
  mkDb (db_users db) (db_boards db) x (db_cards db)
       (db_participants db) (db_trustedDevices db) (db_resetTokens db) (db_sessions db).
Definition set_cards (x : list Card) (db : Db) : Db :=
  mkDb (db_users db) (db_boards db) (db_memberships db) x
       (db_participants db) (db_trustedDevices db) (db_resetTokens db) (db_sessions db).
Definition set_participants (x : list CardParticipant) (db : Db) : Db :=
  mkDb (db_users db) (db_boards db) (db_memberships db) (db_cards db)
       x (db_trustedDevices db) (db_resetTokens db) (db_sessions db).
Definition set_trustedDevices (x : list TrustedDevice) (db : Db) : Db :=
  mkDb (db_users db) (db_boards db) (db_memberships db) (db_cards db)
       (db_participants db) x (db_resetTokens db) (db_sessions db).
Definition set_resetTokens (x : list PasswordResetToken) (db : Db) : Db :=
  mkDb (db_users db) (db_boards db) (db_memberships db) (db_cards db)
       (db_participants db) (db_trustedDevices db) x (db_sessions db).
Definition set_sessions (x : list (string * Session)) (db : Db) : Db :=
  mkDb (db_users db) (db_boards db) (db_memberships db) (db_cards db)
       (db_participants db) (db_trustedDevices db) (db_resetTokens db) x.

(** JavaScript truthiness of a string that may be absent: [undefined],
    [null] and the empty string are falsy. *)
Definition truthy (o : option string) : option string :=
  match o with
  | Some s => if decide (s = "") then None else Some s
  | None => None
  end.

(* ================================================================== *)
(** * Card ordering engine ([backend/src/routes.ts])                    *)
(* ================================================================== *)

(** [clamp(n, min, max) = Math.max(min, Math.min(max, n))]. *)
Definition clamp (n min max : Z) : Z := Z.max min (Z.min max n).

(** [removeFrom] of the move handler, for the card [id]:
    [idx = arr.indexOf(id); if (idx >= 0) arr.splice(idx, 1)]. *)
Definition removeFrom (id : string) (arr : list string) : list string :=
  match list_find (λ x, x = id) arr with
  | Some (idx, _) => delete idx arr
  | None => arr
  end.

(** [arr.splice(idx, 0, x)] for [0 <= idx <= arr.length]. *)
Definition splice_insert (idx : nat) (x : string) (arr : list string) : list string :=
  take idx arr ++ x :: drop idx arr.

(** The order [orderBy: { position: "asc" }] sorts by. *)
Definition position_le (c1 c2 : Card) : Prop := card_position c1 ≤ card_position c2.

Global Instance position_le_dec : RelDecision position_le.
Proof. intros c1 c2. unfold position_le. apply _. Defined.

Definition in_partition (boardId : string) (column : ColumnId) (c : Card) : Prop :=
  card_boardId c = boardId ∧ card_column c = column.

Global Instance in_partition_dec b col c : Decision (in_partition b col c).
Proof. unfold in_partition. apply _. Defined.

(** [prisma.card.findMany({ where: { boardId, column }, orderBy: { position: "asc" } })].
    Rows with equal positions, which the database may return in any order,
    come in the order the merge sort leaves them in; the stores the handlers
    produce have no such rows (see [positions_after_operations]). *)
Definition findMany_column (cs : list Card) (boardId : string) (column : ColumnId) : list Card :=
  merge_sort position_le (filter (in_partition boardId column) cs).

(** [prisma.card.findFirst({ where: { id, boardId } })]. *)
Definition findFirst_card (cs : list Card) (id boardId : string) : option Card :=
  snd <$> list_find (λ c, card_id c = id ∧ card_boardId c = boardId) cs.

(** [prisma.card.aggregate({ where: { boardId, column }, _max: { position: true } })]:
    [None] is the SQL NULL of an empty partition. *)
Definition max_position (cs : list Card) (boardId : string) (column : ColumnId) : option Z :=
  foldr (λ c acc, match acc with
                  | Some m => Some (Z.max (card_position c) m)
                  | None => Some (card_position c)
                  end)
        None (filter (in_partition boardId column) cs).

(** The [data] of a [prisma.card.update] issued by the move handler:
    [{ position }] or [{ column, position }]. *)
Record CardPatch := mkPatch {
  patch_column : option ColumnId;
  patch_position : Z
}.

Definition apply_patch (p : CardPatch) (c : Card) : Card :=
  mkCard (card_id c) (card_boardId c) (card_description c) (card_details c)
         (card_assignee c) (card_dueDate c)
         (default (card_column c) (patch_column p)) (patch_position p)
         (card_importance c) (card_paused c) (card_authorId c).

(** [prisma.card.update({ where: { id }, data })]: rejects when no row has
    the id. *)
Definition card_update (id : string) (p : CardPatch) (cs : list Card) : option (list Card) :=
  if decide (id ∈ card_id <$> cs)
  then Some ((λ c, if decide (card_id c = id) then apply_patch p c else c) <$> cs)
  else None.

(** [prisma.$transaction([...])]: the updates run in order; the first one
    that rejects aborts the batch. *)
Fixpoint transaction (tx : list (string * CardPatch)) (cs : list Card) : option (list Card) :=
  match tx with
  | [] => Some cs
  | (id, p) :: tx' =>
      match card_update id p cs with
      | Some cs' => transaction tx' cs'
      | None => None
      end
  end.

(** The effects a card handler dispatches besides its response: the
    call of [notifyCardParticipants]. *)
Inductive NotifyEvent := updated | moved.

Record Notification := mkNotification {
  n_cardId : string;
  n_actorId : string;
  n_event : NotifyEvent;
  n_fromColumn : option ColumnId;
  n_toColumn : option ColumnId
}.

(** Outcome of a card handler: response, store afterwards, the batch handed
    to [prisma.$transaction], and the notifications dispatched. *)
Record Outcome (A : Type) := mkOutcome {
  out_result : Result A;
  out_db : Db;
  out_writes : list (string * CardPatch);
  out_notify : list Notification
}.
Arguments mkOutcome {A} _ _ _ _.
Arguments out_result {A} _.
Arguments out_db {A} _.
Arguments out_writes {A} _.
Arguments out_notify {A} _.

Definition throw {A} (db : Db) (e : Failure) : Outcome A := mkOutcome (Throw e) db [] [].

(** [notifyCardParticipants]: the e-mail addresses the notification goes
    to, namely the card's participants other than the actor, with a
    non-empty address.  No mail is sent when the card is gone or nobody is
    left. *)
Definition notifyCardParticipants (db : Db) (n : Notification) : option (list string) :=
  match list_find (λ c, card_id c = n_cardId n) (db_cards db) with
  | None => None
  | Some _ =>
      let users :=
        omap (λ p, if decide (cp_cardId p = n_cardId n)
                   then snd <$> list_find (λ u, user_id u = cp_userId p) (db_users db)
                   else None)
             (db_participants db) in
      let recipients :=
        filter (λ e, e ≠ "")
               (user_email <$> filter (λ u, user_id u ≠ n_actorId n) users) in
      if decide (recipients = []) then None else Some recipients
  end.

(** ** POST /cards *)

Record CardCreateBody := mkCreateBody {
  cb_description : string;
  cb_details : option string;
  cb_assignee : option string;
  cb_dueDate : option string;
  cb_column : option ColumnId;
  cb_importance : option Importance;
  cb_paused : option bool
}.

Definition CardCreateSchema `{Platform} (b : CardCreateBody) : bool :=
  bool_decide (cb_description b ≠ "")
  && match cb_assignee b with Some a => bool_decide (a ≠ "") | None => true end
  && match cb_dueDate b with Some d => isDatetime d | None => true end.

(** [newId] is the uuid the database client generates for the row; the
    primary key rejects a duplicate, and the foreign keys reject a board or
    an author that does not exist. *)
Definition post_cards `{Platform} (db : Db) (boardId userId newId : string)
    (body : CardCreateBody) : Outcome Card :=
  if negb (CardCreateSchema body) then throw db ZodError else
  let column := default BACKLOG (cb_column body) in
  let agg := max_position (db_cards db) boardId column in
  let position := default (-1) agg + 1 in
  let card := mkCard newId boardId (cb_description body) (cb_details body)
                     (cb_assignee body)
                     (match truthy (cb_dueDate body) with Some d => Some d | None => None end)
                     column position
                     (default MEDIUM (cb_importance body))
                     (default false (cb_paused body)) (Some userId) in
  if decide (newId ∈ card_id <$> db_cards db
             ∨ boardId ∉ board_id <$> db_boards db
             ∨ userId ∉ user_id <$> db_users db)
  then throw db PrismaError
  else mkOutcome (Ok card) (set_cards (db_cards db ++ [card]) db) [] [].

(** ** GET /cards/:id *)

Definition get_card `{Platform} (db : Db) (boardId idParam : string) : Outcome Card :=
  if negb (isUuid idParam) then throw db ZodError else
  match findFirst_card (db_cards db) idParam boardId with
  | None => throw db (HttpError 404 "Card not found")
  | Some card => mkOutcome (Ok card) db [] []
  end.

(** ** POST /cards/:id/move *)

Record CardMoveBody := mkMoveBody {
  mv_toColumn : ColumnId;
  mv_toIndex : Z
}.

(** [toIndex: z.number().int().min(0)]; [toColumn] is of the enum by its type. *)
Definition CardMoveSchema (b : CardMoveBody) : bool := bool_decide (0 ≤ mv_toIndex b).

Definition position_writes (ids : list string) : list (string * CardPatch) :=
  imap (λ position cardId, (cardId, mkPatch None (Z.of_nat position))) ids.

Definition position_column_writes (id : string) (toColumn : ColumnId) (ids : list string)
    : list (string * CardPatch) :=
  imap (λ position cardId,
          (cardId, if decide (cardId = id)
                   then mkPatch (Some toColumn) (Z.of_nat position)
                   else mkPatch None (Z.of_nat position))) ids.

Definition post_cards_move `{Platform} (db : Db) (boardId actorId idParam : string)
    (body : CardMoveBody) : Outcome unit :=
  if negb (isUuid idParam) then throw db ZodError else
  if negb (CardMoveSchema body) then throw db ZodError else
  let id := idParam in
  let toColumn := mv_toColumn body in
  let toIndex := mv_toIndex body in
  match findFirst_card (db_cards db) id boardId with
  | None => throw db (HttpError 404 "Card not found")
  | Some card =>
      let fromColumn := card_column card in
      let fromCards := findMany_column (db_cards db) boardId fromColumn in
      let toCards :=
        if decide (fromColumn = toColumn) then fromCards
        else findMany_column (db_cards db) boardId toColumn in
      let fromIds := card_id <$> fromCards in
      let toIds := card_id <$> toCards in
      if decide (fromColumn = toColumn) then
        let ids := removeFrom id fromIds in
        let idx := clamp toIndex 0 (Z.of_nat (length ids)) in
        let ids := splice_insert (Z.to_nat idx) id ids in
        let tx := position_writes ids in
        match transaction tx (db_cards db) with
        | None => mkOutcome (Throw PrismaError) db tx []
        | Some cs => mkOutcome (Ok ()) (set_cards cs db) tx []
        end
      else
        let newFrom := removeFrom id fromIds in
        let newTo := removeFrom id toIds in
        let idx := clamp toIndex 0 (Z.of_nat (length newTo)) in
        let newTo := splice_insert (Z.to_nat idx) id newTo in
        let tx := position_writes newFrom ++ position_column_writes id toColumn newTo in
        match transaction tx (db_cards db) with
        | None => mkOutcome (Throw PrismaError) db tx []
        | Some cs =>
            mkOutcome (Ok ()) (set_cards cs db) tx
                      [mkNotification id actorId moved (Some fromColumn) (Some toColumn)]
        end
  end.

(** ** DELETE /cards/:id

    The row is deleted; its participants go with it (ON DELETE CASCADE).  No
    other card is written. *)
Definition delete_card `{Platform} (db : Db) (boardId idParam : string) : Outcome unit :=
  if negb (isUuid idParam) then throw db ZodError else
  match findFirst_card (db_cards db) idParam boardId with
  | None => throw db (HttpError 404 "Card not found")
  | Some _ =>
      let cs := filter (λ c, card_id c ≠ idParam) (db_cards db) in
      let ps := filter (λ p, cp_cardId p ≠ idParam) (db_participants db) in
      mkOutcome (Ok ()) (set_participants ps (set_cards cs db)) [] []
  end.

(** ** What GET /board shows of a partition *)

(** The ids, and the positions, of the cards of a partition in ascending
    order of position. *)
Definition column_ids (cs : list Card) (boardId : string) (column : ColumnId) : list string :=
  card_id <$> findMany_column cs boardId column.

Definition positions (cs : list Card) (boardId : string) (column : ColumnId) : list Z :=
  card_position <$> findMany_column cs boardId column.

(** [0, 1, ..., n-1]. *)
Definition iota (n : nat) : list Z := Z.of_nat <$> seq 0 n.

(** A partition is dense when its positions in ascending order are exactly
    [0, 1, ..., n-1]. *)
Definition dense (cs : list Card) (boardId : string) (column : ColumnId) : Prop :=
  positions cs boardId column = iota (length (positions cs boardId column)).

Global Instance dense_dec cs b col : Decision (dense cs b col).
Proof. unfold dense. apply _. Defined.

(** Primary key of table [Card]. *)
Definition cards_wf (cs : list Card) : Prop := NoDup (card_id <$> cs).

(** ** Sequences of card operations *)

Inductive CardOp :=
  | OpCreate (boardId userId newId : string) (body : CardCreateBody)
  | OpMove (boardId actorId id : string) (body : CardMoveBody)
  | OpDelete (boardId id : string).

Definition step `{Platform} (db : Db) (op : CardOp) : Db :=
  match op with
  | OpCreate b u newId body => out_db (post_cards db b u newId body)
  | OpMove b a id body => out_db (post_cards_move db b a id body)
  | OpDelete b id => out_db (delete_card db b id)
  end.

Definition run `{Platform} (db : Db) (ops : list CardOp) : Db := foldl step db ops.

Definition is_delete (op : CardOp) : bool :=
  match op with OpDelete _ _ => true | _ => false end.

(** ** Closed form of a batch of updates *)

Fixpoint index_of (x : string) (l : list string) : option nat :=
  match l with
  | [] => None
  | y :: l' => if decide (y = x) then Some 0%nat else S <$> index_of x l'
  end.

Fixpoint tx_lookup (id : string) (tx : list (string * CardPatch)) : option CardPatch :=
  match tx with
  | [] => None
  | (i, p) :: tx' => if decide (i = id) then Some p else tx_lookup id tx'
  end.

Definition rewrite_card (tx : list (string * CardPatch)) (c : Card) : Card :=
  match tx_lookup (card_id c) tx with
  | Some p => apply_patch p c
  | None => c
  end.

(** A platform to evaluate the handlers on concrete requests: every id is
    accepted as a uuid, hashes are the identity, a one-time code is valid
    when it equals the secret. *)
Definition test_platform : Platform := {|
  isUuid := λ _, true;
  isEmail := λ _, true;
  isDatetime := λ _, true;
  hashPassword := λ s, s;
  verifyPassword := λ p h, bool_decide (p = h);
  verifyTotp := λ t s, bool_decide (t = s);
  sha256Hex := λ s, s;
  trim := λ s, s;
  toLowerCase := λ s, s;
  equalsInsensitive := λ a b, bool_decide (a = b)
|}.

(** The index of a card id in an id list, as a position ([0] for an id that
    is not in the list). *)
Definition rank (ids : list string) (x : string) : Z :=
  match index_of x ids with Some i => Z.of_nat i | None => 0 end.

(** The id lists the move handler computes for the card [id] and the
    requested index: the new order of the column for a move inside one
    column, and the new orders of the source and of the destination for a
    move across columns. *)
Definition same_ids (cs : list Card) (b id : string) (X : ColumnId) (toIndex : Z) : list string :=
  let ids := removeFrom id (column_ids cs b X) in
  splice_insert (Z.to_nat (clamp toIndex 0 (Z.of_nat (length ids)))) id ids.

Definition new_from_ids (cs : list Card) (b id : string) (X : ColumnId) : list string :=
  removeFrom id (column_ids cs b X).

Definition new_to_ids (cs : list Card) (b id : string) (Y : ColumnId) (toIndex : Z) : list string :=
  let newTo := removeFrom id (column_ids cs b Y) in
  splice_insert (Z.to_nat (clamp toIndex 0 (Z.of_nat (length newTo)))) id newTo.

Definition cross_writes (cs : list Card) (b id : string) (X Y : ColumnId) (toIndex : Z)
    : list (string * CardPatch) :=
  position_writes (new_from_ids cs b id X)
  ++ position_column_writes id Y (new_to_ids cs b id Y toIndex).

(** ** Invariants of the table of cards *)

(** Every partition is dense. *)
Definition all_dense (cs : list Card) : Prop := ∀ b col, dense cs b col.

(** No two cards of a partition share a position. *)
Definition distinct_positions (cs : list Card) : Prop := ∀ b col, NoDup (positions cs b col).

(* ================================================================== *)
(** * Authorization gate ([backend/src/auth/middleware.ts], [routes.ts]) *)
(* ================================================================== *)

(** [prisma.user.findUnique({ where: { id } })]. *)
Definition findUnique_user (db : Db) (id : string) : option User :=
  snd <$> list_find (λ u, user_id u = id) (db_users db).

(** [getAuthUser]: the user the session names, if the row still exists.
    [AuthUser] is a selection of the columns of [User]. *)
Definition getAuthUser (db : Db) (sess : Session) : option User :=
  match truthy (sess_user sess) with
  | None => None
  | Some userId => findUnique_user db userId
  end.

Definition requireLogin (db : Db) (sess : Session) : Result User :=
  match getAuthUser db sess with
  | None => Throw (HttpError 401 "Unauthorized")
  | Some u => Ok u
  end.

(** [requireTwoFactor] reads [req.user], which [requireLogin] has set. *)
Definition requireTwoFactor (user : option User) (sess : Session) : Result unit :=
  match user with
  | None => Throw (HttpError 401 "Unauthorized")
  | Some u =>
      if negb (user_totpEnabled u) then Throw (HttpError 403 "2FA setup required")
      else if negb (sess_twoFactorPassed sess) then Throw (HttpError 401 "Two-factor required")
      else Ok ()
  end.

Definition requireAdmin (user : option User) : Result unit :=
  match user with
  | None => Throw (HttpError 401 "Unauthorized")
  | Some u =>
      if decide (user_role u ≠ ADMIN) then Throw (HttpError 403 "Forbidden") else Ok ()
  end.

(** [prisma.boardMembership.findUnique({ where: { boardId_userId } })]. *)
Definition has_membership (db : Db) (boardId userId : string) : bool :=
  bool_decide (mkMembership boardId userId ∈ db_memberships db).

Definition requireBoardContext (db : Db) (u : User) (sess : Session) : Result string :=
  match truthy (sess_boardId sess) with
  | None => Throw (HttpError 400 "Board not selected")
  | Some boardId =>
      if bool_decide (user_role u ≠ ADMIN) && negb (has_membership db boardId (user_id u))
      then Throw (HttpError 403 "Forbidden")
      else Ok boardId
  end.

(** The middleware in front of every board and card endpoint:
    [router.use(requireLogin(), requireTwoFactor())], then
    [router.use(requireBoardContext())]. *)
Definition card_gate (db : Db) (sess : Session) : Result (User * string) :=
  match requireLogin db sess with
  | Throw e => Throw e
  | Ok u =>
      match requireTwoFactor (Some u) sess with
      | Throw e => Throw e
      | Ok _ =>
          match requireBoardContext db u sess with
          | Throw e => Throw e
          | Ok boardId => Ok (u, boardId)
          end
      end
  end.

(** The card endpoints behind the gate. *)
Definition route_get_card `{Platform} (db : Db) (sess : Session) (idParam : string)
    : Outcome Card :=
  match card_gate db sess with
  | Throw e => throw db e
  | Ok (u, boardId) => get_card db boardId idParam
  end.

Definition route_post_cards `{Platform} (db : Db) (sess : Session) (newId : string)
    (body : CardCreateBody) : Outcome Card :=
  match card_gate db sess with
  | Throw e => throw db e
  | Ok (u, boardId) => post_cards db boardId (user_id u) newId body
  end.

Definition route_post_cards_move `{Platform} (db : Db) (sess : Session) (idParam : string)
    (body : CardMoveBody) : Outcome unit :=
  match card_gate db sess with
  | Throw e => throw db e
  | Ok (u, boardId) => post_cards_move db boardId (user_id u) idParam body
  end.

(* ================================================================== *)
(** * The view router of the client ([frontend/src/App.tsx])            *)
(* ================================================================== *)

(** What GET /auth/me reports, as the client keeps it in [me]. *)
Record Me := mkMe {
  me_user : option User;
  me_twoFactorPassed : bool
}.

Definition get_me (db : Db) (sess : Session) : Me :=
  match truthy (sess_user sess) with
  | None => mkMe None false
  | Some userId => mkMe (findUnique_user db userId) (sess_twoFactorPassed sess)
  end.

Inductive View :=
  | LoadingView | ResetPasswordView | LoginView
  | ChangePasswordView | TwoFaSetupView | TwoFaVerifyView | BoardView.

(** The chain of early returns of [App]. *)
Definition App_view (me : option Me) (resetToken : option string) : View :=
  match me with
  | None => LoadingView
  | Some me =>
      match truthy resetToken with
      | Some _ => ResetPasswordView
      | None =>
          match me_user me with
          | None => LoginView
          | Some u =>
              if user_mustChangePassword u then ChangePasswordView
              else if negb (user_totpEnabled u) then TwoFaSetupView
              else if negb (me_twoFactorPassed me) then TwoFaVerifyView
              else BoardView
          end
      end
  end.

(* ================================================================== *)
(** * Sessions and trusted devices                                      *)
(* ================================================================== *)

(** express-session: the session of a request is the row its cookie names,
    or a fresh empty session. *)
Definition session_load (db : Db) (sid : string) : Session :=
  match list_find (λ r, r.1 = sid) (db_sessions db) with
  | Some (_, (_, sess)) => sess
  | None => empty_session
  end.

(** [DELETE FROM "session" WHERE (sess->'user'->>'userId') = userId]. *)
Definition delete_user_sessions (userId : string) (db : Db) : Db :=
  set_sessions (filter (λ r, sess_user r.2 ≠ Some userId) (db_sessions db)) db.

(** [verifyTrustedDeviceToken] of [auth/trustedDevice.ts]: a row of the
    user with the hash of the token that has not expired; its [lastUsedAt]
    is refreshed. *)
Definition verifyTrustedDeviceToken `{Platform} (db : Db) (userId token : string) (now : Z)
    : bool * Db :=
  let tokenHash := sha256Hex token in
  match list_find (λ d, td_userId d = userId ∧ td_tokenHash d = tokenHash
                        ∧ now < td_expiresAt d) (db_trustedDevices db) with
  | None => (false, db)
  | Some (_, d) =>
      (true,
       set_trustedDevices
         ((λ d', if decide (td_id d' = td_id d)
                 then mkTrustedDevice (td_id d') (td_userId d') (td_tokenHash d')
                                      (td_expiresAt d') now
                 else d') <$> db_trustedDevices db) db)
  end.

Definition DAYS : Z := 30.

(** [issueTrustedDevice]; [token] is the fresh random token and [newId]
    the id of the new row.  The row is rejected when the id or the hash is
    taken, or the user is gone. *)
Definition issueTrustedDevice `{Platform} (db : Db) (userId token newId : string) (now : Z)
    : option Db :=
  let tokenHash := sha256Hex token in
  let expiresAt := now + DAYS * 24 * 60 * 60 * 1000 in
  if decide (newId ∈ td_id <$> db_trustedDevices db
             ∨ tokenHash ∈ td_tokenHash <$> db_trustedDevices db
             ∨ userId ∉ user_id <$> db_users db)
  then None
  else Some (set_trustedDevices
               (db_trustedDevices db ++ [mkTrustedDevice newId userId tokenHash expiresAt now])
               db).

(* ================================================================== *)
(** * Authentication ([backend/src/auth/routes.ts])                     *)
(* ================================================================== *)

(** Outcome of an authentication handler: response, store, the session of
    the request afterwards, and the trusted-device cookie it set. *)
Record AuthOutcome (A : Type) := mkAuthOutcome {
  a_result : Result A;
  a_db : Db;
  a_session : Session;
  a_trustCookie : option string
}.
Arguments mkAuthOutcome {A} _ _ _ _.
Arguments a_result {A} _.
Arguments a_db {A} _.
Arguments a_session {A} _.
Arguments a_trustCookie {A} _.

Definition auth_throw {A} (db : Db) (sess : Session) (e : Failure) : AuthOutcome A :=
  mkAuthOutcome (Throw e) db sess None.

(** [s.includes("@")]. *)
Fixpoint includesAt (s : string) : bool :=
  match s with
  | EmptyString => false
  | String c s' => if Ascii.eqb c "@"%char then true else includesAt s'
  end.

(** [prisma.user.findFirst({ where: { email: { equals, mode: "insensitive" } } })]. *)
Definition findFirst_user_by_email `{Platform} (db : Db) (email : string) : option User :=
  snd <$> list_find (λ u, equalsInsensitive (user_email u) email = true) (db_users db).

(** [prisma.user.findMany({ where: { name: { equals, mode: "insensitive" } }, take: 2 })]. *)
Definition findMany_users_by_name `{Platform} (db : Db) (name : string) : list User :=
  take 2 (filter (λ u, equalsInsensitive (user_name u) name = true) (db_users db)).

(** ** POST /auth/login *)

Record LoginBody := mkLoginBody {
  lb_login : string;
  lb_password : string;
  lb_totp : option string;
  lb_rememberDevice : option bool
}.

Definition LoginSchema (b : LoginBody) : bool :=
  bool_decide (1 ≤ String.length (lb_login b))%nat
  && bool_decide (1 ≤ String.length (lb_password b))%nat
  && match lb_totp b with
     | Some t => bool_decide (6 ≤ String.length t)%nat && bool_decide (String.length t ≤ 8)%nat
     | None => true
     end.

(** What the request carries besides its body: the value of the
    trusted-device cookie ([getTrustedDeviceCookie]), the time, and the
    random token and row id an issued trusted device would get. *)
Record LoginEnv := mkLoginEnv {
  le_trustCookie : option string;
  le_now : Z;
  le_newToken : string;
  le_newDeviceId : string
}.

(** The identifier resolution of the login handler. *)
Definition login_resolve `{Platform} (db : Db) (login : string) : Result (option User) :=
  let normalized := trim login in
  let lower := toLowerCase normalized in
  if decide (lower = "admin") then Ok (findFirst_user_by_email db "admin@local")
  else if includesAt normalized then Ok (findFirst_user_by_email db normalized)
  else
    let matches := findMany_users_by_name db normalized in
    match matches with
    | [u] => Ok (Some u)
    | [] => Ok None
    | _ => Throw (HttpError 400 "Ambiguous login, use email")
    end.

(** The board the session starts on: the default board of the user, or
    else the board of their earliest membership, or none. *)
Definition login_board (db : Db) (u : User) : option string :=
  match truthy (user_defaultBoardId u) with
  | Some b => Some b
  | None =>
      truthy (bm_boardId <$> (snd <$> list_find (λ m, bm_userId m = user_id u)
                                                (db_memberships db)))
  end.

Record LoginResponse := mkLoginResponse {
  resp_user : User;
  resp_twoFactorPassed : bool;
  resp_currentBoardId : option string
}.

Definition login_success (db : Db) (u : User) (cookie : option string)
    : AuthOutcome LoginResponse :=
  let sess := mkSession (Some (user_id u)) (user_totpEnabled u) (login_board db u) in
  mkAuthOutcome (Ok (mkLoginResponse u (sess_twoFactorPassed sess) (sess_boardId sess)))
                db sess cookie.

Definition post_login `{Platform} (db : Db) (sess : Session) (env : LoginEnv) (body : LoginBody)
    : AuthOutcome LoginResponse :=
  if negb (LoginSchema body) then auth_throw db sess ZodError else
  match login_resolve db (lb_login body) with
  | Throw e => auth_throw db sess e
  | Ok None => auth_throw db sess (HttpError 401 "Invalid credentials")
  | Ok (Some u) =>
      if negb (verifyPassword (lb_password body) (user_passwordHash u))
      then auth_throw db sess (HttpError 401 "Invalid credentials")
      else if user_totpEnabled u then
        match truthy (user_totpSecret u) with
        | None => auth_throw db sess (HttpError 500 "2FA misconfigured")
        | Some secret =>
            match truthy (lb_totp body) with
            | Some totp =>
                if negb (verifyTotp totp secret)
                then auth_throw db sess (HttpError 401 "Invalid 2FA code")
                else if default false (lb_rememberDevice body) then
                  match issueTrustedDevice db (user_id u) (le_newToken env)
                                           (le_newDeviceId env) (le_now env) with
                  | None => auth_throw db sess PrismaError
                  | Some db' => login_success db' u (Some (le_newToken env))
                  end
                else login_success db u None
            | None =>
                match truthy (le_trustCookie env) with
                | None => auth_throw db sess (HttpError 401 "Two-factor required")
                | Some token =>
                    let '(ok, db') := verifyTrustedDeviceToken db (user_id u) token (le_now env) in
                    if ok then login_success db' u None
                    else auth_throw db sess (HttpError 401 "Two-factor required")
                end
            end
        end
      else login_success db u None
  end.

(** ** User rows *)

Definition with_password (passwordHash : string) (must : bool) (u : User) : User :=
  mkUser (user_id u) (user_email u) (user_name u) (user_role u) (user_isSystem u)
         passwordHash must (user_totpEnabled u) (user_totpSecret u)
         (user_totpTempSecret u) (user_defaultBoardId u).

Definition with_totp (enabled : bool) (secret temp : option string) (u : User) : User :=
  mkUser (user_id u) (user_email u) (user_name u) (user_role u) (user_isSystem u)
         (user_passwordHash u) (user_mustChangePassword u) enabled secret temp
         (user_defaultBoardId u).

Definition with_defaultBoardId (b : option string) (u : User) : User :=
  mkUser (user_id u) (user_email u) (user_name u) (user_role u) (user_isSystem u)
         (user_passwordHash u) (user_mustChangePassword u) (user_totpEnabled u)
         (user_totpSecret u) (user_totpTempSecret u) b.

Definition with_email_role (email : option string) (role : option Role) (u : User) : User :=
  mkUser (user_id u) (default (user_email u) email) (user_name u)
         (default (user_role u) role) (user_isSystem u)
         (user_passwordHash u) (user_mustChangePassword u) (user_totpEnabled u)
         (user_totpSecret u) (user_totpTempSecret u) (user_defaultBoardId u).

(** [prisma.user.update({ where: { id }, data })]: rejects when no row has
    the id. *)
Definition user_update (id : string) (f : User → User) (db : Db) : option Db :=
  if decide (id ∈ user_id <$> db_users db)
  then Some (set_users ((λ u, if decide (user_id u = id) then f u else u) <$> db_users db) db)
  else None.

(** ** POST /auth/password *)

Definition ChangePasswordSchema (newPassword : string) : bool :=
  bool_decide (8 ≤ String.length newPassword)%nat.

Definition post_password `{Platform} (db : Db) (sess : Session) (newPassword : string)
    : AuthOutcome unit :=
  match requireLogin db sess with
  | Throw e => auth_throw db sess e
  | Ok u =>
      if negb (ChangePasswordSchema newPassword) then auth_throw db sess ZodError else
      match user_update (user_id u) (with_password (hashPassword newPassword) false) db with
      | None => auth_throw db sess PrismaError
      | Some db' => mkAuthOutcome (Ok ()) db' sess None
      end
  end.

(** ** POST /auth/password/reset *)

Record ResetPasswordBody := mkResetBody {
  rb_token : string;
  rb_newPassword : string
}.

Definition ResetPasswordSchema (b : ResetPasswordBody) : bool :=
  bool_decide (20 ≤ String.length (rb_token b))%nat
  && bool_decide (8 ≤ String.length (rb_newPassword b))%nat.

Definition mark_used (id : string) (now : Z) (db : Db) : Db :=
  set_resetTokens
    ((λ r, if decide (prt_id r = id)
           then mkResetToken (prt_id r) (prt_userId r) (prt_tokenHash r) (prt_expiresAt r)
                             (Some now)
           else r) <$> db_resetTokens db) db.

(** The transaction: new hash, token marked used, sessions of the user
    deleted. *)
Definition post_password_reset `{Platform} (db : Db) (now : Z) (body : ResetPasswordBody)
    : Result unit * Db :=
  if negb (ResetPasswordSchema body) then (Throw ZodError, db) else
  let tokenHash := sha256Hex (rb_token body) in
  match list_find (λ r, prt_tokenHash r = tokenHash ∧ now < prt_expiresAt r
                        ∧ prt_usedAt r = None) (db_resetTokens db) with
  | None => (Throw (HttpError 400 "Invalid or expired token"), db)
  | Some (_, rec) =>
      let passwordHash := hashPassword (rb_newPassword body) in
      match user_update (prt_userId rec) (with_password passwordHash false) db with
      | None => (Throw PrismaError, db)
      | Some db1 =>
          let db2 := mark_used (prt_id rec) now db1 in
          let db3 := delete_user_sessions (prt_userId rec) db2 in
          (Ok (), db3)
      end
  end.

(** ** POST /auth/password/reset-by-totp *)

Record ResetByTotpBody := mkResetByTotpBody {
  rt_login : string;
  rt_code : string;
  rt_newPassword : string
}.

Definition ResetPasswordByTotpSchema (b : ResetByTotpBody) : bool :=
  bool_decide (1 ≤ String.length (rt_login b))%nat
  && bool_decide (6 ≤ String.length (rt_code b))%nat
  && bool_decide (String.length (rt_code b) ≤ 8)%nat
  && bool_decide (8 ≤ String.length (rt_newPassword b))%nat.

Definition reset_resolve `{Platform} (db : Db) (login : string) : option User :=
  let normalized := trim login in
  let lower := toLowerCase normalized in
  if includesAt normalized then findFirst_user_by_email db normalized
  else
    match findMany_users_by_name db lower with
    | [u] => Some u
    | _ => None
    end.

Definition delete_user_trustedDevices (userId : string) (db : Db) : Db :=
  set_trustedDevices (filter (λ d, td_userId d ≠ userId) (db_trustedDevices db)) db.

(** The transaction: new hash, sessions of the user deleted, trusted
    devices of the user deleted. *)
Definition post_password_reset_by_totp `{Platform} (db : Db) (body : ResetByTotpBody)
    : Result unit * Db :=
  if negb (ResetPasswordByTotpSchema body) then (Throw ZodError, db) else
  match reset_resolve db (rt_login body) with
  | None => (Throw (HttpError 400 "Password reset not available"), db)
  | Some u =>
      match (if user_totpEnabled u then truthy (user_totpSecret u) else None) with
      | None => (Throw (HttpError 400 "Password reset not available"), db)
      | Some secret =>
          if negb (verifyTotp (trim (rt_code body)) secret)
          then (Throw (HttpError 400 "Invalid code"), db)
          else
            let passwordHash := hashPassword (rt_newPassword body) in
            match user_update (user_id u) (with_password passwordHash false) db with
            | None => (Throw PrismaError, db)
            | Some db1 =>
                let db2 := delete_user_sessions (user_id u) db1 in
                let db3 := delete_user_trustedDevices (user_id u) db2 in
                (Ok (), db3)
            end
      end
  end.

(** ** POST /auth/2fa/setup, /auth/2fa/enable *)

Definition CodeSchema (code : string) : bool :=
  bool_decide (6 ≤ String.length code)%nat && bool_decide (String.length code ≤ 8)%nat.

(** [secret] is the secret [generateTotpSecret] draws. *)
Definition post_2fa_setup (db : Db) (sess : Session) (secret : string) : AuthOutcome string :=
  match requireLogin db sess with
  | Throw e => auth_throw db sess e
  | Ok u =>
      match findUnique_user db (user_id u) with
      | None => auth_throw db sess (HttpError 404 "User not found")
      | Some u =>
          match user_update (user_id u)
                  (λ u, with_totp (user_totpEnabled u) (user_totpSecret u) (Some secret) u) db with
          | None => auth_throw db sess PrismaError
          | Some db' => mkAuthOutcome (Ok secret) db' sess None
          end
      end
  end.

Definition post_2fa_enable `{Platform} (db : Db) (sess : Session) (code : string)
    : AuthOutcome unit :=
  match requireLogin db sess with
  | Throw e => auth_throw db sess e
  | Ok u =>
      if negb (CodeSchema code) then auth_throw db sess ZodError else
      match findUnique_user db (user_id u) with
      | None => auth_throw db sess (HttpError 400 "No 2FA setup in progress")
      | Some u =>
          match truthy (user_totpTempSecret u) with
          | None => auth_throw db sess (HttpError 400 "No 2FA setup in progress")
          | Some temp =>
              if negb (verifyTotp code temp)
              then auth_throw db sess (HttpError 400 "Invalid code")
              else
                match user_update (user_id u) (with_totp true (Some temp) None) db with
                | None => auth_throw db sess PrismaError
                | Some db' =>
                    mkAuthOutcome (Ok ()) db'
                      (mkSession (sess_user sess) true (sess_boardId sess)) None
                end
          end
      end
  end.

(* ================================================================== *)
(** * Admin user management ([backend/src/auth/routes.ts])              *)
(* ================================================================== *)

Definition count_admins (l : list User) : nat :=
  length (filter (λ u, user_role u = ADMIN) l).

(** [prisma.user.count({ where: { role: Role.ADMIN } })]. *)
Definition admin_count (db : Db) : nat := count_admins (db_users db).

(** Primary key of table [User]. *)
Definition users_wf (db : Db) : Prop := NoDup (user_id <$> db_users db).

(** [prisma.board.findFirst({ orderBy: { createdAt: "asc" } })?.id]. *)
Definition first_board (db : Db) : option string := board_id <$> head (db_boards db).

(** [requireLogin(), requireTwoFactor(), requireAdmin()]. *)
Definition admin_gate (db : Db) (sess : Session) : Result User :=
  match requireLogin db sess with
  | Throw e => Throw e
  | Ok u =>
      match requireTwoFactor (Some u) sess with
      | Throw e => Throw e
      | Ok _ =>
          match requireAdmin (Some u) with
          | Throw e => Throw e
          | Ok _ => Ok u
          end
      end
  end.

(** ** POST /auth/users *)

Record CreateUserBody := mkCreateUserBody {
  cu_email : string;
  cu_name : option string;
  cu_role : option Role;
  cu_password : string
}.

Definition CreateUserSchema `{Platform} (b : CreateUserBody) : bool :=
  isEmail (cu_email b)
  && match cu_name b with Some n => bool_decide (1 ≤ String.length n)%nat | None => true end
  && bool_decide (8 ≤ String.length (cu_password b))%nat.

(** [email.split("@")[0]]. *)
Fixpoint before_at (s : string) : string :=
  match s with
  | EmptyString => EmptyString
  | String c s' => if Ascii.eqb c "@"%char then EmptyString else String c (before_at s')
  end.

(** The new row gets the id [newId]; the unique indexes on id and e-mail
    and the foreign key to the board reject the insert. *)
Definition post_users `{Platform} (db : Db) (sess : Session) (newId : string)
    (body : CreateUserBody) : Result User * Db :=
  if negb (CreateUserSchema body) then (Throw ZodError, db) else
  let boardId :=
    match sess_boardId sess with
    | Some b => Some b
    | None => first_board db
    end in
  match truthy boardId with
  | None => (Throw (HttpError 500 "No boards exist"), db)
  | Some boardId =>
      let user :=
        mkUser newId (cu_email body)
               (default (before_at (cu_email body)) (cu_name body))
               (default MEMBER (cu_role body)) false
               (hashPassword (cu_password body)) true false None None (Some boardId) in
      if decide (newId ∈ user_id <$> db_users db
                 ∨ cu_email body ∈ user_email <$> db_users db
                 ∨ boardId ∉ board_id <$> db_boards db)
      then (Throw PrismaError, db)
      else (Ok user,
            set_memberships (db_memberships db ++ [mkMembership boardId newId])
              (set_users (db_users db ++ [user]) db))
  end.

(** ** POST /auth/users/:id/password *)

Definition post_user_password `{Platform} (db : Db) (idParam newPassword : string)
    : Result unit * Db :=
  if negb (isUuid idParam) then (Throw ZodError, db) else
  if negb (ChangePasswordSchema newPassword) then (Throw ZodError, db) else
  match user_update idParam (with_password (hashPassword newPassword) true) db with
  | None => (Throw PrismaError, db)
  | Some db' => (Ok (), db')
  end.

(** ** PATCH /auth/users/:id *)

Record AdminUpdateUserBody := mkAdminUpdateBody {
  au_email : option string;
  au_role : option Role
}.

Definition AdminUpdateUserSchema `{Platform} (b : AdminUpdateUserBody) : bool :=
  match au_email b with Some e => isEmail e | None => true end.

(** [findFirst({ where: { email: { equals, mode: "insensitive" }, NOT: { id } } })]. *)
Definition email_taken `{Platform} (db : Db) (email id : string) : bool :=
  bool_decide (is_Some (list_find (λ u, equalsInsensitive (user_email u) email = true
                                        ∧ user_id u ≠ id) (db_users db))).

(** The transaction of the handler: a user who ends up MEMBER without any
    membership gets one, on their default board, or else the oldest board,
    or else the default board; then e-mail and role are written. *)
Definition patch_user_tx (db : Db) (u : User) (body : AdminUpdateUserBody) : option Db :=
  let id := user_id u in
  let nextRole := default (user_role u) (au_role body) in
  let count := length (filter (λ m, bm_userId m = id) (db_memberships db)) in
  let step1 :=
    if bool_decide (nextRole = MEMBER) && bool_decide (count = 0%nat) then
      let boardId :=
        default (default DEFAULT_BOARD_ID (first_board db)) (user_defaultBoardId u) in
      if decide (boardId ∈ board_id <$> db_boards db)
      then user_update id (with_defaultBoardId (Some boardId))
             (set_memberships (db_memberships db ++ [mkMembership boardId id]) db)
      else None
    else Some db in
  match step1 with
  | None => None
  | Some db1 =>
      if bool_decide (is_Some (list_find (λ u', Some (user_email u') = au_email body
                                                ∧ user_id u' ≠ id) (db_users db1)))
      then None
      else user_update id (with_email_role (au_email body) (au_role body)) db1
  end.

Definition patch_user `{Platform} (db : Db) (idParam : string) (body : AdminUpdateUserBody)
    : Result User * Db :=
  if negb (isUuid idParam) then (Throw ZodError, db) else
  if negb (AdminUpdateUserSchema body) then (Throw ZodError, db) else
  match findUnique_user db idParam with
  | None => (Throw (HttpError 404 "User not found"), db)
  | Some u =>
      if user_isSystem u && bool_decide (au_role body ≠ None)
      then (Throw (HttpError 400 "Cannot change role for system admin"), db)
      else if bool_decide (au_role body = Some MEMBER) && bool_decide (user_role u = ADMIN)
              && bool_decide (admin_count db ≤ 1)%nat
      then (Throw (HttpError 400 "Cannot demote last admin"), db)
      else if match truthy (au_email body) with
              | Some e => email_taken db e idParam
              | None => false
              end
      then (Throw (HttpError 400 "Email already exists"), db)
      else
        match patch_user_tx db u body with
        | None => (Throw PrismaError, db)
        | Some db' =>
            match findUnique_user db' idParam with
            | Some u' => (Ok u', db')
            | None => (Throw PrismaError, db)
            end
        end
  end.

(** ** DELETE /auth/users/:id *)

Definition clear_author (userId : string) (c : Card) : Card :=
  mkCard (card_id c) (card_boardId c) (card_description c) (card_details c)
         (card_assignee c) (card_dueDate c) (card_column c) (card_position c)
         (card_importance c) (card_paused c)
         (if decide (card_authorId c = Some userId) then None else card_authorId c).

(** [prisma.user.delete({ where: { id } })] with the cascades of the
    schema: memberships, trusted devices, reset tokens and participations
    go with the user; cards keep their place and lose their author. *)
Definition user_delete (id : string) (db : Db) : Db :=
  mkDb (filter (λ u, user_id u ≠ id) (db_users db))
       (db_boards db)
       (filter (λ m, bm_userId m ≠ id) (db_memberships db))
       (clear_author id <$> db_cards db)
       (filter (λ p, cp_userId p ≠ id) (db_participants db))
       (filter (λ d, td_userId d ≠ id) (db_trustedDevices db))
       (filter (λ r, prt_userId r ≠ id) (db_resetTokens db))
       (db_sessions db).

Definition delete_user `{Platform} (db : Db) (actorId idParam : string) : Result unit * Db :=
  if negb (isUuid idParam) then (Throw ZodError, db) else
  if decide (idParam = actorId) then (Throw (HttpError 400 "Cannot delete yourself"), db) else
  match findUnique_user db idParam with
  | None => (Throw (HttpError 404 "User not found"), db)
  | Some u =>
      if user_isSystem u then (Throw (HttpError 400 "Cannot delete system admin"), db)
      else if bool_decide (user_role u = ADMIN) && bool_decide (admin_count db ≤ 1)%nat
      then (Throw (HttpError 400 "Cannot delete last admin"), db)
      else (Ok (), user_delete idParam (delete_user_sessions idParam db))
  end.

(** ** PUT /auth/users/:id/boards *)

Record SetUserBoardsBody := mkSetBoardsBody {
  sb_boardIds : list string;
  sb_defaultBoardId : string
}.

Definition BoardIdSchema `{Platform} (s : string) : bool :=
  isUuid s || bool_decide (s = DEFAULT_BOARD_ID).

Definition SetUserBoardsSchema `{Platform} (b : SetUserBoardsBody) : bool :=
  forallb BoardIdSchema (sb_boardIds b)
  && bool_decide (1 ≤ length (sb_boardIds b))%nat
  && BoardIdSchema (sb_defaultBoardId b).

(** [upsert] of one membership per requested board, in the order given. *)
Definition upsert_memberships (id : string) (boardIds : list string)
    (ms : list BoardMembership) : list BoardMembership :=
  foldl (λ ms b, if decide (mkMembership b id ∈ ms) then ms else ms ++ [mkMembership b id])
        ms boardIds.

Definition put_user_boards `{Platform} (db : Db) (idParam : string) (body : SetUserBoardsBody)
    : Result unit * Db :=
  if negb (isUuid idParam) then (Throw ZodError, db) else
  match findUnique_user db idParam with
  | None => (Throw (HttpError 404 "User not found"), db)
  | Some u =>
      if bool_decide (user_role u = ADMIN) || user_isSystem u
      then (Throw (HttpError 400 "Admins have access to all boards"), db)
      else if negb (SetUserBoardsSchema body) then (Throw ZodError, db)
      else if negb (bool_decide (sb_defaultBoardId body ∈ sb_boardIds body))
      then (Throw (HttpError 400 "defaultBoardId must be included in boardIds"), db)
      else if negb (forallb (λ b, bool_decide (b ∈ board_id <$> db_boards db))
                            (sb_boardIds body))
      then (Throw PrismaError, db)
      else
        match user_update idParam (with_defaultBoardId (Some (sb_defaultBoardId body))) db with
        | None => (Throw PrismaError, db)
        | Some db1 =>
            let kept := filter (λ m, bm_userId m ≠ idParam ∨ bm_boardId m ∈ sb_boardIds body)
                               (db_memberships db1) in
            (Ok (), set_memberships (upsert_memberships idParam (sb_boardIds body) kept) db1)
        end
  end.

(** ** The admin endpoints behind their gate, as operations *)

Inductive AdminOp :=
  | AdminCreateUser (newId : string) (body : CreateUserBody)
  | AdminSetPassword (id newPassword : string)
  | AdminPatchUser (id : string) (body : AdminUpdateUserBody)
  | AdminDeleteUser (id : string)
  | AdminSetBoards (id : string) (body : SetUserBoardsBody).

(** The store after the request [op] sent with session [sess]. *)
Definition admin_step `{Platform} (db : Db) (req : Session * AdminOp) : Db :=
  let '(sess, op) := req in
  match admin_gate db sess with
  | Throw _ => db
  | Ok actor =>
      match op with
      | AdminCreateUser newId body => (post_users db sess newId body).2
      | AdminSetPassword id pw => (post_user_password db id pw).2
      | AdminPatchUser id body => (patch_user db id body).2
      | AdminDeleteUser id => (delete_user db (user_id actor) id).2
      | AdminSetBoards id body => (put_user_boards db id body).2
      end
  end.

Definition admin_run `{Platform} (db : Db) (reqs : list (Session * AdminOp)) : Db :=
  foldl admin_step db reqs.

(** The errors of the business rules on users. *)
Definition user_conflict (e : Failure) : Prop :=
  e = HttpError 400 "Cannot change role for system admin"
  ∨ e = HttpError 400 "Cannot demote last admin"
  ∨ e = HttpError 400 "Cannot delete yourself"
  ∨ e = HttpError 400 "Cannot delete system admin"
  ∨ e = HttpError 400 "Cannot delete last admin".

(* ================================================================== *)
(** * Concrete stores                                                   *)
(* ================================================================== *)

(** The store after [ensureDefaultAdmin] has run on an empty database: the
    default board, and the system admin as its member. *)
Definition seed_db `{Platform} (adminId : string) : Db :=
  mkDb [mkUser adminId "admin@local" "Administrator" ADMIN true (hashPassword "admin")
               true false None None (Some DEFAULT_BOARD_ID)]
       [mkBoard DEFAULT_BOARD_ID "Main board"]
       [mkMembership DEFAULT_BOARD_ID adminId]
       [] [] [] [] [].

Definition todo_card (description : string) : CardCreateBody :=
  mkCreateBody description None None None (Some TODO) None None.

(** Three cards are created in TODO and the middle one is deleted. *)
Definition three_cards_one_deleted : list CardOp :=
  [ OpCreate DEFAULT_BOARD_ID "u0" "a" (todo_card "first");
    OpCreate DEFAULT_BOARD_ID "u0" "b" (todo_card "second");
    OpCreate DEFAULT_BOARD_ID "u0" "c" (todo_card "third");
    OpDelete DEFAULT_BOARD_ID "b" ].

Definition gapped_db : Db :=
  run (H := test_platform) (seed_db (H := test_platform) "u0") three_cards_one_deleted.

(** Three cards are created in TODO; the first goes to the end of the
    column, the second to DONE. *)
Definition three_cards_two_moves : list CardOp :=
  [ OpCreate DEFAULT_BOARD_ID "u0" "a" (todo_card "first");
    OpCreate DEFAULT_BOARD_ID "u0" "b" (todo_card "second");
    OpCreate DEFAULT_BOARD_ID "u0" "c" (todo_card "third");
    OpMove DEFAULT_BOARD_ID "u0" "a" (mkMoveBody TODO 2);
    OpMove DEFAULT_BOARD_ID "u0" "b" (mkMoveBody DONE 0) ].

(** Three cards in TODO, at positions 0, 1 and 2. *)
Definition three_cards_db : Db :=
  run (H := test_platform) (seed_db (H := test_platform) "u0")
      [ OpCreate DEFAULT_BOARD_ID "u0" "a" (todo_card "first");
        OpCreate DEFAULT_BOARD_ID "u0" "b" (todo_card "second");
        OpCreate DEFAULT_BOARD_ID "u0" "c" (todo_card "third") ].

Definition card_a : Card :=
  mkCard "a" DEFAULT_BOARD_ID "first" None None None TODO 0 MEDIUM false (Some "u0").

Definition card_c : Card :=
  mkCard "c" DEFAULT_BOARD_ID "third" None None None TODO 2 MEDIUM false (Some "u0").

(** Two cards in TODO and three in DONE, all on the default board. *)
Definition two_columns_db : Db :=
  set_cards
    [ card_a;
      mkCard "b" DEFAULT_BOARD_ID "second" None None None TODO 1 MEDIUM false (Some "u0");
      mkCard "x" DEFAULT_BOARD_ID "fourth" None None None DONE 0 MEDIUM false (Some "u0");
      mkCard "y" DEFAULT_BOARD_ID "fifth" None None None DONE 1 MEDIUM false (Some "u0");
      mkCard "z" DEFAULT_BOARD_ID "sixth" None None None DONE 2 MEDIUM false (Some "u0") ]
    (seed_db (H := test_platform) "u0").

(** Two boards; the admin has completed two-factor enrollment; one card on
    the default board; a session of the admin on the second board. *)
Definition admin_2fa : User :=
  mkUser "u0" "admin@local" "Administrator" ADMIN true "admin-password" false true
         (Some "secret") None (Some DEFAULT_BOARD_ID).

Definition two_boards_db : Db :=
  mkDb [admin_2fa]
       [mkBoard DEFAULT_BOARD_ID "Main board"; mkBoard "b2" "Second board"]
       [mkMembership DEFAULT_BOARD_ID "u0"]
       [card_a] [] [] [] [].

Definition session_on_b2 : Session := mkSession (Some "u0") true (Some "b2").

(** The bootstrapped admin signs in with the initial password and enrols in
    two-factor authentication, without changing the password. *)
Definition login_env0 : LoginEnv := mkLoginEnv None 0 "device-token-1" "d1".

Definition enrolled_without_password_change : Db * Session :=
  let db0 := seed_db (H := test_platform) "u0" in
  let o1 := post_login (H := test_platform) db0 empty_session login_env0
                       (mkLoginBody "admin" "admin" None None) in
  let o2 := post_2fa_setup (a_db o1) (a_session o1) "secret1" in
  let o3 := post_2fa_enable (H := test_platform) (a_db o2) (a_session o2) "secret1" in
  (a_db o3, a_session o3).

(** Two members with the same display name, and a member who has enrolled
    in two-factor authentication and trusts one device until time 1000. *)
Definition member (id email name password : string) : User :=
  mkUser id email name MEMBER false password false false None None (Some DEFAULT_BOARD_ID).

Definition ann_2fa : User :=
  mkUser "u3" "ann@example.org" "Ann" MEMBER false "ann-password" false true
         (Some "ann-totp") None (Some DEFAULT_BOARD_ID).

Definition login_db : Db :=
  mkDb [admin_2fa; member "u1" "kim@example.org" "Kim" "kim-password-1";
        member "u2" "kim2@example.org" "Kim" "kim-password-2"; ann_2fa]
       [mkBoard DEFAULT_BOARD_ID "Main board"]
       [mkMembership DEFAULT_BOARD_ID "u0"; mkMembership DEFAULT_BOARD_ID "u1";
        mkMembership DEFAULT_BOARD_ID "u2"; mkMembership DEFAULT_BOARD_ID "u3"]
       [] []
       [mkTrustedDevice "d0" "u3" "ann-device-token" 1000 0]
       [mkResetToken "r0" "u3" "ann-reset-token-0123456789" 1000 None]
       [("sid-ann", mkSession (Some "u3") true (Some DEFAULT_BOARD_ID))].

(** The row update [prisma.user.update] applies to the table. *)
Definition upd (id : string) (f : User → User) (u : User) : User :=
  if decide (user_id u = id) then f u else u.

(** Every system user of [db] is still there in [db'], with the same role
    and still marked as system user. *)
Definition system_kept (db db' : Db) : Prop :=
  ∀ u, u ∈ db_users db → user_isSystem u = true →
       ∃ u', u' ∈ db_users db' ∧ user_id u' = user_id u
             ∧ user_role u' = user_role u ∧ user_isSystem u' = true.

(** What one write of an admin request does to the table of users: nothing,
    an insert under a fresh id, an update of the row of one user that keeps
    the role or else concerns a user who is not the system user (and then
    promotes, or leaves another admin), or the delete of a user who is not
    the system user (and not the last admin). *)
Inductive users_change (db : Db) (l' : list User) : Prop :=
  | change_none : l' = db_users db → users_change db l'
  | change_insert u :
      l' = db_users db ++ [u] → user_id u ∉ user_id <$> db_users db → users_change db l'
  | change_update id f u :
      l' = upd id f <$> db_users db →
      (∀ x, user_id (f x) = user_id x ∧ user_isSystem (f x) = user_isSystem x) →
      findUnique_user db id = Some u →
      (user_role (f u) = user_role u
       ∨ user_isSystem u = false
         ∧ (user_role (f u) = ADMIN ∨ user_role u ≠ ADMIN ∨ (2 ≤ admin_count db)%nat)) →
      users_change db l'
  | change_delete id u :
      l' = filter (λ x, user_id x ≠ id) (db_users db) →
      findUnique_user db id = Some u →
      user_isSystem u = false →
      (user_role u = ADMIN → (2 ≤ admin_count db)%nat) →
      users_change db l'.

(** One if the user is an admin, zero otherwise. *)
Definition admin_weight (u : User) : nat := if decide (user_role u = ADMIN) then 1 else 0.

(** An admin signs in, creates the admin [u9], and demotes and deletes. *)
Definition admin_session : Session := mkSession (Some "u0") true (Some DEFAULT_BOARD_ID).

Definition admin_requests : list (Session * AdminOp) :=
  [ (admin_session,
     AdminCreateUser "u9" (mkCreateUserBody "joe@example.org" None (Some ADMIN) "joe-password"));
    (admin_session, AdminPatchUser "u9" (mkAdminUpdateBody None (Some MEMBER)));
    (admin_session, AdminPatchUser "u0" (mkAdminUpdateBody None (Some MEMBER)));
    (admin_session, AdminDeleteUser "u9");
    (admin_session, AdminDeleteUser "u0") ].

(* ================================================================== *)
(** * The board view and the client's copy of it                        *)
(* ================================================================== *)

(** [COLUMNS_IN_ORDER] of [columns.ts]: the ids, without the titles. *)
Definition COLUMNS_IN_ORDER : list ColumnId :=
  [BACKLOG; HIGH_PRIORITY; TODO; IN_PROGRESS; READY_FOR_ACCEPTANCE; DONE].

(** A column of the response of GET /board.  The cards are the rows
    themselves; the response leaves out their details and adds the counts
    of comments and attachments. *)
Record ColumnView := mkColumnView {
  col_id : ColumnId;
  col_cards : list Card
}.

(** GET /board, behind the gate: one query per column, in the order of
    [COLUMNS_IN_ORDER]. *)
Definition get_board (db : Db) (boardId : string) : list ColumnView :=
  (λ col, mkColumnView col (findMany_column (db_cards db) boardId col)) <$> COLUMNS_IN_ORDER.

(** The ids a board view shows, column by column. *)
Definition view_ids (cols : list ColumnView) : list (ColumnId * list string) :=
  (λ v, (col_id v, card_id <$> col_cards v)) <$> cols.

(** [findColumnForCard] of [App.tsx], also the first step of [moveLocally]:
    the first column, in order, that holds a card with the id, and the index
    of the first such card in it. *)
Fixpoint findColumnForCard (cardId : string) (cols : list ColumnView) : option (ColumnId * nat) :=
  match cols with
  | [] => None
  | col :: rest =>
      match list_find (λ c, card_id c = cardId) (col_cards col) with
      | Some (idx, _) => Some (col_id col, idx)
      | None => findColumnForCard cardId rest
      end
  end.

(** [card.column = toColumn]. *)
Definition set_column (column : ColumnId) (c : Card) : Card :=
  mkCard (card_id c) (card_boardId c) (card_description c) (card_details c)
         (card_assignee c) (card_dueDate c) column (card_position c)
         (card_importance c) (card_paused c) (card_authorId c).

(** [arr.splice(idx, 0, card)] for [0 <= idx <= arr.length]. *)
Definition splice_card (idx : nat) (c : Card) (arr : list Card) : list Card :=
  take idx arr ++ c :: drop idx arr.

(** [moveLocally] of [App.tsx]: the new value of the state [columns].
    [next.find(...)!] is the first column with the id; [None] is the
    [TypeError] of reading a property of [undefined], when the card or the
    destination column is not there. *)
Definition moveLocally (prev : list ColumnView) (cardId : string) (toColumn : ColumnId)
    (toIndex : Z) : option (list ColumnView) :=
  match findColumnForCard cardId prev with
  | None => Some prev
  | Some (fromColumn, index) =>
      match list_find (λ c, col_id c = fromColumn) prev with
      | None => None
      | Some (i, fromCol) =>
          match col_cards fromCol !! index with
          | None => None
          | Some card =>
              let next := <[i := mkColumnView (col_id fromCol) (delete index (col_cards fromCol))]> prev in
              let card := set_column toColumn card in
              match list_find (λ c, col_id c = toColumn) next with
              | None => None
              | Some (j, toCol) =>
                  let idx := Z.max 0 (Z.min toIndex (Z.of_nat (length (col_cards toCol)))) in
                  Some (<[j := mkColumnView (col_id toCol)
                                            (splice_card (Z.to_nat idx) card (col_cards toCol))]> next)
              end
          end
      end
  end.

(* ================================================================== *)
(** * Editing a card and its participants ([backend/src/routes.ts])     *)
(* ================================================================== *)

(** ** PATCH /cards/:id *)

(** A field of the body is absent ([None]), [null] ([Some None]) or a
    value. *)
Record CardUpdateBody := mkUpdateBody {
  ub_description : option string;
  ub_details : option (option string);
  ub_assignee : option (option string);
  ub_dueDate : option (option string);
  ub_importance : option Importance;
  ub_paused : option bool
}.

Definition CardUpdateSchema `{Platform} (b : CardUpdateBody) : bool :=
  match ub_description b with Some d => bool_decide (d ≠ "") | None => true end
  && match ub_assignee b with Some (Some a) => bool_decide (a ≠ "") | _ => true end
  && match ub_dueDate b with Some (Some d) => isDatetime d | _ => true end.

(** [actor.role === Role.ADMIN || (!!authorId && authorId === actor.id)]. *)
Definition canManage (actor : User) (authorId : option string) : bool :=
  bool_decide (user_role actor = ADMIN)
  || match truthy authorId with
     | Some a => bool_decide (a = user_id actor)
     | None => false
     end.

(** The [data] of the update: only the fields the body has. *)
Definition apply_update (b : CardUpdateBody) (c : Card) : Card :=
  mkCard (card_id c) (card_boardId c)
         (default (card_description c) (ub_description b))
         (default (card_details c) (ub_details b))
         (default (card_assignee c) (ub_assignee b))
         (match ub_dueDate b with Some d => truthy d | None => card_dueDate c end)
         (card_column c) (card_position c)
         (default (card_importance c) (ub_importance b))
         (default (card_paused c) (ub_paused b))
         (card_authorId c).

(** The response is the row with the id, which by the primary key is the
    row the handler found. *)
Definition patch_card `{Platform} (db : Db) (boardId : string) (actor : User) (idParam : string)
    (body : CardUpdateBody) : Outcome Card :=
  if negb (isUuid idParam) then throw db ZodError else
  if negb (CardUpdateSchema body) then throw db ZodError else
  match findFirst_card (db_cards db) idParam boardId with
  | None => throw db (HttpError 404 "Card not found")
  | Some found =>
      if bool_decide (ub_assignee body ≠ None) && negb (canManage actor (card_authorId found))
      then throw db (HttpError 403 "Forbidden")
      else
        let cs := (λ c, if decide (card_id c = idParam) then apply_update body c else c)
                    <$> db_cards db in
        mkOutcome (Ok (apply_update body found)) (set_cards cs db) []
                  [mkNotification idParam (user_id actor) updated None None]
  end.

(** ** POST /cards/:id/participants, DELETE /cards/:id/participants/:userId *)

Global Instance CardParticipant_eq_dec : EqDecision CardParticipant.
Proof. solve_decision. Defined.

Record AddParticipantBody := mkAddParticipant {
  ap_userId : option string;
  ap_email : option string
}.

Definition AddParticipantSchema `{Platform} (b : AddParticipantBody) : bool :=
  match ap_userId b with Some u => isUuid u | None => true end
  && match ap_email b with Some e => isEmail e | None => true end
  && bool_decide (truthy (ap_userId b) ≠ None ∨ truthy (ap_email b) ≠ None).

(** [prisma.user.findUnique({ where: { email } })]. *)
Definition findUnique_user_by_email (db : Db) (email : string) : option User :=
  snd <$> list_find (λ u, user_email u = email) (db_users db).

(** [prisma.cardParticipant.upsert] with an empty update. *)
Definition upsert_participant (row : CardParticipant) (ps : list CardParticipant)
    : list CardParticipant :=
  if decide (row ∈ ps) then ps else ps ++ [row].

Definition post_participant `{Platform} (db : Db) (boardId : string) (actor : User)
    (idParam : string) (body : AddParticipantBody) : Outcome User :=
  if negb (isUuid idParam) then throw db ZodError else
  if negb (AddParticipantSchema body) then throw db ZodError else
  match findFirst_card (db_cards db) idParam boardId with
  | None => throw db (HttpError 404 "Card not found")
  | Some card =>
      if negb (canManage actor (card_authorId card)) then throw db (HttpError 403 "Forbidden")
      else
        let user :=
          match truthy (ap_userId body) with
          | Some userId => Ok (findUnique_user db userId)
          | None =>
              match ap_email body with
              | Some email => Ok (findUnique_user_by_email db email)
              | None => Throw PrismaError
              end
          end in
        match user with
        | Throw e => throw db e
        | Ok None => throw db (HttpError 404 "User not found")
        | Ok (Some user) =>
            mkOutcome (Ok user)
              (set_participants
                 (upsert_participant (mkParticipant idParam (user_id user)) (db_participants db))
                 db)
              [] []
        end
  end.

Definition delete_participant `{Platform} (db : Db) (boardId : string) (actor : User)
    (idParam userIdParam : string) : Outcome unit :=
  if negb (isUuid idParam) then throw db ZodError else
  if negb (isUuid userIdParam) then throw db ZodError else
  match findFirst_card (db_cards db) idParam boardId with
  | None => throw db (HttpError 404 "Card not found")
  | Some card =>
      if negb (canManage actor (card_authorId card)) then throw db (HttpError 403 "Forbidden")
      else
        mkOutcome (Ok ())
          (set_participants
             (filter (λ p, ¬ (cp_cardId p = idParam ∧ cp_userId p = userIdParam))
                     (db_participants db))
             db)
          [] []
  end.

(** The card endpoints behind the gate. *)
Definition route_get_board (db : Db) (sess : Session) : Result (list ColumnView) :=
  match card_gate db sess with
  | Throw e => Throw e
  | Ok (u, boardId) => Ok (get_board db boardId)
  end.

Definition route_patch_card `{Platform} (db : Db) (sess : Session) (idParam : string)
    (body : CardUpdateBody) : Outcome Card :=
  match card_gate db sess with
  | Throw e => throw db e
  | Ok (u, boardId) => patch_card db boardId u idParam body
  end.

Definition route_post_participant `{Platform} (db : Db) (sess : Session) (idParam : string)
    (body : AddParticipantBody) : Outcome User :=
  match card_gate db sess with
  | Throw e => throw db e
  | Ok (u, boardId) => post_participant db boardId u idParam body
  end.

Definition route_delete_participant `{Platform} (db : Db) (sess : Session)
    (idParam userIdParam : string) : Outcome unit :=
  match card_gate db sess with
  | Throw e => throw db e
  | Ok (u, boardId) => delete_participant db boardId u idParam userIdParam
  end.

(** A column of a view, from the cards of each column. *)
Definition column_view (cards : ColumnId → list Card) (col : ColumnId) : ColumnView :=
  mkColumnView col (cards col).

(** A team on the default board: the admin, Ann and Bob; the card [a] of
    three cards in TODO is Ann's. *)
Definition bob_2fa : User :=
  mkUser "u4" "bob@example.org" "Bob" MEMBER false "bob-password" false true
         (Some "bob-totp") None (Some DEFAULT_BOARD_ID).

Definition ann_card : Card :=
  mkCard "a" DEFAULT_BOARD_ID "first" None None None TODO 0 MEDIUM false (Some "u3").

Definition team_db : Db :=
  mkDb [admin_2fa; ann_2fa; bob_2fa]
       [mkBoard DEFAULT_BOARD_ID "Main board"]
       [mkMembership DEFAULT_BOARD_ID "u0"; mkMembership DEFAULT_BOARD_ID "u3";
        mkMembership DEFAULT_BOARD_ID "u4"]
       [ann_card;
        mkCard "b" DEFAULT_BOARD_ID "second" None None None TODO 1 MEDIUM false (Some "u0");
        mkCard "c" DEFAULT_BOARD_ID "third" None None None TODO 2 MEDIUM false (Some "u0")]
       [] [] [] [].

(* ================================================================== *)
(** * Trusted devices over time, the second factor, reset links         *)
(* ================================================================== *)

(** A run of calls of [verifyTrustedDeviceToken], each with a user, a
    token and the time of the call. *)
Definition use_devices `{Platform} (db : Db) (uses : list (string * string * Z)) : Db :=
  foldl (λ db use, (verifyTrustedDeviceToken db use.1.1 use.1.2 use.2).2) db uses.

(** What a row of [TrustedDevice] says about trust: whose it is, for which
    token, until when. *)
Definition td_grant (d : TrustedDevice) : string * string * Z :=
  (td_userId d, td_tokenHash d, td_expiresAt d).

(** ** POST /auth/2fa/verify *)

Record Verify2FABody := mkVerifyBody {
  vb_code : string;
  vb_rememberDevice : option bool
}.

(** The handler marks the session before it issues the trusted device;
    express-session stores a modified session when the response ends, also
    the response of the error handler. *)
Definition post_2fa_verify `{Platform} (db : Db) (sess : Session) (env : LoginEnv)
    (body : Verify2FABody) : AuthOutcome unit :=
  match requireLogin db sess with
  | Throw e => auth_throw db sess e
  | Ok user =>
      if negb (CodeSchema (vb_code body)) then auth_throw db sess ZodError else
      let notEnabled := auth_throw db sess (HttpError 400 "2FA not enabled") in
      match findUnique_user db (user_id user) with
      | None => notEnabled
      | Some u =>
          if negb (user_totpEnabled u) then notEnabled else
          match truthy (user_totpSecret u) with
          | None => notEnabled
          | Some secret =>
              if negb (verifyTotp (vb_code body) secret)
              then auth_throw db sess (HttpError 400 "Invalid code")
              else
                let sess' := mkSession (sess_user sess) true (sess_boardId sess) in
                if default false (vb_rememberDevice body) then
                  match issueTrustedDevice db (user_id user) (le_newToken env)
                                           (le_newDeviceId env) (le_now env) with
                  | None => mkAuthOutcome (Throw PrismaError) db sess' None
                  | Some db' => mkAuthOutcome (Ok ()) db' sess' (Some (le_newToken env))
                  end
                else mkAuthOutcome (Ok ()) db sess' None
          end
      end
  end.

(** ** Mail configuration ([mail/mailer.ts], [env.ts]) *)

(** The singleton row of table [MailSettings]. *)
Record MailSettings := mkMailSettings {
  ms_enabled : bool;
  ms_host : option string;
  ms_port : option Z;
  ms_secure : bool;
  ms_user : option string;
  ms_pass : option string;
  ms_from : option string
}.

(** The SMTP variables of the environment, as [EnvSchema] parses them. *)
Record MailEnv := mkMailEnv {
  SMTP_HOST : option string;
  SMTP_PORT : Z;
  SMTP_USER : option string;
  SMTP_PASS : option string;
  SMTP_FROM : option string;
  SMTP_SECURE : bool
}.

Record MailConfig := mkMailConfig {
  mc_host : string;
  mc_port : Z;
  mc_secure : bool;
  mc_user : string;
  mc_pass : string;
  mc_from : string
}.

(** Truthiness of a number that may be [null]. *)
Definition truthy_port (o : option Z) : option Z :=
  match o with
  | Some p => if decide (p = 0) then None else Some p
  | None => None
  end.

(** [getMailConfig]; [rec] is the row, [None] when there is none or the
    query fails. *)
Definition getMailConfig (rec : option MailSettings) (env : MailEnv) : option MailConfig :=
  match rec with
  | Some rec =>
      if negb (ms_enabled rec) then None else
      match truthy (ms_host rec), truthy_port (ms_port rec),
            truthy (ms_user rec), truthy (ms_pass rec) with
      | Some host, Some port, Some user, Some pass =>
          let from := default user (ms_from rec) in
          if decide (from = "") then None
          else Some (mkMailConfig host port (ms_secure rec) user pass from)
      | _, _, _, _ => None
      end
  | None =>
      match truthy (SMTP_HOST env), truthy (SMTP_USER env), truthy (SMTP_PASS env) with
      | Some host, Some user, Some pass =>
          let from := default user (SMTP_FROM env) in
          if decide (from = "") then None
          else Some (mkMailConfig host (SMTP_PORT env) (SMTP_SECURE env) user pass from)
      | _, _, _ => None
      end
  end.

(** ** POST /auth/password/forgot *)

(** [mailConfigured] of the handler. *)
Definition mailConfigured (ms : option MailSettings) (env : MailEnv) : bool :=
  match ms with
  | Some ms =>
      if ms_enabled ms
         && bool_decide (truthy (ms_host ms) ≠ None)
         && bool_decide (truthy_port (ms_port ms) ≠ None)
         && bool_decide (truthy (ms_user ms) ≠ None)
         && bool_decide (truthy (ms_pass ms) ≠ None)
      then true
      else bool_decide (truthy (SMTP_HOST env) ≠ None)
           && bool_decide (truthy (SMTP_USER env) ≠ None)
           && bool_decide (truthy (SMTP_PASS env) ≠ None)
  | None =>
      bool_decide (truthy (SMTP_HOST env) ≠ None)
      && bool_decide (truthy (SMTP_USER env) ≠ None)
      && bool_decide (truthy (SMTP_PASS env) ≠ None)
  end.

(** Outcome of the handler: response, store, and the call of [sendEmail]:
    the address and the token of the link. *)
Record ForgotOutcome := mkForgotOutcome {
  f_result : Result unit;
  f_db : Db;
  f_mail : option (string * string)
}.

(** [token] is the random token and [newId] the id of the new row; the
    insert is rejected when the id or the hash of the token is taken. *)
Definition post_password_forgot `{Platform} (db : Db) (ms : option MailSettings) (env : MailEnv)
    (now : Z) (token newId login : string) : ForgotOutcome :=
  if negb (bool_decide (1 ≤ String.length login)%nat) then mkForgotOutcome (Throw ZodError) db None
  else
    let respondOk := mkForgotOutcome (Ok ()) db None in
    if decide (trim login = "") then respondOk else
    match reset_resolve db login with
    | None => respondOk
    | Some u =>
        if decide (user_email u = "") then respondOk
        else if negb (mailConfigured ms env) then respondOk
        else
          let tokenHash := sha256Hex token in
          let expiresAt := now + 1000 * 60 * 60 in
          if decide (newId ∈ prt_id <$> db_resetTokens db
                     ∨ tokenHash ∈ prt_tokenHash <$> db_resetTokens db)
          then mkForgotOutcome (Throw PrismaError) db None
          else mkForgotOutcome (Ok ())
                 (set_resetTokens
                    (db_resetTokens db
                     ++ [mkResetToken newId (user_id u) tokenHash expiresAt None]) db)
                 (Some (user_email u, token))
    end.

(* ================================================================== *)
(** * Members and their boards                                          *)
(* ================================================================== *)

(** Every user with role MEMBER is a member of a board. *)
Definition members_have_board (db : Db) : Prop :=
  ∀ u, u ∈ db_users db → user_role u = MEMBER →
       ∃ m, m ∈ db_memberships db ∧ bm_userId m = user_id u.

(** The admin creates the member [u5] on the default board, demotes the
    admin [u9] they created before, moves Kim to the default board only,
    and deletes Ann. *)
Definition member_requests : list (Session * AdminOp) :=
  [ (admin_session,
     AdminCreateUser "u5" (mkCreateUserBody "lee@example.org" None None "lee-password"));
    (admin_session,
     AdminCreateUser "u9" (mkCreateUserBody "joe@example.org" None (Some ADMIN) "joe-password"));
    (admin_session, AdminPatchUser "u9" (mkAdminUpdateBody None (Some MEMBER)));
    (admin_session,
     AdminSetBoards "u1" (mkSetBoardsBody [DEFAULT_BOARD_ID] DEFAULT_BOARD_ID));
    (admin_session, AdminDeleteUser "u3") ].

(* ================================================================== *)
(** * Boards ([backend/src/routes.ts])                                  *)
(* ================================================================== *)

(** [router.use(requireLogin(), requireTwoFactor())], in front of the
    board endpoints. *)
Definition boards_gate (db : Db) (sess : Session) : Result User :=
  match requireLogin db sess with
  | Throw e => Throw e
  | Ok u =>
      match requireTwoFactor (Some u) sess with
      | Throw e => Throw e
      | Ok _ => Ok u
      end
  end.

(** A board as the board endpoints answer it; the description of a board
    is stored and returned as it is and left out here.  [memberIds] is
    there in the answers to an admin. *)
Record BoardInfo := mkBoardInfo {
  bi_id : string;
  bi_name : string;
  bi_memberIds : option (list string)
}.

(** The ids of the members of a board, in the order the memberships were
    created. *)
Definition board_members (ms : list BoardMembership) (boardId : string) : list string :=
  bm_userId <$> filter (λ m, bm_boardId m = boardId) ms.

(** ** GET /boards

    An admin gets every board, in the order [name_le] of the names, which
    is that of the database; a member gets the boards of their memberships,
    in the order the memberships were created. *)
Definition get_boards (name_le : relation string) `{∀ x y, Decision (name_le x y)}
    (db : Db) (user : User) : list BoardInfo :=
  if decide (user_role user = ADMIN) then
    (λ b, mkBoardInfo (board_id b) (board_name b)
                      (Some (board_members (db_memberships db) (board_id b))))
      <$> merge_sort (λ b1 b2, name_le (board_name b1) (board_name b2)) (db_boards db)
  else
    omap (λ m, if decide (bm_userId m = user_id user)
               then (λ b, mkBoardInfo (board_id b) (board_name b) None)
                      <$> (snd <$> list_find (λ b, board_id b = bm_boardId m) (db_boards db))
               else None)
         (db_memberships db).

(** ** POST /boards/select: the answer and the session afterwards. *)
Definition post_boards_select `{Platform} (db : Db) (user : User) (sess : Session)
    (boardId : string) : Result string * Session :=
  if negb (BoardIdSchema boardId) then (Throw ZodError, sess) else
  if bool_decide (user_role user ≠ ADMIN) && negb (has_membership db boardId (user_id user))
  then (Throw (HttpError 403 "Forbidden"), sess)
  else (Ok boardId, mkSession (sess_user sess) (sess_twoFactorPassed sess) (Some boardId)).

Definition route_post_boards_select `{Platform} (db : Db) (sess : Session) (boardId : string)
    : Result string * Session :=
  match boards_gate db sess with
  | Throw e => (Throw e, sess)
  | Ok u => post_boards_select db u sess boardId
  end.

(** [Array.from(new Set(l))]: the distinct elements, in the order of their
    first occurrence. *)
Definition uniq (l : list string) : list string :=
  foldl (λ acc x, if decide (x ∈ acc) then acc else acc ++ [x]) [] l.

(** [createMany({ data, skipDuplicates: true })] on the memberships. *)
Definition createMany_memberships (rows : list BoardMembership) (ms : list BoardMembership)
    : list BoardMembership :=
  foldl (λ ms r, if decide (r ∈ ms) then ms else ms ++ [r]) ms rows.

(** ** POST /boards *)

Record CreateBoardBody := mkCreateBoardBody {
  cbb_name : string;
  cbb_memberIds : option (list string)
}.

Definition CreateBoardSchema `{Platform} (b : CreateBoardBody) : bool :=
  bool_decide (1 ≤ String.length (cbb_name b))%nat
  && forallb isUuid (default [] (cbb_memberIds b)).

(** [newId] is the id of the new board.  The transaction is rejected, and
    leaves nothing behind, when the id is taken or a member does not
    exist. *)
Definition post_boards `{Platform} (db : Db) (user : User) (newId : string)
    (body : CreateBoardBody) : Result BoardInfo * Db :=
  if decide (user_role user ≠ ADMIN) then (Throw (HttpError 403 "Forbidden"), db) else
  if negb (CreateBoardSchema body) then (Throw ZodError, db) else
  let uniqMemberIds := uniq (user_id user :: default [] (cbb_memberIds body)) in
  if decide (newId ∈ board_id <$> db_boards db) then (Throw PrismaError, db) else
  if negb (forallb (λ uid, bool_decide (uid ∈ user_id <$> db_users db)) uniqMemberIds)
  then (Throw PrismaError, db)
  else
    (Ok (mkBoardInfo newId (cbb_name body) (Some uniqMemberIds)),
     mkDb (db_users db) (db_boards db ++ [mkBoard newId (cbb_name body)])
          (createMany_memberships (mkMembership newId <$> uniqMemberIds) (db_memberships db))
          (db_cards db) (db_participants db) (db_trustedDevices db) (db_resetTokens db)
          (db_sessions db)).

(** ** PATCH /boards/:id *)

Record UpdateBoardBody := mkUpdateBoardBody {
  upb_name : option string;
  upb_memberIds : option (list string)
}.

Definition UpdateBoardSchema `{Platform} (b : UpdateBoardBody) : bool :=
  match upb_name b with Some n => bool_decide (1 ≤ String.length n)%nat | None => true end
  && forallb isUuid (default [] (upb_memberIds b)).

(** [findFirst({ where: { userId, boardId: { not: id } }, orderBy: { createdAt: "asc" } })
    ?.boardId ?? null]. *)
Definition fallback_board (ms : list BoardMembership) (userId id : string) : option string :=
  bm_boardId <$> (snd <$> list_find (λ m, bm_userId m = userId ∧ bm_boardId m ≠ id) ms).

(** The loop over the users whose default board is taken from them: each
    gets the board of their earliest other membership, or none. *)
Definition repoint_defaults (ms : list BoardMembership) (id : string) (needing : list string)
    (users : list User) : list User :=
  foldl (λ us uid, upd uid (with_defaultBoardId (fallback_board ms uid id)) <$> us) users needing.

Definition rename_board (id : string) (name : option string) (b : Board) : Board :=
  if decide (board_id b = id) then mkBoard (board_id b) (default (board_name b) name) else b.

Definition patch_board `{Platform} (db : Db) (user : User) (idParam : string)
    (body : UpdateBoardBody) : Result BoardInfo * Db :=
  if decide (user_role user ≠ ADMIN) then (Throw (HttpError 403 "Forbidden"), db) else
  if negb (BoardIdSchema idParam) then (Throw ZodError, db) else
  if negb (UpdateBoardSchema body) then (Throw ZodError, db) else
  let id := idParam in
  match snd <$> list_find (λ b, board_id b = id) (db_boards db) with
  | None => (Throw PrismaError, db)
  | Some found =>
      let updated := rename_board id (upb_name body) found in
      let boards := rename_board id (upb_name body) <$> db_boards db in
      let written :=
        match upb_memberIds body with
        | None => Some (db_users db, db_memberships db)
        | Some memberIds =>
            let next := uniq memberIds in
            let existing := board_members (db_memberships db) id in
            let toRemove := filter (λ uid, uid ∉ next) existing in
            let toAdd := filter (λ uid, uid ∉ existing) next in
            let '(users1, ms1) :=
              if decide (toRemove = []) then (db_users db, db_memberships db)
              else
                let ms1 := filter (λ m, ¬ (bm_boardId m = id ∧ bm_userId m ∈ toRemove))
                                  (db_memberships db) in
                let needing :=
                  user_id <$> filter (λ u, user_id u ∈ toRemove ∧ user_defaultBoardId u = Some id)
                                     (db_users db) in
                (repoint_defaults ms1 id needing (db_users db), ms1) in
            if decide (toAdd = []) then Some (users1, ms1)
            else if negb (forallb (λ uid, bool_decide (uid ∈ user_id <$> db_users db)) toAdd)
            then None
            else Some (users1, createMany_memberships (mkMembership id <$> toAdd) ms1)
        end in
      match written with
      | None => (Throw PrismaError, db)
      | Some (users, ms) =>
          (Ok (mkBoardInfo (board_id updated) (board_name updated) (Some (board_members ms id))),
           mkDb users boards ms (db_cards db) (db_participants db) (db_trustedDevices db)
                (db_resetTokens db) (db_sessions db))
      end
  end.

(** ** DELETE /boards/:id

    With the cascades of the schema: the memberships and the cards of the
    board go with it, and the participants of those cards; a default board
    that still pointed to it would be set to null. *)
Definition delete_board `{Platform} (db : Db) (user : User) (sess : Session) (idParam : string)
    : Result unit * Db * Session :=
  if decide (user_role user ≠ ADMIN) then (Throw (HttpError 403 "Forbidden"), db, sess) else
  if negb (BoardIdSchema idParam) then (Throw ZodError, db, sess) else
  let id := idParam in
  if decide (id = DEFAULT_BOARD_ID)
  then (Throw (HttpError 400 "Cannot delete default board"), db, sess)
  else
    let affected := user_id <$> filter (λ u, user_defaultBoardId u = Some id) (db_users db) in
    let users1 := repoint_defaults (db_memberships db) id affected (db_users db) in
    if decide (id ∉ board_id <$> db_boards db) then (Throw PrismaError, db, sess)
    else
      let users2 :=
        (λ u, if decide (user_defaultBoardId u = Some id) then with_defaultBoardId None u else u)
          <$> users1 in
      let gone := card_id <$> filter (λ c, card_boardId c = id) (db_cards db) in
      let db' :=
        mkDb users2
             (filter (λ b, board_id b ≠ id) (db_boards db))
             (filter (λ m, bm_boardId m ≠ id) (db_memberships db))
             (filter (λ c, card_boardId c ≠ id) (db_cards db))
             (filter (λ p, cp_cardId p ∉ gone) (db_participants db))
             (db_trustedDevices db) (db_resetTokens db) (db_sessions db) in
      let sess' :=
        if decide (sess_boardId sess = Some id)
        then mkSession (sess_user sess) (sess_twoFactorPassed sess) None
        else sess in
      (Ok (), db', sess').

(** ** The board endpoints behind their gate, as operations *)

Inductive BoardOp :=
  | BoardCreate (newId : string) (body : CreateBoardBody)
  | BoardPatch (id : string) (body : UpdateBoardBody)
  | BoardDelete (id : string).

Definition board_step `{Platform} (db : Db) (req : Session * BoardOp) : Db :=
  let '(sess, op) := req in
  match boards_gate db sess with
  | Throw _ => db
  | Ok user =>
      match op with
      | BoardCreate newId body => (post_boards db user newId body).2
      | BoardPatch id body => (patch_board db user id body).2
      | BoardDelete id => (delete_board db user sess id).1.2
      end
  end.

Definition board_run `{Platform} (db : Db) (reqs : list (Session * BoardOp)) : Db :=
  foldl board_step db reqs.

(** The default board of every user who has one is a board they are a
    member of. *)
Definition defaults_accessible (db : Db) : Prop :=
  ∀ u b, u ∈ db_users db → user_defaultBoardId u = Some b →
         mkMembership b (user_id u) ∈ db_memberships db.

(** Foreign key of the memberships to the boards. *)
Definition memberships_wf (db : Db) : Prop :=
  ∀ m, m ∈ db_memberships db → bm_boardId m ∈ board_id <$> db_boards db.

(** The default board exists, the memberships refer to boards, and the
    default boards are accessible. *)
Definition boards_ok (db : Db) : Prop :=
  DEFAULT_BOARD_ID ∈ board_id <$> db_boards db ∧ memberships_wf db ∧ defaults_accessible db.

(** The admin creates a board for Ann, takes Ann off the default board,
    tries to delete the default board, and deletes the new board. *)
Definition board_requests : list (Session * BoardOp) :=
  [ (admin_session, BoardCreate "b7" (mkCreateBoardBody "Research" (Some ["u3"])));
    (admin_session, BoardPatch DEFAULT_BOARD_ID (mkUpdateBoardBody None (Some ["u0"; "u4"])));
    (admin_session, BoardDelete DEFAULT_BOARD_ID);
    (admin_session, BoardDelete "b7") ].

(* ================================================================== *)
(** * Avatars ([frontend/src/utils/avatar.ts], [auth/avatarPresets.ts])  *)
(* ================================================================== *)

Definition AVATAR_PRESETS : list string :=
  ["a1"; "a2"; "a3"; "a4"; "a5"; "a6"; "a7"; "a8"; "a9"; "a10"; "a11"; "a12"].

(** [isAvatarPreset] of the backend, on a string. *)
Definition isAvatarPreset (v : string) : bool := bool_decide (v ∈ AVATAR_PRESETS).

(** [x | 0]: the integer as a 32-bit two's complement number. *)
Definition to_int32 (x : Z) : Z := (x + 2 ^ 31) mod 2 ^ 32 - 2 ^ 31.

(** The bytes of a string as numbers: [s.charCodeAt(i)] for every [i] when
    the string is ASCII, as the ids, which are uuids, are.  For other
    strings [charCodeAt] gives UTF-16 code units, which are not the bytes;
    the functions below are therefore defined on sequences of code units. *)
Fixpoint charCodes (s : string) : list Z :=
  match s with
  | EmptyString => []
  | String c s' => Z.of_N (N_of_ascii c) :: charCodes s'
  end.

(** The loop [h = (h * 31 + userId.charCodeAt(i)) | 0] over the code units
    of the id.  The operand of [| 0] is below 2^36 in absolute value, so
    the floating-point arithmetic of the source is exact. *)
Definition avatar_hash (codes : list Z) : Z :=
  foldl (λ h code, to_int32 (h * 31 + code)) 0 codes.

(** The same sum without the wrap-around. *)
Definition polynomial_hash (codes : list Z) : Z :=
  foldl (λ h code, h * 31 + code) 0 codes.

(** [AVATAR_PRESETS[Math.abs(h) % AVATAR_PRESETS.length]]; an index out of
    range would give [undefined]. *)
Definition preset_of_hash (h : Z) : option string :=
  let idx := Z.rem (Z.abs h) (Z.of_nat (length AVATAR_PRESETS)) in
  if decide (0 ≤ idx) then AVATAR_PRESETS !! Z.to_nat idx else None.

(** [autoAvatarPreset], on the code units of the id and on an ASCII id. *)
Definition autoAvatarPreset_codes (codes : list Z) : option string :=
  preset_of_hash (avatar_hash codes).

Definition autoAvatarPreset (userId : string) : option string :=
  autoAvatarPreset_codes (charCodes userId).

(** [avatarSrc]; [encode] is [encodeURIComponent], and [undefined] in a
    template is the text "undefined". *)
Definition avatarSrc (encode : string → string) (id : string)
    (avatarUploadName avatarPreset : option string) : string :=
  match truthy avatarUploadName with
  | Some name => "/api/auth/avatar/" +:+ id +:+ "?v=" +:+ encode name
  | None =>
      let key :=
        match truthy avatarPreset with
        | Some p => if bool_decide (p ∈ AVATAR_PRESETS) then p
                    else default "undefined" (autoAvatarPreset id)
        | None => default "undefined" (autoAvatarPreset id)
        end in
      "/avatars/" +:+ key +:+ ".svg"
  end.

(* ================================================================== *)
(** * Lemmas on the list operations of the move handler                 *)
(* ================================================================== *)

Section lists.
Implicit Types (l ids : list string) (x id : string).

Lemma index_of_Some l x i : index_of x l = Some i → l !! i = Some x.
Proof.
  revert i. induction l as [|y l IH]; intros i; simpl; [done|].
  case_decide as Hy; [intros [= <-]; by subst|].
  destruct (index_of x l) as [j|] eqn:Hj; [|done].
  intros [= <-]. simpl. by apply IH.
Qed.

Lemma index_of_None l x : index_of x l = None ↔ x ∉ l.
Proof.
  induction l as [|y l IH]; simpl.
  - split; [intros _; apply not_elem_of_nil|done].
  - case_decide as Hy.
    + subst. split; [done|]. intros []. by left.
    + rewrite not_elem_of_cons, <-IH.
      destruct (index_of x l); simpl; intuition congruence.
Qed.

Lemma index_of_lookup l x i : NoDup l → l !! i = Some x → index_of x l = Some i.
Proof.
  intros Hnd Hi. destruct (index_of x l) as [j|] eqn:Hj.
  - apply index_of_Some in Hj. f_equal. by eapply NoDup_lookup.
  - apply index_of_None in Hj. destruct Hj. by eapply list_elem_of_lookup_2.
Qed.

Lemma index_of_is_Some l x : x ∈ l → is_Some (index_of x l).
Proof.
  intros Hx. destruct (index_of x l) eqn:E; [by eexists|].
  by apply index_of_None in E.
Qed.

Lemma filter_ne_notin id l : id ∉ l → filter (λ x, x ≠ id) l = l.
Proof.
  induction l as [|y l IH]; [done|]. rewrite not_elem_of_cons. intros [Hy Hl].
  rewrite filter_cons, decide_True by congruence. f_equal. by apply IH.
Qed.

Lemma removeFrom_filter id l : NoDup l → removeFrom id l = filter (λ x, x ≠ id) l.
Proof.
  unfold removeFrom. induction l as [|y l IH]; intros Hnd; [done|].
  apply NoDup_cons in Hnd as [Hy Hnd]. simpl.
  rewrite filter_cons. case_decide as E.
  - subst. rewrite decide_False by (intros ?; done). simpl.
    symmetry. by apply filter_ne_notin.
  - rewrite decide_True by done. specialize (IH Hnd).
    destruct (list_find (λ x, x = id) l) as [[j z]|]; simpl in *; by f_equal.
Qed.

Lemma removeFrom_notin id l : id ∉ l → removeFrom id l = l.
Proof.
  intros Hid. unfold removeFrom.
  destruct (list_find (λ x, x = id) l) as [[j z]|] eqn:E; [|done].
  apply list_find_Some in E as (Hj & -> & _).
  destruct Hid. by eapply list_elem_of_lookup_2.
Qed.

Lemma elem_of_removeFrom id l x : NoDup l → x ∈ removeFrom id l ↔ x ∈ l ∧ x ≠ id.
Proof. intros Hnd. rewrite removeFrom_filter by done. rewrite list_elem_of_filter. tauto. Qed.

Lemma NoDup_removeFrom id l : NoDup l → NoDup (removeFrom id l).
Proof. intros Hnd. rewrite removeFrom_filter by done. by apply NoDup_filter. Qed.

Lemma length_removeFrom id l : id ∈ l → S (length (removeFrom id l)) = length l.
Proof.
  intros Hid. unfold removeFrom.
  destruct (list_find (λ x, x = id) l) as [[j z]|] eqn:E.
  - apply list_find_Some in E as (Hj & -> & _).
    apply lookup_lt_Some in Hj. rewrite length_delete by (by apply lookup_lt_is_Some_2).
    lia.
  - apply list_find_None in E. rewrite Forall_forall in E. by destruct (E id).
Qed.

Lemma elem_of_splice_insert k id l x : x ∈ splice_insert k id l ↔ x = id ∨ x ∈ l.
Proof.
  unfold splice_insert. rewrite elem_of_app, elem_of_cons.
  rewrite <-(take_drop k l) at 3. rewrite elem_of_app. tauto.
Qed.

Lemma NoDup_splice_insert k id l : NoDup l → id ∉ l → NoDup (splice_insert k id l).
Proof.
  intros Hnd Hid. unfold splice_insert.
  rewrite <-(take_drop k l) in Hnd, Hid.
  apply NoDup_app in Hnd as (H1 & H2 & H3). rewrite not_elem_of_app in Hid.
  apply NoDup_app. split_and!; [done| |].
  - intros x Hx. rewrite not_elem_of_cons. split; [|by apply H2]. intros ->. tauto.
  - apply NoDup_cons. tauto.
Qed.

Lemma length_splice_insert k id l : length (splice_insert k id l) = S (length l).
Proof.
  unfold splice_insert. rewrite length_app. simpl.
  rewrite length_take, length_drop. lia.
Qed.

Lemma lookup_splice_insert k id l : (k ≤ length l)%nat → splice_insert k id l !! k = Some id.
Proof.
  intros Hk. unfold splice_insert.
  rewrite lookup_app_r by (rewrite length_take; lia).
  rewrite length_take. by replace (k - k `min` length l)%nat with 0%nat by lia.
Qed.

(** Taking an element out and putting it back where it was. *)
Lemma splice_insert_removeFrom k id l :
  NoDup l → l !! k = Some id → splice_insert k id (removeFrom id l) = l.
Proof.
  intros Hnd Hk. unfold removeFrom.
  destruct (list_find (λ x, x = id) l) as [[j z]|] eqn:E.
  - apply list_find_Some in E as (Hj & -> & _).
    assert (j = k) as -> by (by eapply NoDup_lookup).
    unfold splice_insert. rewrite delete_take_drop.
    rewrite take_app_length', drop_app_length'
      by (rewrite length_take; apply lookup_lt_Some in Hk; lia).
    rewrite <-(take_drop_middle l k id) at 3 by done. done.
  - apply list_find_None in E. rewrite Forall_forall in E.
    destruct (E id); [by eapply list_elem_of_lookup_2|done].
Qed.

(** [clamp] yields an index of the list the card is spliced into. *)
Lemma clamp_range n len : 0 ≤ clamp n 0 (Z.of_nat len) ≤ Z.of_nat len.
Proof. unfold clamp. lia. Qed.

Lemma clamp_id n len : 0 ≤ n ≤ Z.of_nat len → clamp n 0 (Z.of_nat len) = n.
Proof. unfold clamp. lia. Qed.
End lists.

(* ================================================================== *)
(** * A batch of updates in closed form                                 *)
(* ================================================================== *)

Lemma rewrite_card_id tx c : card_id (rewrite_card tx c) = card_id c.
Proof. unfold rewrite_card. by destruct (tx_lookup _ _). Qed.

Lemma rewrite_card_boardId tx c : card_boardId (rewrite_card tx c) = card_boardId c.
Proof. unfold rewrite_card. by destruct (tx_lookup _ _). Qed.

Lemma fmap_id_rewrite tx (cs : list Card) : card_id <$> (rewrite_card tx <$> cs) = card_id <$> cs.
Proof.
  rewrite <-list_fmap_compose. apply list_fmap_ext. intros i c _. apply rewrite_card_id.
Qed.

Lemma tx_lookup_None id (tx : list (string * CardPatch)) : id ∉ tx.*1 → tx_lookup id tx = None.
Proof.
  induction tx as [|[i p] tx IH]; [done|]. simpl. rewrite not_elem_of_cons.
  intros [Hne Hid]. rewrite decide_False by congruence. by apply IH.
Qed.

Lemma tx_lookup_app id (tx1 tx2 : list (string * CardPatch)) :
  tx_lookup id (tx1 ++ tx2) =
  match tx_lookup id tx1 with Some p => Some p | None => tx_lookup id tx2 end.
Proof.
  induction tx1 as [|[i p] tx1 IH]; [done|]. simpl. by case_decide.
Qed.

Lemma tx_lookup_imap (g : nat → string → CardPatch) (ids : list string) id :
  tx_lookup id (imap (λ i x, (x, g i x)) ids) = (λ i, g i id) <$> index_of id ids.
Proof.
  revert g. induction ids as [|y ids IH]; intros g; [done|]. simpl.
  case_decide as E; [by subst|].
  change (imap ((λ i x, (x, g i x)) ∘ S) ids) with (imap (λ i x, (x, (g ∘ S) i x)) ids).
  rewrite IH. by destruct (index_of id ids).
Qed.

Lemma fst_imap_writes (g : nat → string → CardPatch) (ids : list string) :
  (imap (λ i x, (x, g i x)) ids).*1 = ids.
Proof.
  rewrite fmap_imap. rewrite <-(list_fmap_id ids) at 2.
  rewrite <-imap_const. by apply imap_ext.
Qed.

(** When the batch names each card at most once and only cards that exist,
    it commits, and the table afterwards is the old one with every named
    row patched. *)
Lemma transaction_rewrite tx (cs : list Card) :
  NoDup tx.*1 →
  (∀ id, id ∈ tx.*1 → id ∈ card_id <$> cs) →
  transaction tx cs = Some (rewrite_card tx <$> cs).
Proof.
  revert cs. induction tx as [|[i p] tx IH]; intros cs Hnd Hin.
  - simpl. f_equal. symmetry. etrans; [|apply list_fmap_id].
    by apply list_fmap_ext.
  - simpl in *. apply NoDup_cons in Hnd as [Hi Hnd].
    unfold card_update. rewrite decide_True by (apply Hin; left).
    rewrite IH; [|done|].
    + f_equal. rewrite <-list_fmap_compose. apply list_fmap_ext. intros k c _. simpl.
      unfold rewrite_card. simpl. destruct (decide (card_id c = i)) as [E|E].
      * rewrite (decide_True (P := i = card_id c)) by done. simpl. by rewrite E, tx_lookup_None.
      * by rewrite decide_False by done.
    + intros id Hid.
      assert (card_id <$> ((λ c, if decide (card_id c = i) then apply_patch p c else c) <$> cs)
              = card_id <$> cs) as ->.
      { rewrite <-list_fmap_compose. apply list_fmap_ext. intros k c _. simpl.
        by case_decide. }
      apply Hin. by right.
Qed.

(* ================================================================== *)
(** * Partitions in ascending order of position                         *)
(* ================================================================== *)

Global Instance position_le_trans : Transitive position_le.
Proof. intros c1 c2 c3. unfold position_le. lia. Qed.

Global Instance position_le_total : Total position_le.
Proof. intros c1 c2. unfold position_le. lia. Qed.

Lemma findMany_Permutation cs b col :
  findMany_column cs b col ≡ₚ filter (in_partition b col) cs.
Proof. apply merge_sort_Permutation. Qed.

Lemma positions_Sorted cs b col : Sorted Z.le (positions cs b col).
Proof.
  unfold positions, findMany_column.
  apply (Sorted_fmap _ position_le); [done|]. apply Sorted_merge_sort, _.
Qed.

Lemma length_iota n : length (iota n) = n.
Proof. unfold iota. by rewrite length_fmap, length_seq. Qed.

Lemma lookup_iota n i : (i < n)%nat → iota n !! i = Some (Z.of_nat i).
Proof. intros Hi. unfold iota. rewrite list_lookup_fmap, lookup_seq_lt by done. done. Qed.

Lemma elem_of_iota n z : z ∈ iota n ↔ 0 ≤ z < Z.of_nat n.
Proof.
  unfold iota. rewrite list_elem_of_fmap. split.
  - intros (i & -> & Hi%elem_of_seq). lia.
  - intros Hz. exists (Z.to_nat z). rewrite elem_of_seq. lia.
Qed.

Lemma iota_S n : iota (S n) = iota n ++ [Z.of_nat n].
Proof. unfold iota. by rewrite seq_S, fmap_app. Qed.

Lemma NoDup_iota n : NoDup (iota n).
Proof. unfold iota. apply NoDup_fmap_2; [apply _|apply NoDup_seq]. Qed.

Lemma Sorted_of_nat_seq s n : Sorted Z.le (Z.of_nat <$> seq s n).
Proof.
  revert s. induction n as [|n IH]; intros s; simpl; constructor; [apply IH|].
  destruct n; simpl; constructor. lia.
Qed.

Lemma iota_Sorted n : Sorted Z.le (iota n).
Proof. apply Sorted_of_nat_seq. Qed.

(** An ascending list that holds exactly the numbers below [n] is
    [0, 1, ..., n-1]. *)
Lemma sorted_perm_iota (l : list Z) n : Sorted Z.le l → l ≡ₚ iota n → l = iota n.
Proof. intros Hs Hp. apply (Sorted_unique Z.le); [done|apply iota_Sorted|done]. Qed.

Lemma dense_Permutation cs b col :
  dense cs b col ↔
  card_position <$> filter (in_partition b col) cs
    ≡ₚ iota (length (filter (in_partition b col) cs)).
Proof.
  unfold dense. pose proof (findMany_Permutation cs b col) as Hp.
  assert (length (positions cs b col) = length (filter (in_partition b col) cs)) as ->.
  { unfold positions. by rewrite length_fmap, Hp. }
  split.
  - intros <-. unfold positions. by rewrite Hp.
  - intros Hq. apply sorted_perm_iota; [apply positions_Sorted|].
    unfold positions. by rewrite Hp.
Qed.

Lemma fmap_rank_self (ids : list string) : NoDup ids → rank ids <$> ids = iota (length ids).
Proof.
  intros Hnd. apply list_eq_same_length with (length ids);
    [by rewrite ?length_fmap, ?length_iota..|].
  intros i x y Hi. rewrite list_lookup_fmap, lookup_iota by done.
  destruct (ids !! i) as [z|] eqn:Hz; simpl; [|done].
  intros [= <-] [= <-]. unfold rank. by rewrite (index_of_lookup _ _ i).
Qed.

(** ** Rows and their ids *)

Lemma cards_wf_inj cs c1 c2 :
  cards_wf cs → c1 ∈ cs → c2 ∈ cs → card_id c1 = card_id c2 → c1 = c2.
Proof.
  unfold cards_wf. intros Hnd (i & Hi)%list_elem_of_lookup (j & Hj)%list_elem_of_lookup Heq.
  assert (i = j) as ->.
  { eapply NoDup_lookup; [done| |]; rewrite list_lookup_fmap.
    - by rewrite Hi.
    - rewrite Hj. simpl. by rewrite Heq. }
  congruence.
Qed.

Lemma findFirst_card_Some cs id b card :
  findFirst_card cs id b = Some card →
  card ∈ cs ∧ card_id card = id ∧ card_boardId card = b.
Proof.
  unfold findFirst_card.
  destruct (list_find _ cs) as [[i c]|] eqn:E; simpl; [|done].
  intros [= <-]. apply list_find_Some in E as (Hi & [? ?] & _).
  split_and!; [by eapply list_elem_of_lookup_2|done..].
Qed.

Lemma findFirst_card_None cs id b c :
  findFirst_card cs id b = None → c ∈ cs → card_id c = id → card_boardId c ≠ b.
Proof.
  unfold findFirst_card.
  destruct (list_find _ cs) as [[i c']|] eqn:E; simpl; [done|].
  intros _ Hc Hid Hb. apply list_find_None in E. rewrite Forall_forall in E.
  by apply (E c).
Qed.

Lemma findFirst_card_elem cs id b c :
  cards_wf cs → c ∈ cs → card_id c = id → card_boardId c = b →
  findFirst_card cs id b = Some c.
Proof.
  intros Hwf Hc Hid Hb. destruct (findFirst_card cs id b) as [c'|] eqn:E.
  - apply findFirst_card_Some in E as (Hc' & Hid' & _).
    f_equal. eapply cards_wf_inj; [done..|congruence].
  - by destruct (findFirst_card_None _ _ _ _ E Hc Hid).
Qed.

Lemma elem_of_column_ids cs b col x :
  x ∈ column_ids cs b col ↔ ∃ c, c ∈ cs ∧ in_partition b col c ∧ card_id c = x.
Proof.
  unfold column_ids. rewrite list_elem_of_fmap. split.
  - intros (c & -> & Hc). rewrite findMany_Permutation in Hc.
    apply list_elem_of_filter in Hc as [? ?]. by exists c.
  - intros (c & Hc & HP & <-). exists c. split; [done|].
    rewrite findMany_Permutation. by apply list_elem_of_filter.
Qed.

Lemma NoDup_partition_ids cs b col :
  cards_wf cs → NoDup (card_id <$> filter (in_partition b col) cs).
Proof.
  intros Hwf. eapply sublist_NoDup; [exact Hwf|].
  apply fmap_sublist, sublist_filter.
Qed.

Lemma NoDup_column_ids cs b col : cards_wf cs → NoDup (column_ids cs b col).
Proof.
  intros Hwf. unfold column_ids. rewrite findMany_Permutation.
  by apply NoDup_partition_ids.
Qed.

Lemma length_column_ids cs b col :
  length (column_ids cs b col) = length (positions cs b col).
Proof. unfold column_ids, positions. by rewrite !length_fmap. Qed.

(** The partition in closed form: when [ids] lists the ids of the partition
    and every card of the partition sits at the index of its id, then GET
    /board shows the partition in the order [ids], at positions
    [0, 1, ..., n-1]. *)
Lemma partition_by_index cs b col (ids : list string) :
  cards_wf cs → NoDup ids →
  (∀ x, x ∈ ids ↔ ∃ c, c ∈ cs ∧ in_partition b col c ∧ card_id c = x) →
  (∀ c i, c ∈ cs → in_partition b col c → index_of (card_id c) ids = Some i →
          card_position c = Z.of_nat i) →
  column_ids cs b col = ids ∧ positions cs b col = iota (length ids).
Proof.
  intros Hwf Hnd Hids Hpos.
  assert (card_id <$> filter (in_partition b col) cs ≡ₚ ids) as Hperm.
  { apply NoDup_Permutation; [by apply NoDup_partition_ids|done|].
    intros x. rewrite Hids, list_elem_of_fmap. split.
    - intros (c & -> & [? ?]%list_elem_of_filter). by exists c.
    - intros (c & ? & ? & <-). exists c. split; [done|]. by apply list_elem_of_filter. }
  assert (∀ c, c ∈ filter (in_partition b col) cs → card_position c = rank ids (card_id c))
    as Hrank.
  { intros c [HP Hc]%list_elem_of_filter. unfold rank.
    destruct (index_of_is_Some ids (card_id c)) as [i Hi].
    { apply Hids. by exists c. }
    rewrite Hi. by apply Hpos. }
  assert (positions cs b col = iota (length ids)) as Hiota.
  { apply sorted_perm_iota; [apply positions_Sorted|].
    unfold positions. rewrite findMany_Permutation.
    rewrite <-fmap_rank_self by done.
    trans (rank ids <$> (card_id <$> filter (in_partition b col) cs)).
    - rewrite <-list_fmap_compose.
      rewrite (Forall_fmap_ext_1 card_position (rank ids ∘ card_id)); [done|].
      apply Forall_forall. intros c Hc. by apply Hrank.
    - by apply fmap_Permutation. }
  split; [|done].
  assert (length (column_ids cs b col) = length ids) as Hlen.
  { by rewrite length_column_ids, Hiota, length_iota. }
  apply list_eq_same_length with (length ids); [done..|].
  intros i x y Hi Hx Hy. unfold column_ids in Hx.
  rewrite list_lookup_fmap in Hx.
  destruct (findMany_column cs b col !! i) as [c|] eqn:Hc; simpl in Hx; [|done].
  injection Hx as <-.
  assert (card_position c = Z.of_nat i) as Hci.
  { assert (positions cs b col !! i = Some (Z.of_nat i)) as Hp
      by (by rewrite Hiota, lookup_iota).
    unfold positions in Hp. rewrite list_lookup_fmap, Hc in Hp. by injection Hp. }
  assert (c ∈ filter (in_partition b col) cs) as Hcin.
  { rewrite <-findMany_Permutation. by eapply list_elem_of_lookup_2. }
  pose proof (Hrank c Hcin) as Hr. unfold rank in Hr.
  destruct (index_of_is_Some ids (card_id c)) as [j Hj].
  { rewrite <-Hperm. by apply list_elem_of_fmap_2. }
  rewrite Hj in Hr. assert (j = i) as -> by lia.
  apply index_of_Some in Hj. congruence.
Qed.

(** Rows outside a partition that keep their partition, and rows inside it
    that are not written, leave the partition as it was. *)
Lemma filter_fmap_frame (P : Card → Prop) `{∀ c, Decision (P c)} (f : Card → Card)
    (cs : list Card) :
  (∀ c, c ∈ cs → P c → f c = c) →
  (∀ c, c ∈ cs → ¬ P c → ¬ P (f c)) →
  filter P (f <$> cs) = filter P cs.
Proof.
  induction cs as [|c cs IH]; intros H1 H2; [done|].
  rewrite fmap_cons, !filter_cons.
  destruct (decide (P c)) as [Hc|Hc].
  - rewrite (H1 c) by (done || left). rewrite decide_True by done.
    f_equal. apply IH; intros; [apply H1|apply H2]; by try right.
  - rewrite decide_False by (apply H2; [left|done]).
    apply IH; intros; [apply H1|apply H2]; by try right.
Qed.

(* ================================================================== *)
(** * The move handler in closed form                                   *)
(* ================================================================== *)

Lemma rewrite_position_writes ids c :
  rewrite_card (position_writes ids) c =
  match index_of (card_id c) ids with
  | Some i => apply_patch (mkPatch None (Z.of_nat i)) c
  | None => c
  end.
Proof.
  unfold rewrite_card, position_writes.
  rewrite (tx_lookup_imap (λ i _, mkPatch None (Z.of_nat i))).
  by destruct (index_of _ _).
Qed.

Lemma tx_lookup_column_writes id toColumn ids x :
  tx_lookup x (position_column_writes id toColumn ids) =
  (λ i, if decide (x = id) then mkPatch (Some toColumn) (Z.of_nat i)
        else mkPatch None (Z.of_nat i)) <$> index_of x ids.
Proof.
  unfold position_column_writes.
  by rewrite (tx_lookup_imap (λ i y, if decide (y = id)
                                     then mkPatch (Some toColumn) (Z.of_nat i)
                                     else mkPatch None (Z.of_nat i))).
Qed.

Lemma fst_position_writes ids : (position_writes ids).*1 = ids.
Proof. apply (fst_imap_writes (λ i _, mkPatch None (Z.of_nat i))). Qed.

Lemma fst_position_column_writes id toColumn ids :
  (position_column_writes id toColumn ids).*1 = ids.
Proof.
  apply (fst_imap_writes (λ i y, if decide (y = id)
                                 then mkPatch (Some toColumn) (Z.of_nat i)
                                 else mkPatch None (Z.of_nat i))).
Qed.

Lemma column_ids_exist cs b col x : x ∈ column_ids cs b col → x ∈ card_id <$> cs.
Proof.
  intros (c & Hc & _ & <-)%elem_of_column_ids. by apply list_elem_of_fmap_2.
Qed.

Lemma rewrite_cross_writes cs b id X Y k c :
  rewrite_card (cross_writes cs b id X Y k) c =
  match index_of (card_id c) (new_from_ids cs b id X) with
  | Some i => apply_patch (mkPatch None (Z.of_nat i)) c
  | None =>
      match index_of (card_id c) (new_to_ids cs b id Y k) with
      | Some j => apply_patch (if decide (card_id c = id)
                               then mkPatch (Some Y) (Z.of_nat j)
                               else mkPatch None (Z.of_nat j)) c
      | None => c
      end
  end.
Proof.
  unfold rewrite_card, cross_writes. rewrite tx_lookup_app.
  unfold position_writes at 1.
  rewrite (tx_lookup_imap (λ i _, mkPatch None (Z.of_nat i))).
  destruct (index_of (card_id c) (new_from_ids cs b id X)); simpl; [done|].
  rewrite tx_lookup_column_writes. by destruct (index_of _ _).
Qed.

Section move.
Context `{Platform}.
Variables (db : Db) (b actor id : string) (body : CardMoveBody) (card : Card).
Hypothesis Hwf : cards_wf (db_cards db).
Hypothesis Huuid : isUuid id = true.
Hypothesis Hschema : 0 ≤ mv_toIndex body.
Hypothesis Hcard : findFirst_card (db_cards db) id b = Some card.

Local Abbreviation cs := (db_cards db).
Local Abbreviation X := (card_column card).
Local Abbreviation Y := (mv_toColumn body).
Local Abbreviation k := (mv_toIndex body).

Lemma move_card_in_source : id ∈ column_ids cs b X.
Proof.
  apply findFirst_card_Some in Hcard as (Hc & Hid & Hb).
  apply elem_of_column_ids. exists card. by split_and!.
Qed.

Lemma move_card_of_id c : c ∈ cs → card_id c = id → c = card.
Proof.
  intros Hc Hid. apply findFirst_card_Some in Hcard as (Hc' & Hid' & Hb).
  eapply cards_wf_inj; [exact Hwf|done..|congruence].
Qed.

Lemma move_card_not_elsewhere col : col ≠ X → id ∉ column_ids cs b col.
Proof.
  intros Hne (c & Hc & [_ Hcol] & Hid)%elem_of_column_ids.
  apply move_card_of_id in Hid; [|done]. by subst.
Qed.

(** *** Destination equal to the source *)

Lemma elem_of_same_ids x : x ∈ same_ids cs b id X k ↔ x ∈ column_ids cs b X.
Proof.
  unfold same_ids. rewrite elem_of_splice_insert, elem_of_removeFrom
    by (by apply NoDup_column_ids).
  pose proof move_card_in_source. destruct (decide (x = id)); intuition congruence.
Qed.

Lemma NoDup_same_ids : NoDup (same_ids cs b id X k).
Proof.
  apply NoDup_splice_insert; [by apply NoDup_removeFrom, NoDup_column_ids|].
  rewrite elem_of_removeFrom by (by apply NoDup_column_ids). tauto.
Qed.

Lemma same_transaction :
  transaction (position_writes (same_ids cs b id X k)) cs
  = Some (rewrite_card (position_writes (same_ids cs b id X k)) <$> cs).
Proof.
  apply transaction_rewrite.
  - rewrite fst_position_writes. apply NoDup_same_ids.
  - intros x. rewrite fst_position_writes, elem_of_same_ids. apply column_ids_exist.
Qed.

Lemma post_cards_move_same :
  X = Y →
  post_cards_move db b actor id body =
  mkOutcome (Ok ())
            (set_cards (rewrite_card (position_writes (same_ids cs b id X k)) <$> cs) db)
            (position_writes (same_ids cs b id X k)) [].
Proof.
  intros HXY. unfold post_cards_move. rewrite Huuid. simpl.
  unfold CardMoveSchema. rewrite bool_decide_eq_true_2 by done. simpl.
  rewrite Hcard. rewrite !decide_True by done.
  change (card_id <$> findMany_column cs b X) with (column_ids cs b X).
  fold (same_ids cs b id X k).
  by rewrite same_transaction.
Qed.

Lemma same_after :
  let cs' := rewrite_card (position_writes (same_ids cs b id X k)) <$> cs in
  column_ids cs' b X = same_ids cs b id X k ∧
  positions cs' b X = iota (length (same_ids cs b id X k)).
Proof.
  intros cs'. apply partition_by_index.
  - unfold cards_wf, cs'. by rewrite fmap_id_rewrite.
  - apply NoDup_same_ids.
  - intros x. rewrite elem_of_same_ids, elem_of_column_ids. unfold cs'. split.
    + intros (c & Hc & [Hb Hcol] & Hid). exists (rewrite_card (position_writes (same_ids cs b id X k)) c).
      split; [by apply list_elem_of_fmap_2|].
      rewrite rewrite_card_id. split; [|done].
      rewrite rewrite_position_writes. by destruct (index_of _ _).
    + intros (c' & (c & -> & Hc)%list_elem_of_fmap & [Hb Hcol] & Hid).
      exists c. rewrite rewrite_card_id in Hid. split_and!; [done| |done].
      rewrite rewrite_position_writes in Hb, Hcol. by destruct (index_of _ _).
  - intros c' i (c & -> & Hc)%list_elem_of_fmap _. rewrite rewrite_card_id.
    rewrite rewrite_position_writes. by intros ->.
Qed.

Lemma same_frame b' col' :
  ¬ (b' = b ∧ col' = X) →
  let cs' := rewrite_card (position_writes (same_ids cs b id X k)) <$> cs in
  filter (in_partition b' col') cs' = filter (in_partition b' col') cs.
Proof.
  intros Hne cs'. apply filter_fmap_frame.
  - intros c Hc [Hb Hcol]. rewrite rewrite_position_writes.
    destruct (index_of _ _) as [i|] eqn:Hi; [|done].
    apply index_of_Some, list_elem_of_lookup_2 in Hi.
    apply elem_of_same_ids, elem_of_column_ids in Hi as (c2 & Hc2 & [Hb2 Hcol2] & Hid).
    assert (c2 = c) as -> by (by eapply cards_wf_inj). destruct Hne. split; congruence.
  - intros c Hc HP. rewrite rewrite_position_writes. by destruct (index_of _ _).
Qed.

(** *** Destination different from the source *)

Lemma elem_of_new_from_ids x :
  x ∈ new_from_ids cs b id X ↔ x ∈ column_ids cs b X ∧ x ≠ id.
Proof. unfold new_from_ids. apply elem_of_removeFrom. by apply NoDup_column_ids. Qed.

Lemma elem_of_new_to_ids x :
  X ≠ Y → x ∈ new_to_ids cs b id Y k ↔ x = id ∨ x ∈ column_ids cs b Y.
Proof.
  intros HXY. unfold new_to_ids.
  rewrite removeFrom_notin by (apply move_card_not_elsewhere; congruence).
  apply elem_of_splice_insert.
Qed.

Lemma NoDup_new_from_ids : NoDup (new_from_ids cs b id X).
Proof. by apply NoDup_removeFrom, NoDup_column_ids. Qed.

Lemma NoDup_new_to_ids : X ≠ Y → NoDup (new_to_ids cs b id Y k).
Proof.
  intros HXY. unfold new_to_ids.
  rewrite removeFrom_notin by (apply move_card_not_elsewhere; congruence).
  apply NoDup_splice_insert; [by apply NoDup_column_ids|].
  apply move_card_not_elsewhere. congruence.
Qed.

Lemma new_ids_disjoint x :
  X ≠ Y → x ∈ new_from_ids cs b id X → x ∉ new_to_ids cs b id Y k.
Proof.
  intros HXY [HxX Hne]%elem_of_new_from_ids [->|HxY]%elem_of_new_to_ids; [done| |done].
  apply elem_of_column_ids in HxX as (c1 & Hc1 & [_ Hcol1] & Hid1).
  apply elem_of_column_ids in HxY as (c2 & Hc2 & [_ Hcol2] & Hid2).
  assert (c1 = c2) as -> by (eapply cards_wf_inj; [exact Hwf|done..|congruence]).
  congruence.
Qed.

Lemma cross_transaction :
  X ≠ Y →
  transaction (cross_writes cs b id X Y k) cs
  = Some (rewrite_card (cross_writes cs b id X Y k) <$> cs).
Proof.
  intros HXY. apply transaction_rewrite.
  - unfold cross_writes. rewrite fmap_app, fst_position_writes, fst_position_column_writes.
    apply NoDup_app. split_and!;
      [apply NoDup_new_from_ids|intros x; by apply new_ids_disjoint|by apply NoDup_new_to_ids].
  - intros x. unfold cross_writes.
    rewrite fmap_app, fst_position_writes, fst_position_column_writes, elem_of_app.
    intros [[Hx _]%elem_of_new_from_ids|[->|Hx]%elem_of_new_to_ids];
      [by eapply column_ids_exist| |by eapply column_ids_exist|done].
    eapply column_ids_exist, move_card_in_source.
Qed.

Lemma post_cards_move_cross :
  X ≠ Y →
  post_cards_move db b actor id body =
  mkOutcome (Ok ())
            (set_cards (rewrite_card (cross_writes cs b id X Y k) <$> cs) db)
            (cross_writes cs b id X Y k)
            [mkNotification id actor moved (Some X) (Some Y)].
Proof.
  intros HXY. unfold post_cards_move. rewrite Huuid. simpl.
  unfold CardMoveSchema. rewrite bool_decide_eq_true_2 by done. simpl.
  rewrite Hcard. rewrite !decide_False by done.
  change (card_id <$> findMany_column cs b X) with (column_ids cs b X).
  change (card_id <$> findMany_column cs b Y) with (column_ids cs b Y).
  fold (new_from_ids cs b id X). fold (new_to_ids cs b id Y k).
  fold (cross_writes cs b id X Y k).
  by rewrite cross_transaction.
Qed.

Lemma cross_rewrite_column c :
  X ≠ Y → c ∈ cs →
  card_column (rewrite_card (cross_writes cs b id X Y k) c) =
  if decide (card_id c = id) then Y else card_column c.
Proof.
  intros HXY Hc. rewrite rewrite_cross_writes.
  destruct (index_of (card_id c) (new_from_ids cs b id X)) as [i|] eqn:Hi.
  - apply index_of_Some, list_elem_of_lookup_2, elem_of_new_from_ids in Hi as [_ Hne].
    by rewrite decide_False.
  - destruct (index_of (card_id c) (new_to_ids cs b id Y k)) as [j|] eqn:Hj.
    + by case_decide.
    + apply index_of_None in Hj. rewrite elem_of_new_to_ids in Hj by done.
      rewrite decide_False; [done|]. intros Heq. apply Hj. by left.
Qed.

Lemma cross_from_after :
  X ≠ Y →
  let cs' := rewrite_card (cross_writes cs b id X Y k) <$> cs in
  column_ids cs' b X = new_from_ids cs b id X ∧
  positions cs' b X = iota (length (new_from_ids cs b id X)).
Proof.
  intros HXY cs'. apply partition_by_index.
  - unfold cards_wf, cs'. by rewrite fmap_id_rewrite.
  - apply NoDup_new_from_ids.
  - intros x. rewrite elem_of_new_from_ids, elem_of_column_ids. unfold cs'. split.
    + intros [(c & Hc & [Hb Hcol] & Hid) Hne].
      exists (rewrite_card (cross_writes cs b id X Y k) c).
      split; [by apply list_elem_of_fmap_2|].
      rewrite rewrite_card_id. split; [|done]. split; [by rewrite rewrite_card_boardId|].
      rewrite cross_rewrite_column by done. rewrite decide_False by congruence. done.
    + intros (c' & (c & -> & Hc)%list_elem_of_fmap & [Hb Hcol] & Hid).
      rewrite rewrite_card_id in Hid. rewrite rewrite_card_boardId in Hb.
      rewrite cross_rewrite_column in Hcol by done.
      destruct (decide (card_id c = id)) as [E|E]; [congruence|].
      split; [|congruence]. by exists c.
  - intros c' i (c & -> & Hc)%list_elem_of_fmap _. rewrite rewrite_card_id.
    rewrite rewrite_cross_writes. by intros ->.
Qed.

Lemma cross_to_after :
  X ≠ Y →
  let cs' := rewrite_card (cross_writes cs b id X Y k) <$> cs in
  column_ids cs' b Y = new_to_ids cs b id Y k ∧
  positions cs' b Y = iota (length (new_to_ids cs b id Y k)).
Proof.
  intros HXY cs'. apply partition_by_index.
  - unfold cards_wf, cs'. by rewrite fmap_id_rewrite.
  - by apply NoDup_new_to_ids.
  - intros x. rewrite elem_of_new_to_ids, elem_of_column_ids by done. unfold cs'. split.
    + intros Hx.
      assert (∃ c, c ∈ cs ∧ card_boardId c = b ∧ card_id c = x
                   ∧ (card_id c = id ∨ card_column c = Y)) as (c & Hc & Hb & Hid & Hcol).
      { destruct Hx as [->|(c & Hc & [Hb Hcol] & Hid)].
        - apply findFirst_card_Some in Hcard as (Hc & Hid & Hb). exists card. auto.
        - exists c. auto. }
      exists (rewrite_card (cross_writes cs b id X Y k) c).
      split; [by apply list_elem_of_fmap_2|].
      rewrite rewrite_card_id. split; [|done]. split; [by rewrite rewrite_card_boardId|].
      rewrite cross_rewrite_column by done. case_decide; [done|]. by destruct Hcol.
    + intros (c' & (c & -> & Hc)%list_elem_of_fmap & [Hb Hcol] & Hid).
      rewrite rewrite_card_id in Hid. rewrite rewrite_card_boardId in Hb.
      rewrite cross_rewrite_column in Hcol by done.
      destruct (decide (card_id c = id)) as [E|E]; [left; congruence|].
      right. by exists c.
  - intros c' j (c & -> & Hc)%list_elem_of_fmap _. rewrite rewrite_card_id.
    rewrite rewrite_cross_writes. intros Hj.
    destruct (index_of (card_id c) (new_from_ids cs b id X)) as [i|] eqn:Hi.
    + apply index_of_Some, list_elem_of_lookup_2 in Hi.
      apply index_of_Some, list_elem_of_lookup_2 in Hj.
      by destruct (new_ids_disjoint (card_id c)).
    + rewrite Hj. by case_decide.
Qed.

Lemma cross_frame b' col' :
  X ≠ Y → ¬ (b' = b ∧ (col' = X ∨ col' = Y)) →
  let cs' := rewrite_card (cross_writes cs b id X Y k) <$> cs in
  filter (in_partition b' col') cs' = filter (in_partition b' col') cs.
Proof.
  intros HXY Hne cs'. apply filter_fmap_frame.
  - intros c Hc [Hb Hcol]. rewrite rewrite_cross_writes.
    destruct (index_of (card_id c) (new_from_ids cs b id X)) as [i|] eqn:Hi.
    { apply index_of_Some, list_elem_of_lookup_2, elem_of_new_from_ids in Hi as [Hi _].
      apply elem_of_column_ids in Hi as (c2 & Hc2 & [Hb2 Hcol2] & Hid).
      assert (c2 = c) as -> by (by eapply cards_wf_inj). destruct Hne. split; [|left]; congruence. }
    destruct (index_of (card_id c) (new_to_ids cs b id Y k)) as [j|] eqn:Hj; [|done].
    apply index_of_Some, list_elem_of_lookup_2 in Hj.
    rewrite elem_of_new_to_ids in Hj by done. destruct Hj as [Hid|Hj].
    + apply move_card_of_id in Hid as ->; [|done].
      apply findFirst_card_Some in Hcard as (_ & _ & Hb'). destruct Hne. split; [|left]; congruence.
    + apply elem_of_column_ids in Hj as (c2 & Hc2 & [Hb2 Hcol2] & Hid).
      assert (c2 = c) as -> by (by eapply cards_wf_inj). destruct Hne. split; [|right]; congruence.
  - intros c Hc HP [Hb Hcol]. rewrite rewrite_card_boardId in Hb.
    rewrite cross_rewrite_column in Hcol by done.
    destruct (decide (card_id c = id)) as [E|E].
    + apply move_card_of_id in E as ->; [|done].
      apply findFirst_card_Some in Hcard as (_ & _ & Hb'). destruct Hne. split; [|right]; congruence.
    + by destruct HP.
Qed.

(** The moved card afterwards: in the destination column, at the clamped
    index. *)
Lemma cross_moved_card :
  X ≠ Y →
  let cs' := rewrite_card (cross_writes cs b id X Y k) <$> cs in
  ∃ card', findFirst_card cs' id b = Some card' ∧
           card_column card' = Y ∧
           card_position card' = clamp k 0 (Z.of_nat (length (column_ids cs b Y))).
Proof.
  intros HXY cs'. exists (rewrite_card (cross_writes cs b id X Y k) card).
  pose proof Hcard as (Hc & Hid & Hb)%findFirst_card_Some.
  split_and!.
  - apply findFirst_card_elem.
    + unfold cards_wf, cs'. by rewrite fmap_id_rewrite.
    + by apply list_elem_of_fmap_2.
    + by rewrite rewrite_card_id.
    + by rewrite rewrite_card_boardId.
  - rewrite cross_rewrite_column by done. by rewrite decide_True.
  - rewrite rewrite_cross_writes. rewrite Hid.
    assert (index_of id (new_from_ids cs b id X) = None) as ->.
    { apply index_of_None. rewrite elem_of_new_from_ids. tauto. }
    pose proof (clamp_range k (length (column_ids cs b Y))) as Hr.
    rewrite (index_of_lookup _ _
      (Z.to_nat (clamp k 0 (Z.of_nat (length (column_ids cs b Y)))))).
    + rewrite decide_True by done. simpl. lia.
    + by apply NoDup_new_to_ids.
    + unfold new_to_ids.
      rewrite removeFrom_notin by (apply move_card_not_elsewhere; congruence).
      apply lookup_splice_insert. lia.
Qed.
End move.

(* ================================================================== *)
(** * Create, move and delete on the invariants                         *)
(* ================================================================== *)

Lemma dense_of_iota cs b col n : positions cs b col = iota n → dense cs b col.
Proof. intros Hp. unfold dense. by rewrite Hp, length_iota. Qed.

Lemma dense_NoDup cs b col : dense cs b col → NoDup (positions cs b col).
Proof. intros ->. apply NoDup_iota. Qed.

Lemma positions_frame cs cs' b col :
  filter (in_partition b col) cs' = filter (in_partition b col) cs →
  positions cs' b col = positions cs b col.
Proof. intros Hf. unfold positions, findMany_column. by rewrite Hf. Qed.

Lemma NoDup_positions cs b col :
  NoDup (positions cs b col) ↔ NoDup (card_position <$> filter (in_partition b col) cs).
Proof. unfold positions. by rewrite findMany_Permutation. Qed.

(** *** Move *)

Lemma move_effect `{Platform} db b actor id body :
  cards_wf (db_cards db) →
  let cs' := db_cards (out_db (post_cards_move db b actor id body)) in
  cards_wf cs' ∧
  ∀ b' col', positions cs' b' col' = positions (db_cards db) b' col' ∨ dense cs' b' col'.
Proof.
  intros Hwf.
  destruct (isUuid id) eqn:Huuid;
    [|unfold post_cards_move; rewrite Huuid; simpl; auto].
  destruct (decide (0 ≤ mv_toIndex body)) as [Hk|Hk];
    [|unfold post_cards_move, CardMoveSchema; rewrite Huuid, bool_decide_eq_false_2 by done;
      simpl; auto].
  destruct (findFirst_card (db_cards db) id b) as [card|] eqn:Hcard;
    [|unfold post_cards_move, CardMoveSchema; rewrite Huuid, bool_decide_eq_true_2 by done;
      simpl; rewrite Hcard; simpl; auto].
  destruct (decide (card_column card = mv_toColumn body)) as [HXY|HXY].
  - rewrite (post_cards_move_same db b actor id body card) by done. simpl. split.
    + unfold cards_wf. by rewrite fmap_id_rewrite.
    + intros b' col'. destruct (decide (b' = b ∧ col' = card_column card)) as [[-> ->]|Hne].
      * right. eapply dense_of_iota, (same_after db b id body card); done.
      * left. apply positions_frame. by apply (same_frame db b id body card).
  - rewrite (post_cards_move_cross db b actor id body card) by done. simpl. split.
    + unfold cards_wf. by rewrite fmap_id_rewrite.
    + intros b' col'.
      destruct (decide (b' = b ∧ (col' = card_column card ∨ col' = mv_toColumn body)))
        as [[-> [->| ->]]|Hne].
      * right. eapply dense_of_iota, (cross_from_after db b id body card); done.
      * right. eapply dense_of_iota, (cross_to_after db b id body card); done.
      * left. apply positions_frame. by apply (cross_frame db b id body card).
Qed.

(** A committed move leaves the column it took the card from and the column
    it put the card into dense, whatever their positions were. *)
Lemma move_makes_dense `{Platform} db b actor id body card :
  cards_wf (db_cards db) → isUuid id = true → 0 ≤ mv_toIndex body →
  findFirst_card (db_cards db) id b = Some card →
  let cs' := db_cards (out_db (post_cards_move db b actor id body)) in
  dense cs' b (card_column card) ∧ dense cs' b (mv_toColumn body).
Proof.
  intros Hwf Huuid Hk Hcard.
  destruct (decide (card_column card = mv_toColumn body)) as [HXY|HXY].
  - rewrite (post_cards_move_same db b actor id body card) by done. simpl.
    rewrite <-HXY.
    split; eapply dense_of_iota, (same_after db b id body card); done.
  - rewrite (post_cards_move_cross db b actor id body card) by done. simpl. split.
    + eapply dense_of_iota, (cross_from_after db b id body card); done.
    + eapply dense_of_iota, (cross_to_after db b id body card); done.
Qed.

(** *** Delete *)

Lemma filter_filter_sublist {A} (P Q : A → Prop) `{∀ x, Decision (P x)} `{∀ x, Decision (Q x)}
    (l : list A) :
  filter P (filter Q l) `sublist_of` filter P l.
Proof.
  rewrite list_filter_filter.
  rewrite (list_filter_iff _ (λ a, Q a ∧ P a)) by (intros; tauto).
  rewrite <-list_filter_filter. apply sublist_filter.
Qed.

Lemma delete_effect `{Platform} db b id :
  cards_wf (db_cards db) →
  let cs' := db_cards (out_db (delete_card db b id)) in
  cards_wf cs' ∧
  ∀ b' col', card_position <$> filter (in_partition b' col') cs'
             `sublist_of` card_position <$> filter (in_partition b' col') (db_cards db).
Proof.
  intros Hwf. unfold delete_card.
  destruct (isUuid id); simpl; [|done].
  destruct (findFirst_card (db_cards db) id b); simpl; [|done].
  split.
  - eapply sublist_NoDup; [exact Hwf|]. apply fmap_sublist, sublist_filter.
  - intros b' col'. apply fmap_sublist, filter_filter_sublist.
Qed.

(** *** Create *)

Lemma max_position_None cs b col :
  max_position cs b col = None → filter (in_partition b col) cs = [].
Proof.
  unfold max_position. destruct (filter _ cs) as [|c l]; [done|]. simpl.
  by destruct (foldr _ _ l).
Qed.

Lemma max_position_Some cs b col m :
  max_position cs b col = Some m →
  m ∈ card_position <$> filter (in_partition b col) cs ∧
  ∀ z, z ∈ card_position <$> filter (in_partition b col) cs → z ≤ m.
Proof.
  unfold max_position. generalize (filter (in_partition b col) cs). intros l. revert m.
  induction l as [|c l IH]; intros m; simpl; [done|].
  destruct (foldr _ _ l) as [m'|] eqn:E.
  - intros [= <-]. destruct (IH m' eq_refl) as [Hin Hmax]. split.
    + destruct (Z.max_spec (card_position c) m') as [[_ ->]|[_ ->]]; [by right|by left].
    + intros z [->|Hz]%elem_of_cons; [lia|]. specialize (Hmax z Hz). lia.
  - intros [= <-]. destruct l as [|c' l]; [|simpl in E; by destruct (foldr _ _ l)].
    split; [by left|]. intros z [->|Hz]%elem_of_cons; [done|by apply elem_of_nil in Hz].
Qed.

Lemma create_effect `{Platform} db b u newId body :
  cards_wf (db_cards db) →
  let cs := db_cards db in
  let cs' := db_cards (out_db (post_cards db b u newId body)) in
  cards_wf cs' ∧
  ∀ b' col',
    filter (in_partition b' col') cs' = filter (in_partition b' col') cs ∨
    ∃ c, filter (in_partition b' col') cs' = filter (in_partition b' col') cs ++ [c] ∧
         card_position c = default (-1) (max_position cs b' col') + 1.
Proof.
  intros Hwf cs. unfold post_cards.
  destruct (CardCreateSchema body); simpl; [|auto].
  case_decide as Hnew; simpl; [auto|]. split.
  - unfold cards_wf. rewrite fmap_app. apply NoDup_app. split_and!; [done| |apply NoDup_singleton].
    intros x Hx [->|[]%elem_of_nil]%elem_of_cons. tauto.
  - intros b' col'. rewrite filter_app.
    destruct (decide (b' = b ∧ col' = default BACKLOG (cb_column body))) as [[-> ->]|Hne].
    + right. eexists. split.
      * f_equal. rewrite filter_cons, decide_True by done. done.
      * done.
    + left. rewrite filter_cons, decide_False, filter_nil, app_nil_r; [done|].
      intros [? ?]. simpl in *. apply Hne. by split.
Qed.

Lemma create_keeps_distinct cs b col c :
  NoDup (card_position <$> filter (in_partition b col) cs) →
  card_position c = default (-1) (max_position cs b col) + 1 →
  NoDup (card_position <$> (filter (in_partition b col) cs ++ [c])).
Proof.
  intros Hnd Hc. rewrite fmap_app. apply NoDup_app. split_and!; [done| |apply NoDup_singleton].
  intros z Hz [->|[]%elem_of_nil]%elem_of_cons.
  destruct (max_position cs b col) as [m|] eqn:E; simpl in Hc.
  - apply max_position_Some in E as [_ Hmax]. specialize (Hmax _ Hz). lia.
  - apply max_position_None in E. rewrite E in Hz. by apply elem_of_nil in Hz.
Qed.

Lemma create_keeps_dense cs b col c :
  card_position <$> filter (in_partition b col) cs
    ≡ₚ iota (length (filter (in_partition b col) cs)) →
  card_position c = default (-1) (max_position cs b col) + 1 →
  card_position <$> (filter (in_partition b col) cs ++ [c])
    ≡ₚ iota (length (filter (in_partition b col) cs ++ [c])).
Proof.
  intros Hd Hc. rewrite fmap_app, length_app. simpl.
  replace (length (filter (in_partition b col) cs) + 1)%nat
    with (S (length (filter (in_partition b col) cs))) by lia.
  rewrite iota_S. rewrite Hd. f_equiv.
  assert (card_position c = Z.of_nat (length (filter (in_partition b col) cs))) as ->; [|done].
  rewrite Hc. destruct (max_position cs b col) as [m|] eqn:E; simpl.
  - apply max_position_Some in E as [Hin Hmax].
    assert (∀ z, z ∈ iota (length (filter (in_partition b col) cs)) → z ≤ m) as Hmax'.
    { intros z Hz. apply Hmax. by rewrite Hd. }
    rewrite Hd in Hin. apply elem_of_iota in Hin.
    destruct (length (filter (in_partition b col) cs)) as [|n]; [lia|].
    specialize (Hmax' (Z.of_nat n)). rewrite elem_of_iota in Hmax'. lia.
  - apply max_position_None in E. by rewrite E.
Qed.

(** *** One operation, and sequences of operations *)

Lemma step_distinct `{Platform} db op :
  cards_wf (db_cards db) → distinct_positions (db_cards db) →
  cards_wf (db_cards (step db op)) ∧ distinct_positions (db_cards (step db op)).
Proof.
  intros Hwf Hd. destruct op as [b u newId body|b a id body|b id]; simpl.
  - destruct (create_effect db b u newId body Hwf) as [Hwf' Hp]. split; [done|].
    intros b' col'. apply NoDup_positions.
    destruct (Hp b' col') as [->|(c & -> & Hc)]; [by apply NoDup_positions|].
    apply create_keeps_distinct; [by apply NoDup_positions|done].
  - destruct (move_effect db b a id body Hwf) as [Hwf' Hp]. split; [done|].
    intros b' col'. destruct (Hp b' col') as [->|Hdense]; [done|by apply dense_NoDup].
  - destruct (delete_effect db b id Hwf) as [Hwf' Hp]. split; [done|].
    intros b' col'. apply NoDup_positions.
    eapply sublist_NoDup; [|apply Hp]. by apply NoDup_positions.
Qed.

Lemma step_dense `{Platform} db op :
  is_delete op = false →
  cards_wf (db_cards db) → all_dense (db_cards db) →
  all_dense (db_cards (step db op)).
Proof.
  intros Hop Hwf Hd. destruct op as [b u newId body|b a id body|b id]; simpl; [| |done].
  - destruct (create_effect db b u newId body Hwf) as [_ Hp].
    intros b' col'. apply dense_Permutation.
    destruct (Hp b' col') as [->|(c & -> & Hc)]; [by apply dense_Permutation|].
    apply create_keeps_dense; [by apply dense_Permutation|done].
  - destruct (move_effect db b a id body Hwf) as [_ Hp].
    intros b' col'. destruct (Hp b' col') as [Heq|Hdense]; [|done].
    unfold dense. rewrite Heq. apply Hd.
Qed.

Lemma run_distinct `{Platform} ops db :
  cards_wf (db_cards db) → distinct_positions (db_cards db) →
  cards_wf (db_cards (run db ops)) ∧ distinct_positions (db_cards (run db ops)).
Proof.
  revert db. induction ops as [|op ops IH]; intros db Hwf Hd; [done|].
  simpl. destruct (step_distinct db op Hwf Hd). by apply IH.
Qed.

Lemma run_dense `{Platform} ops db :
  forallb (λ op, negb (is_delete op)) ops = true →
  cards_wf (db_cards db) → all_dense (db_cards db) →
  all_dense (db_cards (run db ops)).
Proof.
  revert db. induction ops as [|op ops IH]; intros db Hops Hwf Hd; [done|].
  simpl in *. apply andb_prop in Hops as [Hop Hops]. apply negb_true_iff in Hop.
  apply IH; [done| |by apply step_dense].
  apply step_distinct; [done|]. intros b col. by apply dense_NoDup.
Qed.

(* ================================================================== *)
(** * The card ordering engine: claims                                  *)
(* ================================================================== *)

Lemma delete_cards `{Platform} db b id :
  db_cards (out_db (delete_card db b id)) = db_cards db ∨
  db_cards (out_db (delete_card db b id)) = filter (λ c, card_id c ≠ id) (db_cards db).
Proof.
  unfold delete_card. destruct (isUuid id); simpl; [|by left].
  destruct (findFirst_card _ _ _); simpl; [by right|by left].
Qed.

(** C1, as the claim states it, fails: after three cards are created in
    one column and the middle one is deleted, the positions of the column
    are 0 and 2. *)
Lemma positions_gap_after_delete :
  positions (db_cards gapped_db) DEFAULT_BOARD_ID TODO = [0; 2] ∧
  ¬ dense (db_cards gapped_db) DEFAULT_BOARD_ID TODO.
Proof. split; [by vm_compute|]. unfold dense. vm_compute. intros [=]. Qed.

(** C1 (amended): after any sequence of create, move and delete operations
    no two cards of a partition share a position; when the sequence holds no
    delete, every partition stays dense (its positions in ascending order
    are exactly 0, 1, ..., n-1); a delete only removes the row of the card
    and writes no other position; a committed move leaves the source and
    the destination column of the card dense, whatever gaps they had. *)
Theorem positions_after_operations `{Platform} (db : Db) (ops : list CardOp) :
  cards_wf (db_cards db) →
  distinct_positions (db_cards db) →
  distinct_positions (db_cards (run db ops))
  ∧ (all_dense (db_cards db) →
     forallb (λ op, negb (is_delete op)) ops = true →
     all_dense (db_cards (run db ops)))
  ∧ (∀ b id, db_cards (step db (OpDelete b id)) = db_cards db
             ∨ db_cards (step db (OpDelete b id))
               = filter (λ c, card_id c ≠ id) (db_cards db))
  ∧ (∀ b actor id body card,
       isUuid id = true → 0 ≤ mv_toIndex body →
       findFirst_card (db_cards db) id b = Some card →
       dense (db_cards (step db (OpMove b actor id body))) b (card_column card)
       ∧ dense (db_cards (step db (OpMove b actor id body))) b (mv_toColumn body)).
Proof.
  intros Hwf Hd. split_and!.
  - by apply run_distinct.
  - intros Hdense Hops. by apply run_dense.
  - intros b id. apply delete_cards.
  - intros b actor id body card Huuid Hk Hcard. simpl. by apply move_makes_dense.
Qed.

Lemma positions_after_operations_witness :
  let db := seed_db (H := test_platform) "u0" in
  cards_wf (db_cards db) ∧ distinct_positions (db_cards db) ∧ all_dense (db_cards db)
  ∧ distinct_positions (db_cards (run (H := test_platform) db three_cards_two_moves))
  ∧ all_dense (db_cards (run (H := test_platform) db three_cards_two_moves))
  ∧ distinct_positions (db_cards gapped_db)
  ∧ dense (db_cards (step (H := test_platform) gapped_db
                          (OpMove DEFAULT_BOARD_ID "u0" "c" (mkMoveBody TODO 1))))
          DEFAULT_BOARD_ID TODO.
Proof.
  assert (cards_wf (db_cards (seed_db (H := test_platform) "u0"))) as Hwf
    by (vm_compute; constructor).
  assert (distinct_positions (db_cards (seed_db (H := test_platform) "u0"))) as Hd
    by (intros b col; vm_compute; constructor).
  assert (all_dense (db_cards (seed_db (H := test_platform) "u0"))) as Ha
    by (intros b col; vm_compute; reflexivity).
  destruct (positions_after_operations (H := test_platform)
              (seed_db (H := test_platform) "u0") three_cards_two_moves Hwf Hd)
    as (H1 & H2 & _).
  destruct (positions_after_operations (H := test_platform)
              (seed_db (H := test_platform) "u0") three_cards_one_deleted Hwf Hd)
    as (Hgap & _).
  assert (cards_wf (db_cards gapped_db)) as Hwfg
    by (unfold cards_wf; apply (bool_decide_unpack _); vm_compute; exact I).
  destruct (positions_after_operations (H := test_platform) gapped_db [] Hwfg Hgap)
    as (_ & _ & _ & H4).
  split_and!; [exact Hwf|exact Hd|exact Ha|exact H1| |exact Hgap|].
  - apply H2; [exact Ha|reflexivity].
  - refine (proj1 (H4 DEFAULT_BOARD_ID "u0" "c" (mkMoveBody TODO 1) card_c eq_refl _ _)).
    + simpl. lia.
    + vm_compute. reflexivity.
Defined.

(** C2: a move of a card from column X (n cards) to another column Y (m
    cards) at requested index toIndex succeeds; the card lands at index
    k = max 0 (min toIndex m), which is toIndex itself when toIndex is at
    most m and m, the end of the column, when it is larger; the one batch
    handed to the transaction leaves X with the other n-1 cards in their
    former order at positions 0..n-2, and Y with m+1 cards at positions
    0..m, the moved card at index k with its column field set to Y. *)
Theorem move_across_columns `{Platform} (db : Db) (b actor id : string)
    (body : CardMoveBody) (card : Card) :
  cards_wf (db_cards db) →
  isUuid id = true →
  0 ≤ mv_toIndex body →
  findFirst_card (db_cards db) id b = Some card →
  card_column card ≠ mv_toColumn body →
  let cs := db_cards db in
  let X := card_column card in
  let Y := mv_toColumn body in
  let n := length (column_ids cs b X) in
  let m := length (column_ids cs b Y) in
  let k := Z.max 0 (Z.min (mv_toIndex body) (Z.of_nat m)) in
  let out := post_cards_move db b actor id body in
  let cs' := db_cards (out_db out) in
  out_result out = Ok ()
  ∧ 0 ≤ k ≤ Z.of_nat m
  ∧ (mv_toIndex body ≤ Z.of_nat m → k = mv_toIndex body)
  ∧ (Z.of_nat m ≤ mv_toIndex body → k = Z.of_nat m)
  ∧ transaction (out_writes out) cs = Some cs'
  ∧ column_ids cs' b X = filter (λ x, x ≠ id) (column_ids cs b X)
  ∧ S (length (column_ids cs' b X)) = n
  ∧ positions cs' b X = iota (n - 1)
  ∧ column_ids cs' b Y
    = take (Z.to_nat k) (column_ids cs b Y) ++ id :: drop (Z.to_nat k) (column_ids cs b Y)
  ∧ positions cs' b Y = iota (m + 1)
  ∧ column_ids cs' b Y !! Z.to_nat k = Some id
  ∧ ∃ card', findFirst_card cs' id b = Some card'
             ∧ card_column card' = Y ∧ card_position card' = k.
Proof.
  intros Hwf Huuid Hk Hcard HXY cs X Y n m k out cs'.
  assert (k = clamp (mv_toIndex body) 0 (Z.of_nat m)) as Hclamp
    by (unfold k, clamp; lia).
  assert (0 ≤ k ≤ Z.of_nat m
          ∧ (mv_toIndex body ≤ Z.of_nat m → k = mv_toIndex body)
          ∧ (Z.of_nat m ≤ mv_toIndex body → k = Z.of_nat m)) as (Hr & Hin & Hover)
    by (unfold k; lia).
  clearbody k. subst k.
  assert (out = mkOutcome (Ok ())
            (set_cards (rewrite_card (cross_writes cs b id X Y (mv_toIndex body)) <$> cs) db)
            (cross_writes cs b id X Y (mv_toIndex body))
            [mkNotification id actor moved (Some X) (Some Y)]) as Hout
    by (by apply post_cards_move_cross).
  assert (cs' = rewrite_card (cross_writes cs b id X Y (mv_toIndex body)) <$> cs) as Hcs'
    by (unfold cs'; by rewrite Hout).
  destruct (cross_from_after db b id body card Hwf Hcard HXY) as [HfromIds HfromPos].
  destruct (cross_to_after db b id body card Hwf Hcard HXY) as [HtoIds HtoPos].
  fold cs X Y in HfromIds, HfromPos, HtoIds, HtoPos.
  rewrite <-Hcs' in HfromIds, HfromPos, HtoIds, HtoPos.
  assert (id ∉ column_ids cs b Y) as HidY
    by (apply (move_card_not_elsewhere db b id card); [done..|by apply not_eq_sym]).
  assert (new_to_ids cs b id Y (mv_toIndex body)
          = take (Z.to_nat (clamp (mv_toIndex body) 0 (Z.of_nat m))) (column_ids cs b Y)
            ++ id :: drop (Z.to_nat (clamp (mv_toIndex body) 0 (Z.of_nat m)))
                          (column_ids cs b Y))
    as Hto by (unfold new_to_ids; by rewrite removeFrom_notin).
  assert (length (new_from_ids cs b id X) = (n - 1)%nat) as Hlen.
  { pose proof (length_removeFrom id (column_ids cs b X)
                  (move_card_in_source db b id card Hcard)) as Hl.
    unfold new_from_ids, n. lia. }
  split_and!.
  - by rewrite Hout.
  - apply Hr.
  - apply Hr.
  - exact Hin.
  - exact Hover.
  - rewrite Hout, Hcs'. simpl. by apply (cross_transaction db b id body card).
  - rewrite HfromIds. unfold new_from_ids. apply removeFrom_filter.
    by apply NoDup_column_ids.
  - rewrite HfromIds, Hlen.
    pose proof (length_removeFrom id (column_ids cs b X)
                  (move_card_in_source db b id card Hcard)).
    unfold n. lia.
  - by rewrite HfromPos, Hlen.
  - by rewrite HtoIds.
  - rewrite HtoPos, Hto. f_equal.
    rewrite length_app, length_take. simpl. rewrite length_drop. unfold m in *. lia.
  - rewrite HtoIds, Hto. apply lookup_splice_insert. unfold m in *. lia.
  - rewrite Hcs'. by apply (cross_moved_card db b id body card).
Qed.

Lemma move_across_columns_witness :
  let db := two_columns_db in
  let out := post_cards_move (H := test_platform) db DEFAULT_BOARD_ID "u0" "a" (mkMoveBody DONE 1) in
  cards_wf (db_cards db)
  ∧ findFirst_card (db_cards db) "a" DEFAULT_BOARD_ID = Some card_a
  ∧ column_ids (db_cards db) DEFAULT_BOARD_ID TODO = ["a"; "b"]
  ∧ column_ids (db_cards db) DEFAULT_BOARD_ID DONE = ["x"; "y"; "z"]
  ∧ out_result out = Ok ()
  ∧ column_ids (db_cards (out_db out)) DEFAULT_BOARD_ID TODO = ["b"]
  ∧ positions (db_cards (out_db out)) DEFAULT_BOARD_ID TODO = [0]
  ∧ column_ids (db_cards (out_db out)) DEFAULT_BOARD_ID DONE = ["x"; "a"; "y"; "z"]
  ∧ positions (db_cards (out_db out)) DEFAULT_BOARD_ID DONE = [0; 1; 2; 3]
  ∧ column_ids (db_cards (out_db out)) DEFAULT_BOARD_ID DONE !! 1%nat = Some "a".
Proof.
  assert (cards_wf (db_cards two_columns_db)) as Hwf
    by (unfold cards_wf; apply (bool_decide_unpack _); vm_compute; exact I).
  assert (findFirst_card (db_cards two_columns_db) "a" DEFAULT_BOARD_ID = Some card_a) as Hcard
    by (vm_compute; reflexivity).
  assert (0 ≤ mv_toIndex (mkMoveBody DONE 1)) as Hk by (simpl; lia).
  assert (card_column card_a ≠ mv_toColumn (mkMoveBody DONE 1)) as HXY by (simpl; discriminate).
  destruct (move_across_columns (H := test_platform) two_columns_db DEFAULT_BOARD_ID "u0" "a"
              (mkMoveBody DONE 1) card_a Hwf eq_refl Hk Hcard HXY)
    as (H1 & _ & _ & _ & _ & H4 & _ & H6 & H7 & H8 & H9 & _).
  split_and!;
    [exact Hwf|exact Hcard|reflexivity|reflexivity|exact H1|exact H4|exact H6|exact H7|exact H8
    |exact H9].
Defined.

(** C8, as the claim states it, fails: in the column left by a delete, at
    positions 0 and 2, the card at index 1 is moved to index 1 of its own
    column; the batch of position writes is issued and the position of the
    card changes from 2 to 1. *)
Lemma move_to_current_index_rewrites :
  let out := post_cards_move (H := test_platform) gapped_db DEFAULT_BOARD_ID "u0" "c"
                             (mkMoveBody TODO 1) in
  findFirst_card (db_cards gapped_db) "c" DEFAULT_BOARD_ID = Some card_c
  ∧ column_ids (db_cards gapped_db) DEFAULT_BOARD_ID TODO !! 1%nat = Some "c"
  ∧ out_writes out ≠ []
  ∧ card_position <$> findFirst_card (db_cards (out_db out)) "c" DEFAULT_BOARD_ID = Some 1
  ∧ out_db out ≠ gapped_db.
Proof.
  split_and!; by vm_compute.
Qed.

Lemma set_cards_same db : set_cards (db_cards db) db = db.
Proof. by destruct db. Qed.

Lemma length_position_writes ids : length (position_writes ids) = length ids.
Proof. unfold position_writes. apply length_imap. Qed.

(** C8 (amended): moving a card to its current column and current index
    sends no notification and keeps every card of every board in its
    column and at its place in the order; the handler still issues the
    full batch of position updates for the column, one for each card with
    the index the card has.  The positions of the column are 0..n-1
    afterwards, which is what they were when the column was dense, and the
    positions of every other column are as they were. *)
Theorem move_to_current_place `{Platform} (db : Db) (b actor id : string)
    (card : Card) (i : nat) :
  cards_wf (db_cards db) →
  isUuid id = true →
  findFirst_card (db_cards db) id b = Some card →
  column_ids (db_cards db) b (card_column card) !! i = Some id →
  let cs := db_cards db in
  let col := card_column card in
  let out := post_cards_move db b actor id (mkMoveBody col (Z.of_nat i)) in
  let cs' := db_cards (out_db out) in
  out_result out = Ok ()
  ∧ out_notify out = []
  ∧ out_writes out = position_writes (column_ids cs b col)
  ∧ length (out_writes out) = length (column_ids cs b col)
  ∧ (∀ b' col', column_ids cs' b' col' = column_ids cs b' col')
  ∧ positions cs' b col = iota (length (column_ids cs b col))
  ∧ (∀ b' col', ¬ (b' = b ∧ col' = col) → positions cs' b' col' = positions cs b' col')
  ∧ (dense cs b col → ∀ b' col', positions cs' b' col' = positions cs b' col').
Proof.
  intros Hwf Huuid Hcard Hi cs col out cs'. subst cs col.
  assert (0 ≤ mv_toIndex (mkMoveBody (card_column card) (Z.of_nat i))) as Hk by (simpl; lia).
  pose proof (post_cards_move_same db b actor id _ card Hwf Huuid Hk Hcard eq_refl) as Hout.
  fold out in Hout. simpl in Hout.
  assert (same_ids (db_cards db) b id (card_column card) (Z.of_nat i)
          = column_ids (db_cards db) b (card_column card)) as Hids.
  { unfold same_ids.
    pose proof (length_removeFrom id _ (move_card_in_source db b id card Hcard)) as Hl.
    apply lookup_lt_Some in Hi as Hlt.
    rewrite clamp_id by lia. rewrite Nat2Z.id.
    apply splice_insert_removeFrom; [by apply NoDup_column_ids|done]. }
  destruct (same_after db b id (mkMoveBody (card_column card) (Z.of_nat i)) card Hwf Hcard)
    as [Hafter_ids Hafter_pos].
  pose proof (same_frame db b id (mkMoveBody (card_column card) (Z.of_nat i)) card Hwf Hcard)
    as Hframe.
  simpl in Hafter_ids, Hafter_pos, Hframe.
  rewrite Hids in Hout, Hafter_ids, Hafter_pos, Hframe.
  assert (cs' = rewrite_card (position_writes (column_ids (db_cards db) b (card_column card)))
                  <$> db_cards db) as Hcs'
    by (unfold cs'; by rewrite Hout).
  rewrite <- Hcs' in Hafter_ids, Hafter_pos, Hframe.
  assert (∀ b' col', ¬ (b' = b ∧ col' = card_column card) →
                     positions cs' b' col' = positions (db_cards db) b' col')
    as Hother by (intros b' col' Hne; by apply positions_frame, Hframe).
  split_and!.
  - by rewrite Hout.
  - by rewrite Hout.
  - by rewrite Hout.
  - rewrite Hout. simpl. apply length_position_writes.
  - intros b' col'.
    destruct (decide (b' = b ∧ col' = card_column card)) as [[-> ->]|Hne]; [done|].
    unfold column_ids, findMany_column. by rewrite (Hframe b' col' Hne).
  - done.
  - exact Hother.
  - intros Hdense b' col'.
    destruct (decide (b' = b ∧ col' = card_column card)) as [[-> ->]|Hne]; [|by apply Hother].
    rewrite Hafter_pos. unfold dense in Hdense. rewrite Hdense.
    unfold positions, column_ids. by rewrite !length_fmap.
Qed.

Lemma move_to_current_place_witness :
  let db := three_cards_db in
  let out := post_cards_move (H := test_platform) db DEFAULT_BOARD_ID "u0" "c"
                             (mkMoveBody TODO 2) in
  dense (db_cards db) DEFAULT_BOARD_ID TODO
  ∧ column_ids (db_cards db) DEFAULT_BOARD_ID TODO !! 2%nat = Some "c"
  ∧ out_result out = Ok () ∧ out_notify out = []
  ∧ out_writes out = position_writes ["a"; "b"; "c"]
  ∧ column_ids (db_cards (out_db out)) DEFAULT_BOARD_ID TODO = ["a"; "b"; "c"]
  ∧ positions (db_cards (out_db out)) DEFAULT_BOARD_ID TODO = [0; 1; 2].
Proof.
  assert (cards_wf (db_cards three_cards_db)) as Hwf
    by (unfold cards_wf; apply (bool_decide_unpack _); vm_compute; exact I).
  assert (findFirst_card (db_cards three_cards_db) "c" DEFAULT_BOARD_ID = Some card_c) as Hcard
    by (vm_compute; reflexivity).
  assert (column_ids (db_cards three_cards_db) DEFAULT_BOARD_ID (card_column card_c) !! 2%nat
          = Some "c") as Hi by (vm_compute; reflexivity).
  assert (dense (db_cards three_cards_db) DEFAULT_BOARD_ID (card_column card_c)) as Hd
    by (vm_compute; reflexivity).
  destruct (move_to_current_place (H := test_platform) three_cards_db DEFAULT_BOARD_ID "u0" "c"
              card_c 2 Hwf eq_refl Hcard Hi) as (H1 & H2 & H3 & _ & H5 & H6 & _).
  split_and!; [exact Hd|exact Hi|exact H1|exact H2|exact H3|apply H5|exact H6].
Defined.

(** The notification goes to participants of the card other than the
    actor. *)
Lemma notify_recipients db n rs e :
  notifyCardParticipants db n = Some rs → e ∈ rs →
  ∃ p u, p ∈ db_participants db ∧ cp_cardId p = n_cardId n
         ∧ u ∈ db_users db ∧ user_id u = cp_userId p
         ∧ user_email u = e ∧ user_id u ≠ n_actorId n.
Proof.
  unfold notifyCardParticipants.
  destruct (list_find _ (db_cards db)); [|done].
  case_decide; [done|]. intros [= <-] He.
  apply list_elem_of_filter in He as [_ He].
  apply list_elem_of_fmap in He as (u & -> & Hu).
  apply list_elem_of_filter in Hu as [Hactor Hu].
  apply list_elem_of_omap in Hu as (q & Hq & Hf).
  case_decide as Hcard; [|done].
  destruct (list_find _ (db_users db)) as [[i u']|] eqn:E; simpl in Hf; [|done].
  injection Hf as ->. apply list_find_Some in E as (Hi & Hid & _).
  exists q, u. split_and!; [done..|by eapply list_elem_of_lookup_2|done|done|done].
Qed.

(** C10: a move whose destination column is the column of the card never
    dispatches a notification, whatever becomes of the order of the cards;
    a notification the move handler dispatches is the "moved" notification
    of a successful move across columns, and every such move dispatches
    it; create, read and delete dispatch none. *)
Theorem move_notification `{Platform} (db : Db) (b actor id : string) (body : CardMoveBody) :
  let out := post_cards_move db b actor id body in
  (∀ card, findFirst_card (db_cards db) id b = Some card →
           card_column card = mv_toColumn body → out_notify out = [])
  ∧ (∀ n, n ∈ out_notify out →
          ∃ card, findFirst_card (db_cards db) id b = Some card
                  ∧ card_column card ≠ mv_toColumn body
                  ∧ out_result out = Ok ()
                  ∧ n = mkNotification id actor moved (Some (card_column card))
                                       (Some (mv_toColumn body)))
  ∧ (∀ card, cards_wf (db_cards db) → isUuid id = true → 0 ≤ mv_toIndex body →
             findFirst_card (db_cards db) id b = Some card →
             card_column card ≠ mv_toColumn body →
             out_notify out = [mkNotification id actor moved (Some (card_column card))
                                              (Some (mv_toColumn body))])
  ∧ (∀ u newId cbody, out_notify (post_cards db b u newId cbody) = [])
  ∧ out_notify (get_card db b id) = []
  ∧ out_notify (delete_card db b id) = [].
Proof.
  intros out. split_and!.
  - intros card Hcard HXY. unfold out, post_cards_move.
    destruct (isUuid id); simpl; [|done].
    destruct (CardMoveSchema body); simpl; [|done].
    rewrite Hcard. rewrite decide_True by done.
    by destruct (transaction _ _).
  - intros n. unfold out, post_cards_move.
    destruct (isUuid id); simpl; [|by intros ?%elem_of_nil].
    destruct (CardMoveSchema body); simpl; [|by intros ?%elem_of_nil].
    destruct (findFirst_card (db_cards db) id b) as [card|]; simpl;
      [|by intros ?%elem_of_nil].
    destruct (decide (card_column card = mv_toColumn body)) as [HXY|HXY].
    + destruct (transaction _ _); simpl; by intros ?%elem_of_nil.
    + destruct (transaction _ _); simpl; [|by intros ?%elem_of_nil].
      intros ->%list_elem_of_singleton. by exists card.
  - intros card Hwf Huuid Hk Hcard HXY. unfold out.
    by rewrite (post_cards_move_cross db b actor id body card).
  - intros u newId cbody. unfold post_cards.
    destruct (CardCreateSchema cbody); simpl; [|done]. by case_decide.
  - unfold get_card. destruct (isUuid id); simpl; [|done].
    by destruct (findFirst_card _ _ _).
  - unfold delete_card. destruct (isUuid id); simpl; [|done].
    by destruct (findFirst_card _ _ _).
Qed.

Lemma move_notification_witness :
  out_notify (post_cards_move (H := test_platform) three_cards_db DEFAULT_BOARD_ID "u0" "a"
                              (mkMoveBody TODO 2)) = []
  ∧ column_ids (db_cards (out_db (post_cards_move (H := test_platform) three_cards_db
                                    DEFAULT_BOARD_ID "u0" "a" (mkMoveBody TODO 2))))
               DEFAULT_BOARD_ID TODO = ["b"; "c"; "a"]
  ∧ out_notify (post_cards_move (H := test_platform) three_cards_db DEFAULT_BOARD_ID "u0" "a"
                                (mkMoveBody DONE 0))
    = [mkNotification "a" "u0" moved (Some TODO) (Some DONE)].
Proof.
  assert (cards_wf (db_cards three_cards_db)) as Hwf
    by (unfold cards_wf; apply (bool_decide_unpack _); vm_compute; exact I).
  assert (findFirst_card (db_cards three_cards_db) "a" DEFAULT_BOARD_ID = Some card_a) as Hcard
    by (vm_compute; reflexivity).
  split_and!.
  - destruct (move_notification (H := test_platform) three_cards_db DEFAULT_BOARD_ID "u0" "a"
                (mkMoveBody TODO 2)) as (H1 & _).
    exact (H1 card_a Hcard eq_refl).
  - vm_compute. reflexivity.
  - destruct (move_notification (H := test_platform) three_cards_db DEFAULT_BOARD_ID "u0" "a"
                (mkMoveBody DONE 0)) as (_ & _ & H3 & _).
    refine (H3 card_a Hwf eq_refl _ Hcard _); simpl; [lia|discriminate].
Defined.

(** C5: under an authorized session whose active board is B, a card of
    another board A is not found: GET /cards/:id answers 404, POST
    /cards/:id/move with a well-formed body answers 404, neither ever
    answers 403, the store is left as it was, and both answer exactly as
    they do for an id that no card has. *)
Theorem board_isolation `{Platform} (db : Db) (sess : Session) (u : User) (A B : string)
    (card : Card) (body : CardMoveBody) :
  cards_wf (db_cards db) →
  card ∈ db_cards db →
  card_boardId card = A →
  isUuid (card_id card) = true →
  card_gate db sess = Ok (u, B) →
  B ≠ A →
  let get := route_get_card db sess (card_id card) in
  let move := route_post_cards_move db sess (card_id card) body in
  out_result get = Throw (HttpError 404 "Card not found")
  ∧ (0 ≤ mv_toIndex body → out_result move = Throw (HttpError 404 "Card not found"))
  ∧ (∀ msg, out_result get ≠ Throw (HttpError 403 msg))
  ∧ (∀ msg, out_result move ≠ Throw (HttpError 403 msg))
  ∧ out_db get = db ∧ out_db move = db
  ∧ (∀ id', isUuid id' = true → id' ∉ card_id <$> db_cards db →
            route_get_card db sess id' = get
            ∧ route_post_cards_move db sess id' body = move).
Proof.
  intros Hwf Hcard HA Huuid Hgate HBA get move.
  assert (findFirst_card (db_cards db) (card_id card) B = None) as Hnone.
  { destruct (findFirst_card (db_cards db) (card_id card) B) as [c|] eqn:E; [|done].
    apply findFirst_card_Some in E as (Hc & Hid & Hb).
    assert (c = card) as -> by (by eapply cards_wf_inj). congruence. }
  assert (get = throw db (HttpError 404 "Card not found")) as Hget.
  { unfold get, route_get_card, get_card. by rewrite Hgate, Huuid, Hnone. }
  assert (move = if CardMoveSchema body then throw db (HttpError 404 "Card not found")
                 else throw db ZodError) as Hmove.
  { unfold move, route_post_cards_move, post_cards_move.
    rewrite Hgate, Huuid. simpl. destruct (CardMoveSchema body); simpl; [|done].
    by rewrite Hnone. }
  split_and!.
  - by rewrite Hget.
  - intros Hk. rewrite Hmove. unfold CardMoveSchema. by rewrite bool_decide_eq_true_2.
  - intros msg. by rewrite Hget.
  - intros msg. rewrite Hmove. by destruct (CardMoveSchema body).
  - by rewrite Hget.
  - rewrite Hmove. by destruct (CardMoveSchema body).
  - intros id' Huuid' Hid'.
    assert (findFirst_card (db_cards db) id' B = None) as Hnone'.
    { destruct (findFirst_card (db_cards db) id' B) as [c|] eqn:E; [|done].
      apply findFirst_card_Some in E as (Hc & Hid & Hb).
      destruct Hid'. rewrite <-Hid. by apply list_elem_of_fmap_2. }
    split.
    + rewrite Hget. unfold route_get_card, get_card. by rewrite Hgate, Huuid', Hnone'.
    + rewrite Hmove. unfold route_post_cards_move, post_cards_move.
      rewrite Hgate, Huuid'. simpl. destruct (CardMoveSchema body); simpl; [|done].
      by rewrite Hnone'.
Qed.

Lemma board_isolation_witness :
  card_gate two_boards_db session_on_b2 = Ok (admin_2fa, "b2")
  ∧ out_result (route_get_card (H := test_platform) two_boards_db session_on_b2 "a")
    = Throw (HttpError 404 "Card not found")
  ∧ out_result (route_post_cards_move (H := test_platform) two_boards_db session_on_b2 "a"
                                      (mkMoveBody DONE 0))
    = Throw (HttpError 404 "Card not found").
Proof.
  assert (cards_wf (db_cards two_boards_db)) as Hwf
    by (unfold cards_wf; apply (bool_decide_unpack _); vm_compute; exact I).
  assert (card_a ∈ db_cards two_boards_db) as Hin by (simpl; left).
  assert (card_gate two_boards_db session_on_b2 = Ok (admin_2fa, "b2")) as Hgate
    by (vm_compute; reflexivity).
  assert ("b2" ≠ DEFAULT_BOARD_ID) as Hne by discriminate.
  destruct (board_isolation (H := test_platform) two_boards_db session_on_b2 admin_2fa
              DEFAULT_BOARD_ID "b2" card_a (mkMoveBody DONE 0) Hwf Hin eq_refl eq_refl Hgate Hne)
    as (H1 & H2 & _).
  split_and!; [exact Hgate|exact H1|].
  apply H2. simpl. lia.
Defined.

(* ================================================================== *)
(** * The authorization gate: claims                                    *)
(* ================================================================== *)

Lemma findUnique_user_Some db id u :
  findUnique_user db id = Some u → u ∈ db_users db ∧ user_id u = id.
Proof.
  unfold findUnique_user.
  destruct (list_find _ (db_users db)) as [[i u']|] eqn:E; simpl; [|done].
  intros [= <-]. apply list_find_Some in E as (Hi & ? & _).
  split; [by eapply list_elem_of_lookup_2|done].
Qed.

Lemma findUnique_user_map (g : User → User) (us : list User) id :
  (∀ u, user_id (g u) = user_id u) →
  snd <$> list_find (λ u, user_id u = id) (g <$> us)
  = g <$> (snd <$> list_find (λ u, user_id u = id) us).
Proof.
  intros Hg. induction us as [|x us IH]; [done|].
  rewrite fmap_cons. simpl. rewrite Hg.
  case_decide; [done|].
  destruct (list_find _ (g <$> us)) as [[i y]|];
    destruct (list_find _ us) as [[j z]|]; simpl in *; congruence.
Qed.

Lemma findUnique_user_update db db' id f u :
  (∀ u, user_id (f u) = user_id u) →
  user_update id f db = Some db' →
  findUnique_user db id = Some u →
  findUnique_user db' id = Some (f u).
Proof.
  intros Hf. unfold user_update. case_decide; [|done]. intros [= <-] Hu.
  pose proof (findUnique_user_Some _ _ _ Hu) as [_ Hid].
  unfold findUnique_user in *. simpl.
  rewrite findUnique_user_map by (intros x; by case_decide).
  rewrite Hu. simpl. by rewrite decide_True.
Qed.

Lemma user_update_is_Some db id f u :
  findUnique_user db id = Some u → is_Some (user_update id f db).
Proof.
  intros [Hu Hid]%findUnique_user_Some. unfold user_update.
  rewrite decide_True; [by eexists|]. rewrite <-Hid. by apply list_elem_of_fmap_2.
Qed.

Lemma getAuthUser_Some db sess u :
  getAuthUser db sess = Some u →
  ∃ userId, sess_user sess = Some userId ∧ userId ≠ ""
            ∧ findUnique_user db userId = Some u.
Proof.
  unfold getAuthUser, truthy. destruct (sess_user sess) as [userId|]; [|done].
  case_decide; [done|]. intros Hu. by exists userId.
Qed.

(** C9, as the claim states it, fails: the bootstrapped admin signs in
    with the initial password and enrols in two-factor authentication; the
    must-change-password flag is still set, and the gate of the board and
    card endpoints lets the session through: a card is created. *)
Lemma must_change_password_not_enforced :
  let db := enrolled_without_password_change.1 in
  let sess := enrolled_without_password_change.2 in
  user_mustChangePassword <$> getAuthUser db sess = Some true
  ∧ fst <$> (match card_gate db sess with Ok r => Some r | Throw _ => None end)
    = getAuthUser db sess
  ∧ card_id <$> (match out_result (route_post_cards (H := test_platform) db sess "a"
                                                     (todo_card "first"))
                 with Ok c => Some c | Throw _ => None end) = Some "a".
Proof. split_and!; by vm_compute. Qed.

(** C9 (amended): the view router of the client enforces the precedence
    must-change-password, then two-factor setup, then two-factor
    verification, then the board; the gate of the server in front of the
    board and card endpoints enforces a login, then two-factor setup, then
    two-factor verification, then the board context, and does not read the
    must-change-password flag; POST /auth/password, which needs a login
    only, clears the flag. *)
Theorem gate_precedence `{Platform} (db : Db) (sess : Session) :
  (getAuthUser db sess = None →
   App_view (Some (get_me db sess)) None = LoginView
   ∧ card_gate db sess = Throw (HttpError 401 "Unauthorized"))
  ∧ (∀ u, getAuthUser db sess = Some u →
      App_view (Some (get_me db sess)) None
      = (if user_mustChangePassword u then ChangePasswordView
         else if negb (user_totpEnabled u) then TwoFaSetupView
         else if negb (sess_twoFactorPassed sess) then TwoFaVerifyView
         else BoardView)
      ∧ card_gate db sess
        = (if negb (user_totpEnabled u) then Throw (HttpError 403 "2FA setup required")
           else if negb (sess_twoFactorPassed sess)
           then Throw (HttpError 401 "Two-factor required")
           else match requireBoardContext db u sess with
                | Throw e => Throw e
                | Ok boardId => Ok (u, boardId)
                end)
      ∧ (∀ newPassword, ChangePasswordSchema newPassword = true →
           let out := post_password db sess newPassword in
           a_result out = Ok ()
           ∧ user_mustChangePassword <$> getAuthUser (a_db out) sess = Some false)).
Proof.
  split.
  - intros Hu. split.
    + unfold App_view, get_me. unfold getAuthUser in Hu.
      destruct (truthy (sess_user sess)); simpl; [by rewrite Hu|done].
    + unfold card_gate, requireLogin. by rewrite Hu.
  - intros u Hu. split_and!.
    + unfold App_view, get_me. simpl.
      destruct (getAuthUser_Some _ _ _ Hu) as (userId & Hs & Hne & Hf).
      rewrite Hs. simpl. rewrite decide_False by done. simpl. by rewrite Hf.
    + unfold card_gate, requireLogin, requireTwoFactor. rewrite Hu.
      destruct (user_totpEnabled u); simpl; [|done].
      by destruct (sess_twoFactorPassed sess).
    + intros newPassword Hpw out. unfold out, post_password, requireLogin.
      rewrite Hu, Hpw. simpl.
      destruct (getAuthUser_Some _ _ _ Hu) as (userId & Hs & Hne & Hf).
      pose proof (findUnique_user_Some _ _ _ Hf) as [_ Hid]. rewrite Hid.
      destruct (user_update_is_Some db userId
                  (with_password (hashPassword newPassword) false) u Hf) as [db' Hdb'].
      rewrite Hdb'. simpl. split; [done|].
      unfold getAuthUser. rewrite Hs. simpl. rewrite decide_False by done.
      by rewrite (findUnique_user_update db db' userId
                    (with_password (hashPassword newPassword) false) u).
Qed.

Lemma gate_precedence_witness :
  let db := enrolled_without_password_change.1 in
  let sess := enrolled_without_password_change.2 in
  is_Some (getAuthUser db sess)
  ∧ App_view (Some (get_me db sess)) None = ChangePasswordView
  ∧ card_gate db sess
    = match getAuthUser db sess with
      | Some u => Ok (u, DEFAULT_BOARD_ID)
      | None => Throw (HttpError 401 "Unauthorized")
      end
  ∧ user_mustChangePassword
      <$> getAuthUser (a_db (post_password (H := test_platform) db sess "new-password")) sess
    = Some false
  ∧ card_gate db empty_session = Throw (HttpError 401 "Unauthorized").
Proof.
  destruct (getAuthUser enrolled_without_password_change.1
                        enrolled_without_password_change.2) as [u|] eqn:Hu;
    [|vm_compute in Hu; discriminate].
  destruct (gate_precedence (H := test_platform) enrolled_without_password_change.1
              enrolled_without_password_change.2) as (_ & Hsome).
  destruct (Hsome u Hu) as (H1 & H2 & H3).
  destruct (H3 "new-password" eq_refl) as [_ H4].
  destruct (gate_precedence (H := test_platform) enrolled_without_password_change.1
              empty_session) as (Hnone & _).
  assert (u = mkUser "u0" "admin@local" "Administrator" ADMIN true "admin" true true
                     (Some "secret1") None (Some DEFAULT_BOARD_ID)) as Hueq
    by (vm_compute in Hu; injection Hu as <-; reflexivity).
  split_and!.
  - by eexists.
  - rewrite H1, Hueq. reflexivity.
  - rewrite H2, Hueq. vm_compute. reflexivity.
  - exact H4.
  - apply Hnone. reflexivity.
Defined.

(* ================================================================== *)
(** * Login: claims                                                     *)
(* ================================================================== *)

(** C7: with a well-formed body, POST /auth/login answers the same 401
    "Invalid credentials", leaving store and session as they were, when the
    identifier resolves to no user and when it resolves to a user whose
    password does not verify; an identifier that is neither the admin alias
    nor an e-mail address and matches the display name of two or more users
    is answered with the different error 400 "Ambiguous login, use email". *)
Theorem login_errors `{Platform} (db : Db) (sess : Session) (env : LoginEnv) (body : LoginBody) :
  LoginSchema body = true →
  (login_resolve db (lb_login body) = Ok None →
   post_login db sess env body = auth_throw db sess (HttpError 401 "Invalid credentials"))
  ∧ (∀ u, login_resolve db (lb_login body) = Ok (Some u) →
          verifyPassword (lb_password body) (user_passwordHash u) = false →
          post_login db sess env body = auth_throw db sess (HttpError 401 "Invalid credentials"))
  ∧ (toLowerCase (trim (lb_login body)) ≠ "admin" →
     includesAt (trim (lb_login body)) = false →
     (2 ≤ length (filter (λ u, equalsInsensitive (user_name u) (trim (lb_login body)) = true)
                         (db_users db)))%nat →
     post_login db sess env body
     = auth_throw db sess (HttpError 400 "Ambiguous login, use email"))
  ∧ HttpError 400 "Ambiguous login, use email" ≠ HttpError 401 "Invalid credentials".
Proof.
  intros Hschema. split_and!.
  - intros Hr. unfold post_login. by rewrite Hschema, Hr.
  - intros u Hr Hpw. unfold post_login. by rewrite Hschema, Hr, Hpw.
  - intros Hadmin Hat Hlen. unfold post_login. rewrite Hschema. simpl.
    unfold login_resolve. rewrite decide_False by done. rewrite Hat.
    unfold findMany_users_by_name.
    destruct (filter _ (db_users db)) as [|u1 [|u2 rest]]; simpl in Hlen; [lia|lia|].
    done.
  - discriminate.
Qed.

Lemma login_errors_witness :
  post_login (H := test_platform) login_db empty_session login_env0
             (mkLoginBody "nobody" "some-password" None None)
  = auth_throw login_db empty_session (HttpError 401 "Invalid credentials")
  ∧ post_login (H := test_platform) login_db empty_session login_env0
               (mkLoginBody "ann@example.org" "wrong-password" None None)
    = auth_throw login_db empty_session (HttpError 401 "Invalid credentials")
  ∧ post_login (H := test_platform) login_db empty_session login_env0
               (mkLoginBody "Kim" "kim-password-1" None None)
    = auth_throw login_db empty_session (HttpError 400 "Ambiguous login, use email").
Proof.
  split_and!.
  - destruct (login_errors (H := test_platform) login_db empty_session login_env0
                (mkLoginBody "nobody" "some-password" None None) eq_refl) as (H1 & _).
    apply H1. vm_compute. reflexivity.
  - destruct (login_errors (H := test_platform) login_db empty_session login_env0
                (mkLoginBody "ann@example.org" "wrong-password" None None) eq_refl)
      as (_ & H2 & _).
    apply (H2 ann_2fa); vm_compute; reflexivity.
  - destruct (login_errors (H := test_platform) login_db empty_session login_env0
                (mkLoginBody "Kim" "kim-password-1" None None) eq_refl) as (_ & _ & H3 & _).
    apply H3; [discriminate|reflexivity|vm_compute; lia].
Defined.


Lemma verifyTrustedDeviceToken_false `{Platform} db userId token now :
  (∀ d, d ∈ db_trustedDevices db →
        ¬ (td_userId d = userId ∧ td_tokenHash d = sha256Hex token ∧ now < td_expiresAt d)) →
  verifyTrustedDeviceToken db userId token now = (false, db).
Proof.
  intros Hno. unfold verifyTrustedDeviceToken.
  destruct (list_find _ (db_trustedDevices db)) as [[i d]|] eqn:E; [|done].
  apply list_find_Some in E as (Hi & Hd & _).
  destruct (Hno d); [by eapply list_elem_of_lookup_2|done].
Qed.




(* ================================================================== *)
(** * Password reset: claims                                            *)
(* ================================================================== *)

Lemma session_load_elem db sid :
  session_load db sid = empty_session ∨ (∃ sid', (sid', session_load db sid) ∈ db_sessions db).
Proof.
  unfold session_load.
  destruct (list_find _ (db_sessions db)) as [[i [sid' sess]]|] eqn:E; [|by left].
  right. exists sid'. apply list_find_Some in E as (Hi & _). by eapply list_elem_of_lookup_2.
Qed.

(** After the sessions of a user are deleted, no cookie loads a session of
    that user. *)
Lemma delete_user_sessions_load userId db sid :
  sess_user (session_load (delete_user_sessions userId db) sid) ≠ Some userId.
Proof.
  destruct (session_load_elem (delete_user_sessions userId db) sid) as [->|[sid' Hin]];
    [done|].
  unfold delete_user_sessions in Hin at 2. simpl in Hin.
  by apply list_elem_of_filter in Hin as [Hne _].
Qed.

Lemma session_load_sessions db db' sid :
  db_sessions db' = db_sessions db → session_load db' sid = session_load db sid.
Proof. unfold session_load. by intros ->. Qed.

(** The e-mailed token path: the sessions of the user are deleted; the
    table of trusted devices is not written. *)
Lemma reset_by_token_effect `{Platform} db now body db' :
  post_password_reset db now body = (Ok (), db') →
  ∃ rec, rec ∈ db_resetTokens db
         ∧ prt_tokenHash rec = sha256Hex (rb_token body)
         ∧ now < prt_expiresAt rec ∧ prt_usedAt rec = None
         ∧ (∀ sid, sess_user (session_load db' sid) ≠ Some (prt_userId rec))
         ∧ db_trustedDevices db' = db_trustedDevices db.
Proof.
  unfold post_password_reset. destruct (ResetPasswordSchema body); simpl; [|done].
  destruct (list_find _ (db_resetTokens db)) as [[i rec]|] eqn:E; [|done].
  apply list_find_Some in E as (Hi & (H1 & H2 & H3) & _).
  unfold user_update. case_decide; [|done]. intros [= <-].
  exists rec. split_and!; [by eapply list_elem_of_lookup_2|done..| |done].
  intros sid. apply delete_user_sessions_load.
Qed.

(** The TOTP path: the sessions and the trusted devices of the user are
    deleted. *)
Lemma reset_by_totp_effect `{Platform} db body db' :
  post_password_reset_by_totp db body = (Ok (), db') →
  ∃ u, reset_resolve db (rt_login body) = Some u
       ∧ (∀ sid, sess_user (session_load db' sid) ≠ Some (user_id u))
       ∧ (∀ token now, verifyTrustedDeviceToken db' (user_id u) token now = (false, db')).
Proof.
  unfold post_password_reset_by_totp.
  destruct (ResetPasswordByTotpSchema body); simpl; [|done].
  destruct (reset_resolve db (rt_login body)) as [u|]; [|done].
  destruct (if user_totpEnabled u then truthy (user_totpSecret u) else None) as [secret|];
    [|done].
  destruct (verifyTotp _ _); simpl; [|done].
  unfold user_update. case_decide; [|done]. intros [= <-].
  exists u. split_and!; [done| |].
  - intros sid. erewrite session_load_sessions; [apply delete_user_sessions_load|done].
  - intros token now. apply verifyTrustedDeviceToken_false.
    intros d Hd [Hu _]. simpl in Hd. by apply list_elem_of_filter in Hd as [Hne _].
Qed.

(** C3 fails on the e-mailed token path.  A user has a session and a
    trusted device, and the password is reset with the e-mailed token.  The
    session is gone, but the trusted device still verifies, and a login
    with the new password, no code and the cookie of the device succeeds
    with the session two-factor-passed.  After a reset by TOTP code the same
    login is answered 401 "Two-factor required". *)
Theorem token_reset_keeps_trusted_device :
  let by_token :=
    post_password_reset (H := test_platform) login_db 10
      (mkResetBody "ann-reset-token-0123456789" "new-password") in
  let by_totp :=
    post_password_reset_by_totp (H := test_platform) login_db
      (mkResetByTotpBody "ann@example.org" "ann-totp" "new-password") in
  let login db :=
    post_login (H := test_platform) db empty_session
               (mkLoginEnv (Some "ann-device-token") 20 "t" "d")
               (mkLoginBody "ann@example.org" "new-password" None None) in
  by_token.1 = Ok ()
  ∧ requireLogin by_token.2 (session_load by_token.2 "sid-ann")
    = Throw (HttpError 401 "Unauthorized")
  ∧ (verifyTrustedDeviceToken (H := test_platform) by_token.2 "u3" "ann-device-token" 20).1
    = true
  ∧ a_session (login by_token.2) = mkSession (Some "u3") true (Some DEFAULT_BOARD_ID)
  ∧ by_totp.1 = Ok ()
  ∧ requireLogin by_totp.2 (session_load by_totp.2 "sid-ann")
    = Throw (HttpError 401 "Unauthorized")
  ∧ a_result (login by_totp.2) = Throw (HttpError 401 "Two-factor required").
Proof. split_and!; by vm_compute. Qed.

(** Enrollment stores the confirmed secret with the enabled flag: a user
    with TOTP enabled has a non-empty confirmed secret. *)
Lemma enable_stores_secret `{Platform} db sess code :
  a_result (post_2fa_enable db sess code) = Ok () →
  ∃ u secret, getAuthUser (a_db (post_2fa_enable db sess code)) sess = Some u
              ∧ user_totpEnabled u = true
              ∧ user_totpSecret u = Some secret ∧ secret ≠ "".
Proof.
  unfold post_2fa_enable, requireLogin.
  destruct (getAuthUser db sess) as [u0|] eqn:Hu0; [|done].
  destruct (getAuthUser_Some _ _ _ Hu0) as (userId & Hs & Hne & Hf).
  pose proof (findUnique_user_Some _ _ _ Hf) as [_ Hid].
  destruct (CodeSchema code); simpl; [|done].
  rewrite Hid, Hf.
  destruct (user_totpTempSecret u0) as [temp|] eqn:Ht; simpl; [|done].
  case_decide as Htemp; [done|].
  destruct (verifyTotp code temp); simpl; [|done].
  rewrite ?Hid.
  destruct (user_update userId (with_totp true (Some temp) None) db) as [db'|] eqn:Hup;
    simpl; [|done].
  intros _. exists (with_totp true (Some temp) None u0), temp.
  split_and!; [|done..].
  unfold getAuthUser. simpl. rewrite Hs. simpl. rewrite decide_False by done.
  by apply (findUnique_user_update db db' userId (with_totp true (Some temp) None) u0).
Qed.

(* ================================================================== *)
(** * Admin user management: claims                                     *)
(* ================================================================== *)

Lemma user_update_users id f db db' :
  user_update id f db = Some db' → db_users db' = upd id f <$> db_users db.
Proof. unfold user_update. case_decide; [|done]. by intros [= <-]. Qed.

Lemma upd_ids id f (l : list User) :
  (∀ u, user_id (f u) = user_id u) → user_id <$> (upd id f <$> l) = user_id <$> l.
Proof.
  intros Hf. rewrite <-list_fmap_compose. apply list_fmap_ext. intros i u _. simpl.
  unfold upd. by case_decide.
Qed.

Lemma upd_other id f (l : list User) : id ∉ user_id <$> l → upd id f <$> l = l.
Proof.
  intros Hid. etrans; [|apply list_fmap_id]. apply list_fmap_ext. intros i u Hu. simpl.
  unfold upd. case_decide as E; [|done]. destruct Hid. rewrite <-E.
  by eapply list_elem_of_fmap_2, list_elem_of_lookup_2.
Qed.

Lemma filter_other id (l : list User) : id ∉ user_id <$> l → filter (λ u, user_id u ≠ id) l = l.
Proof.
  induction l as [|x l IH]; [done|]. rewrite fmap_cons, not_elem_of_cons. intros [Hx Hl].
  rewrite filter_cons, decide_True by congruence. f_equal. by apply IH.
Qed.

Lemma count_admins_cons u l : count_admins (u :: l) = (admin_weight u + count_admins l)%nat.
Proof. unfold count_admins, admin_weight. rewrite filter_cons. by case_decide. Qed.

Lemma count_admins_app l1 l2 :
  count_admins (l1 ++ l2) = (count_admins l1 + count_admins l2)%nat.
Proof. unfold count_admins. by rewrite filter_app, length_app. Qed.

(** Updating the row of one user changes the number of admins by the
    change of that user. *)
Lemma count_admins_upd id f (l : list User) u :
  NoDup (user_id <$> l) → u ∈ l → user_id u = id →
  (count_admins (upd id f <$> l) + admin_weight u
   = count_admins l + admin_weight (f u))%nat.
Proof.
  induction l as [|x l IH]; intros Hnd Hu Hid; [by apply elem_of_nil in Hu|].
  rewrite fmap_cons in Hnd. apply NoDup_cons in Hnd as [Hx Hnd].
  rewrite fmap_cons, !count_admins_cons.
  apply elem_of_cons in Hu as [->|Hu].
  - rewrite upd_other by congruence. unfold upd at 1. rewrite decide_True by done. lia.
  - assert (user_id x ≠ id) as Hne.
    { intros E. apply Hx. rewrite E, <-Hid. by apply list_elem_of_fmap_2. }
    unfold upd at 1. rewrite decide_False by done.
    specialize (IH Hnd Hu Hid). lia.
Qed.

Lemma count_admins_delete id (l : list User) u :
  NoDup (user_id <$> l) → u ∈ l → user_id u = id →
  (count_admins (filter (λ x, user_id x ≠ id) l) + admin_weight u = count_admins l)%nat.
Proof.
  induction l as [|x l IH]; intros Hnd Hu Hid; [by apply elem_of_nil in Hu|].
  rewrite fmap_cons in Hnd. apply NoDup_cons in Hnd as [Hx Hnd].
  rewrite filter_cons, count_admins_cons.
  apply elem_of_cons in Hu as [->|Hu].
  - rewrite decide_False by (intros ?; done). rewrite filter_other by congruence. lia.
  - assert (user_id x ≠ id) as Hne.
    { intros E. apply Hx. rewrite E, <-Hid. by apply list_elem_of_fmap_2. }
    rewrite decide_True by done. rewrite count_admins_cons.
    specialize (IH Hnd Hu Hid). lia.
Qed.

Lemma users_wf_unique db u1 u2 :
  users_wf db → u1 ∈ db_users db → u2 ∈ db_users db → user_id u1 = user_id u2 → u1 = u2.
Proof.
  unfold users_wf. intros Hnd (i & Hi)%list_elem_of_lookup (j & Hj)%list_elem_of_lookup Heq.
  assert (i = j) as ->.
  { eapply NoDup_lookup; [done| |]; rewrite list_lookup_fmap.
    - by rewrite Hi.
    - rewrite Hj. simpl. by rewrite Heq. }
  congruence.
Qed.


Lemma findUnique_user_elem db id u :
  users_wf db → u ∈ db_users db → user_id u = id → findUnique_user db id = Some u.
Proof.
  intros Hwf Hu Hid. destruct (findUnique_user db id) as [u'|] eqn:E.
  - apply findUnique_user_Some in E as [Hu' Hid']. f_equal.
    eapply users_wf_unique; [done..|congruence].
  - unfold findUnique_user in E. destruct (list_find _ _) as [[i x]|] eqn:F; [done|].
    apply list_find_None in F. rewrite Forall_forall in F. by destruct (F u Hu).
Qed.

(** Each kind of change keeps the primary key, keeps an admin, and keeps
    the system users. *)
Lemma users_change_wf db l' :
  users_wf db → users_change db l' → NoDup (user_id <$> l').
Proof.
  unfold users_wf. intros Hwf [->| u -> Hu | id f u -> Hf _ _ | id u -> _ _ _].
  - done.
  - rewrite fmap_app. apply NoDup_app. split_and!; [done| |apply NoDup_singleton].
    intros x Hx ->%list_elem_of_singleton. done.
  - rewrite upd_ids; [done|]. intros x. apply Hf.
  - eapply sublist_NoDup; [exact Hwf|]. apply fmap_sublist, sublist_filter.
Qed.

Lemma users_change_count db l' :
  users_wf db → (1 ≤ admin_count db)%nat → users_change db l' → (1 ≤ count_admins l')%nat.
Proof.
  unfold admin_count.
  intros Hwf Hc [->| u -> Hu | id f u -> Hf Hfind Hrole | id u -> Hfind _ Hrole].
  - done.
  - rewrite count_admins_app. lia.
  - apply findUnique_user_Some in Hfind as [Hu Hid].
    pose proof (count_admins_upd id f (db_users db) u Hwf Hu Hid) as Hcount.
    unfold admin_weight in Hcount. unfold admin_count in Hrole.
    destruct Hrole as [Hr|[_ [Hr|[Hr|Hr]]]].
    + rewrite Hr in Hcount. lia.
    + rewrite (decide_True (P := user_role (f u) = ADMIN)) in Hcount by done.
      destruct (decide (user_role u = ADMIN)); lia.
    + rewrite (decide_False (P := user_role u = ADMIN)) in Hcount by done. lia.
    + destruct (decide (user_role u = ADMIN)); destruct (decide (user_role (f u) = ADMIN)); lia.
  - apply findUnique_user_Some in Hfind as [Hu Hid].
    pose proof (count_admins_delete id (db_users db) u Hwf Hu Hid) as Hcount.
    unfold admin_weight in Hcount. unfold admin_count in Hrole.
    destruct (decide (user_role u = ADMIN)) as [Hr|Hr]; [specialize (Hrole Hr)|]; lia.
Qed.

Lemma users_change_system db l' s :
  users_wf db → users_change db l' → s ∈ db_users db → user_isSystem s = true →
  ∃ s', s' ∈ l' ∧ user_id s' = user_id s ∧ user_role s' = user_role s
        ∧ user_isSystem s' = true.
Proof.
  intros Hwf [->| u -> Hu | id f u -> Hf Hfind Hrole | id u -> Hfind Hsys _] Hs Hsys'.
  - by exists s.
  - exists s. split; [|done]. apply elem_of_app. by left.
  - exists (upd id f s). split; [by apply list_elem_of_fmap_2|].
    unfold upd. case_decide as E; [|done].
    destruct (Hf s) as [Hfid Hfsys]. split_and!; [done| |congruence].
    apply findUnique_user_Some in Hfind as [Hu Hid].
    assert (u = s) as -> by (eapply users_wf_unique; [done..|congruence]).
    destruct Hrole as [Hr|[Hr _]]; [done|congruence].
  - exists s. split; [|done]. apply list_elem_of_filter. split; [|done].
    intros E. apply findUnique_user_Some in Hfind as [Hu Hid].
    assert (u = s) as -> by (eapply users_wf_unique; [done..|congruence]).
    congruence.
Qed.

Lemma count_admins_upd_same id f (l : list User) :
  (∀ x, user_role (f x) = user_role x) → count_admins (upd id f <$> l) = count_admins l.
Proof.
  intros Hf. induction l as [|x l IH]; [done|].
  rewrite fmap_cons, !count_admins_cons, IH. f_equal.
  unfold upd, admin_weight. destruct (decide (user_id x = id)); [|done]. by rewrite Hf.
Qed.

Lemma findUnique_user_is_Some db id :
  id ∈ user_id <$> db_users db → is_Some (findUnique_user db id).
Proof.
  intros (u & -> & Hu)%list_elem_of_fmap. unfold findUnique_user.
  destruct (list_find_elem_of (λ x, user_id x = user_id u) (db_users db) u Hu eq_refl)
    as [[i x] ->].
  by eexists.
Qed.

Lemma user_update_Some id f db db' :
  user_update id f db = Some db' →
  db_users db' = upd id f <$> db_users db ∧ is_Some (findUnique_user db id).
Proof.
  unfold user_update. case_decide as Hid; [|done]. intros [= <-].
  split; [done|by apply findUnique_user_is_Some].
Qed.

(** The invariant of the table of users, and what a change keeps. *)
Lemma change_ok db db' :
  users_wf db → (1 ≤ admin_count db)%nat → users_change db (db_users db') →
  users_wf db' ∧ (1 ≤ admin_count db')%nat ∧ system_kept db db'.
Proof.
  intros Hwf Hc Hch. split_and!.
  - by eapply users_change_wf.
  - by eapply users_change_count.
  - intros s Hs Hsys. by eapply users_change_system.
Qed.

Lemma system_kept_trans db1 db2 db3 :
  system_kept db1 db2 → system_kept db2 db3 → system_kept db1 db3.
Proof.
  intros H12 H23 s Hs Hsys.
  destruct (H12 s Hs Hsys) as (s2 & Hs2 & Hid2 & Hr2 & Hsys2).
  destruct (H23 s2 Hs2 Hsys2) as (s3 & Hs3 & Hid3 & Hr3 & Hsys3).
  exists s3. split_and!; [done|congruence..|done].
Qed.

Lemma system_kept_refl db : system_kept db db.
Proof. intros s Hs Hsys. by exists s. Qed.

(** *** The handlers, one by one *)

Lemma post_users_change `{Platform} db sess newId body :
  users_change db (db_users (post_users db sess newId body).2).
Proof.
  unfold post_users. destruct (CreateUserSchema body); simpl; [|by apply change_none].
  destruct (truthy _) as [boardId|]; simpl; [|by apply change_none].
  case_decide as Hg; simpl; [by apply change_none|].
  eapply change_insert; [done|]. simpl. tauto.
Qed.

Lemma post_user_password_change `{Platform} db id pw :
  users_change db (db_users (post_user_password db id pw).2).
Proof.
  unfold post_user_password. destruct (isUuid id); simpl; [|by apply change_none].
  destruct (ChangePasswordSchema pw); simpl; [|by apply change_none].
  destruct (user_update _ _ db) as [db'|] eqn:E; simpl; [|by apply change_none].
  apply user_update_Some in E as [-> [u Hu]].
  by eapply (change_update db _ id _ u); [done| |done|left].
Qed.

Lemma put_user_boards_change `{Platform} db id body :
  users_change db (db_users (put_user_boards db id body).2).
Proof.
  unfold put_user_boards. destruct (isUuid id); simpl; [|by apply change_none].
  destruct (findUnique_user db id) as [u|] eqn:Hu; simpl; [|by apply change_none].
  destruct (_ || _); simpl; [by apply change_none|].
  destruct (SetUserBoardsSchema body); simpl; [|by apply change_none].
  destruct (bool_decide _); simpl; [|by apply change_none].
  destruct (forallb _ _); simpl; [|by apply change_none].
  destruct (user_update _ _ db) as [db'|] eqn:E; simpl; [|by apply change_none].
  apply user_update_Some in E as [-> _].
  by eapply (change_update db _ id _ u); [done| |done|left].
Qed.

Lemma delete_user_change `{Platform} db actor id :
  users_change db (db_users (delete_user db actor id).2).
Proof.
  unfold delete_user. destruct (isUuid id); simpl; [|by apply change_none].
  case_decide; simpl; [by apply change_none|].
  destruct (findUnique_user db id) as [u|] eqn:Hu; simpl; [|by apply change_none].
  destruct (user_isSystem u) eqn:Hsys; simpl; [by apply change_none|].
  destruct (bool_decide (user_role u = ADMIN) && bool_decide (admin_count db ≤ 1)%nat)
    eqn:Hg; simpl; [by apply change_none|].
  eapply (change_delete db _ id u); [done|done|done|].
  intros Hr. apply andb_false_iff in Hg as [Hg|Hg].
  - by apply bool_decide_eq_false in Hg.
  - apply bool_decide_eq_false in Hg. lia.
Qed.

Lemma patch_user_ok `{Platform} db id body :
  users_wf db → (1 ≤ admin_count db)%nat →
  let db' := (patch_user db id body).2 in
  users_wf db' ∧ (1 ≤ admin_count db')%nat ∧ system_kept db db'.
Proof.
  intros Hwf Hc. pose proof (system_kept_refl db) as Hrefl.
  unfold patch_user. destruct (isUuid id); simpl; [|done].
  destruct (AdminUpdateUserSchema body); simpl; [|done].
  destruct (findUnique_user db id) as [u|] eqn:Hu; simpl; [|done].
  destruct (user_isSystem u && bool_decide (au_role body ≠ None)) eqn:Hg1; simpl; [done|].
  destruct (bool_decide (au_role body = Some MEMBER) && bool_decide (user_role u = ADMIN)
            && bool_decide (admin_count db ≤ 1)%nat) eqn:Hg2; simpl; [done|].
  destruct (match truthy (au_email body) with Some e => email_taken db e id | None => false end);
    simpl; [done|].
  destruct (patch_user_tx db u body) as [db'|] eqn:Htx; simpl; [|done].
  destruct (findUnique_user db' id) as [u'|]; simpl; [|done].
  pose proof (findUnique_user_Some _ _ _ Hu) as [Hin Hid].
  unfold patch_user_tx in Htx. rewrite Hid in Htx.
  (* the membership step *)
  destruct (if bool_decide (default (user_role u) (au_role body) = MEMBER)
               && bool_decide (length (filter (λ m, bm_userId m = id) (db_memberships db))
                               = 0%nat)
            then _ else Some db) as [db1|] eqn:Hstep1; [|done].
  assert (users_change db (db_users db1)
          ∧ (∃ u1, findUnique_user db1 id = Some u1 ∧ user_role u1 = user_role u
                   ∧ user_isSystem u1 = user_isSystem u)
          ∧ admin_count db1 = admin_count db) as (Hch1 & (u1 & Hu1 & Hr1 & Hs1) & Hc1).
  { destruct (_ && _) in Hstep1.
    - case_decide; [|done].
      pose proof (findUnique_user_update _ db1 id (with_defaultBoardId _) u
                    (λ _, eq_refl) Hstep1 Hu) as Hf1.
      apply user_update_Some in Hstep1 as [Hus _]. simpl in Hus.
      split_and!.
      + by eapply (change_update db _ id _ u); [done| |done|left].
      + by eexists.
      + unfold admin_count. rewrite Hus. by apply count_admins_upd_same.
    - injection Hstep1 as <-. split_and!; [by apply change_none|by exists u|done]. }
  destruct (change_ok db db1 Hwf Hc Hch1) as (Hwf1 & Hcount1 & Hk1).
  destruct (bool_decide _) in Htx; [done|].
  apply user_update_Some in Htx as [Hus _].
  assert (users_change db1 (db_users db')) as Hch2.
  { eapply (change_update db1 _ id _ u1); [done| |done|]; [done|].
    destruct (au_role body) as [r|] eqn:Hrole; simpl; [|by left].
    right. split.
    - rewrite Hs1. destruct (user_isSystem u); [|done]. simpl in Hg1.
      first [discriminate|by apply bool_decide_eq_false in Hg1].
    - destruct r; [by left|]. right. rewrite Hr1, Hc1.
      apply andb_false_iff in Hg2 as [Hg2|Hg2].
      + apply andb_false_iff in Hg2 as [Hg2|Hg2].
        * by apply bool_decide_eq_false in Hg2.
        * apply bool_decide_eq_false in Hg2. by left.
      + apply bool_decide_eq_false in Hg2. right. lia. }
  destruct (change_ok db1 db' Hwf1 Hcount1 Hch2) as (Hwf2 & Hcount2 & Hk2).
  split_and!; [done..|]. by eapply system_kept_trans.
Qed.

Lemma admin_step_ok `{Platform} db req :
  users_wf db → (1 ≤ admin_count db)%nat →
  users_wf (admin_step db req) ∧ (1 ≤ admin_count (admin_step db req))%nat
  ∧ system_kept db (admin_step db req).
Proof.
  intros Hwf Hc. destruct req as [sess op]. unfold admin_step.
  destruct (admin_gate db sess) as [actor|e];
    [|split_and!; [done..|apply system_kept_refl]].
  destruct op as [newId body|id pw|id body|id|id body].
  - apply change_ok; [done..|apply post_users_change].
  - apply change_ok; [done..|apply post_user_password_change].
  - by apply patch_user_ok.
  - apply change_ok; [done..|apply delete_user_change].
  - apply change_ok; [done..|apply put_user_boards_change].
Qed.

Lemma admin_run_ok `{Platform} reqs db :
  users_wf db → (1 ≤ admin_count db)%nat →
  users_wf (admin_run db reqs) ∧ (1 ≤ admin_count (admin_run db reqs))%nat
  ∧ system_kept db (admin_run db reqs).
Proof.
  revert db. induction reqs as [|req reqs IH]; intros db Hwf Hc.
  - split_and!; [done..|apply system_kept_refl].
  - simpl. destruct (admin_step_ok db req Hwf Hc) as (Hwf1 & Hc1 & Hk1).
    destruct (IH _ Hwf1 Hc1) as (Hwf2 & Hc2 & Hk2).
    split_and!; [done..|]. by eapply system_kept_trans.
Qed.

(** C6: demoting to MEMBER or deleting a user who is the sole remaining
    ADMIN is refused with an error of the business rules (400) and leaves
    the store as it was; deleting the system user, or sending a role for
    them, is refused whatever the number of admins; and after any sequence
    of admin user-management requests there is an admin, and every system
    user is still there with the role they had. *)
Theorem last_admin_protection `{Platform} (db : Db) :
  users_wf db →
  (1 ≤ admin_count db)%nat →
  (∀ id u body,
     isUuid id = true → AdminUpdateUserSchema body = true →
     findUnique_user db id = Some u → user_role u = ADMIN → (admin_count db ≤ 1)%nat →
     au_role body = Some MEMBER →
     ∃ e, patch_user db id body = (Throw e, db) ∧ user_conflict e)
  ∧ (∀ actor id u,
       isUuid id = true →
       findUnique_user db id = Some u → user_role u = ADMIN → (admin_count db ≤ 1)%nat →
       ∃ e, delete_user db actor id = (Throw e, db) ∧ user_conflict e)
  ∧ (∀ actor id u,
       isUuid id = true → findUnique_user db id = Some u → user_isSystem u = true →
       (∃ e, delete_user db actor id = (Throw e, db) ∧ user_conflict e)
       ∧ (∀ body, AdminUpdateUserSchema body = true → au_role body ≠ None →
                  patch_user db id body
                  = (Throw (HttpError 400 "Cannot change role for system admin"), db)))
  ∧ (∀ reqs,
       users_wf (admin_run db reqs)
       ∧ (1 ≤ admin_count (admin_run db reqs))%nat
       ∧ system_kept db (admin_run db reqs)).
Proof.
  intros Hwf Hc. unfold user_conflict. split_and!.
  - intros id u body Huuid Hschema Hu Hrole Hcount Hbody.
    unfold patch_user. rewrite Huuid, Hschema, Hu, Hbody. simpl.
    destruct (user_isSystem u); simpl; [eauto|].
    rewrite !bool_decide_eq_true_2 by done. simpl. eauto 6.
  - intros actor id u Huuid Hu Hrole Hcount.
    unfold delete_user. rewrite Huuid. simpl.
    case_decide; [eauto 6|]. rewrite Hu.
    destruct (user_isSystem u); simpl; [eauto 7|].
    rewrite !bool_decide_eq_true_2 by done. simpl. eauto 8.
  - intros actor id u Huuid Hu Hsys. split.
    + unfold delete_user. rewrite Huuid. simpl.
      case_decide; [eauto 6|]. rewrite Hu, Hsys. eauto 7.
    + intros body Hschema Hrole. unfold patch_user.
      rewrite Huuid, Hschema, Hu, Hsys. simpl.
      by rewrite bool_decide_eq_true_2.
  - intros reqs. by apply admin_run_ok.
Qed.

Lemma last_admin_protection_witness :
  users_wf login_db ∧ admin_count login_db = 1%nat
  ∧ (∃ e, patch_user (H := test_platform) login_db "u0" (mkAdminUpdateBody None (Some MEMBER))
          = (Throw e, login_db) ∧ user_conflict e)
  ∧ (∃ e, delete_user (H := test_platform) login_db "u1" "u0" = (Throw e, login_db)
          ∧ user_conflict e)
  ∧ (1 ≤ admin_count (admin_run (H := test_platform) login_db admin_requests))%nat.
Proof.
  assert (users_wf login_db) as Hwf
    by (unfold users_wf; apply (bool_decide_unpack _); vm_compute; exact I).
  assert (1 ≤ admin_count login_db)%nat as Hc by (vm_compute; lia).
  destruct (last_admin_protection (H := test_platform) login_db Hwf Hc) as (H1 & H2 & _ & H4).
  split_and!; [exact Hwf|reflexivity| | |].
  - apply (H1 "u0" admin_2fa); reflexivity || (vm_compute; lia).
  - apply (H2 "u1" "u0" admin_2fa); reflexivity || (vm_compute; lia).
  - apply (H4 admin_requests).
Defined.

(* ================================================================== *)
(** * The board view                                                    *)
(* ================================================================== *)

Lemma in_COLUMNS_IN_ORDER col : col ∈ COLUMNS_IN_ORDER.
Proof. destruct col; apply (bool_decide_unpack _); vm_compute; exact I. Qed.

Lemma NoDup_COLUMNS_IN_ORDER : NoDup COLUMNS_IN_ORDER.
Proof. apply (bool_decide_unpack _). vm_compute. exact I. Qed.

Lemma get_board_column_view db b :
  get_board db b = column_view (findMany_column (db_cards db) b) <$> COLUMNS_IN_ORDER.
Proof. done. Qed.

(** The six columns split the cards of a board. *)
Lemma partition_by_column b (cs : list Card) :
  concat ((λ col, filter (in_partition b col) cs) <$> COLUMNS_IN_ORDER)
  ≡ₚ filter (λ c, card_boardId c = b) cs.
Proof.
  induction cs as [|c cs IH]; [done|].
  unfold COLUMNS_IN_ORDER in *. cbn [fmap list_fmap concat] in *.
  rewrite !filter_cons.
  destruct (decide (card_boardId c = b)) as [Hb|Hb]; destruct (card_column c) eqn:Hcol;
    repeat match goal with
    | |- context [decide (in_partition ?b' ?col ?c')] =>
        first [ rewrite (decide_True (P := in_partition b' col c')) by (split; congruence)
              | rewrite (decide_False (P := in_partition b' col c'))
                  by (intros [? ?]; congruence) ]
    end;
    rewrite <- ?app_comm_cons, <- ?Permutation_middle; by rewrite IH.
Qed.

(** X1: what GET /board returns is a rearrangement of exactly the cards of
    the board: every card of the board is in the view once for each of its
    rows, no card of another board is in it; every card stands in the column
    it belongs to, and every column is in ascending order of position. *)
Theorem board_view_cards (db : Db) (b : string) :
  concat (col_cards <$> get_board db b) ≡ₚ filter (λ c, card_boardId c = b) (db_cards db)
  ∧ ∀ v, v ∈ get_board db b →
         Sorted position_le (col_cards v)
         ∧ Forall (λ c, card_column c = col_id v) (col_cards v).
Proof.
  split.
  - unfold get_board. rewrite <- list_fmap_compose.
    rewrite <- partition_by_column. unfold COLUMNS_IN_ORDER. cbn [fmap list_fmap concat compose col_cards].
    by rewrite !findMany_Permutation.
  - intros v (col & -> & _)%list_elem_of_fmap. simpl. split.
    + apply Sorted_merge_sort, _.
    + apply Forall_forall. intros c Hc. rewrite findMany_Permutation in Hc.
      by apply list_elem_of_filter in Hc as [[_ ?] _].
Qed.

(* ================================================================== *)
(** * The optimistic move of the client                                 *)
(* ================================================================== *)

Lemma view_ids_column_view (cards : ColumnId → list Card) (L : list ColumnId) :
  view_ids (column_view cards <$> L) = (λ col, (col, card_id <$> cards col)) <$> L.
Proof. unfold view_ids. by rewrite <- list_fmap_compose. Qed.

(** The column of a view that [find] returns for a column id, and the view
    with the cards of that column replaced. *)
Lemma alter_column (cards : ColumnId → list Card) (L : list ColumnId) X (new : list Card) :
  NoDup L → X ∈ L →
  ∃ i, list_find (λ c, col_id c = X) (column_view cards <$> L) = Some (i, column_view cards X)
       ∧ <[i := mkColumnView X new]> (column_view cards <$> L)
         = column_view (λ col, if decide (col = X) then new else cards col) <$> L.
Proof.
  induction L as [|c L IH]; intros Hnd HX; [by apply elem_of_nil in HX|].
  apply NoDup_cons in Hnd as [Hc Hnd].
  destruct (decide (c = X)) as [->|Hne].
  - exists 0%nat. split.
    + cbn. by case_decide.
    + cbn. f_equal; [unfold column_view; cbn beta; by rewrite decide_True|].
      apply list_fmap_ext. intros j col Hcol. unfold column_view.
      rewrite decide_False; [done|]. intros ->. apply Hc. by eapply list_elem_of_lookup_2.
  - apply elem_of_cons in HX as [->|HX]; [done|].
    destruct (IH Hnd HX) as (i & Hfind & Hins). exists (S i). split.
    + cbn. case_decide; [done|]. by rewrite Hfind.
    + rewrite !fmap_cons. change (<[S i:=?v]> (?x :: ?l)) with (x :: <[i:=v]> l).
      rewrite Hins. f_equal. unfold column_view; cbn beta. by rewrite decide_False.
Qed.

(** The column [findColumnForCard] returns when one column only holds the
    card. *)
Lemma findColumnForCard_column_view (cards : ColumnId → list Card) (L : list ColumnId)
    X id i (c : Card) :
  X ∈ L →
  (∀ col, col ≠ X → id ∉ card_id <$> cards col) →
  list_find (λ c, card_id c = id) (cards X) = Some (i, c) →
  findColumnForCard id (column_view cards <$> L) = Some (X, i).
Proof.
  intros HX Hother Hfind. induction L as [|col L IH]; [by apply elem_of_nil in HX|].
  cbn. destruct (decide (col = X)) as [->|Hne].
  - by rewrite Hfind.
  - apply elem_of_cons in HX as [->|HX]; [done|].
    destruct (list_find _ (cards col)) as [[j c']|] eqn:E; [|by apply IH].
    apply list_find_Some in E as (Hj & Hid & _).
    destruct (Hother col Hne). apply list_elem_of_fmap. exists c'. split; [done|].
    by eapply list_elem_of_lookup_2.
Qed.

Lemma list_find_card_id (cards : list Card) (x : string) :
  list_find (λ y, y = x) (card_id <$> cards)
  = prod_map id card_id <$> list_find (λ c, card_id c = x) cards.
Proof. by rewrite list_find_fmap. Qed.

Lemma fmap_splice_card k c (cards : list Card) :
  card_id <$> splice_card k c cards = splice_insert k (card_id c) (card_id <$> cards).
Proof.
  unfold splice_card, splice_insert. by rewrite fmap_app, fmap_cons, fmap_take, fmap_drop.
Qed.

Lemma removeFrom_delete (cards : list Card) id i c :
  list_find (λ c, card_id c = id) cards = Some (i, c) →
  removeFrom id (card_id <$> cards) = card_id <$> delete i cards.
Proof.
  intros Hfind. unfold removeFrom. rewrite list_find_card_id, Hfind. simpl.
  by rewrite list_fmap_delete.
Qed.

Lemma column_ids_frame cs cs' b col :
  filter (in_partition b col) cs' = filter (in_partition b col) cs →
  column_ids cs' b col = column_ids cs b col.
Proof. intros Hf. unfold column_ids, findMany_column. by rewrite Hf. Qed.

Lemma post_cards_move_Ok `{Platform} db b actor id body :
  out_result (post_cards_move db b actor id body) = Ok () →
  isUuid id = true ∧ 0 ≤ mv_toIndex body
  ∧ ∃ card, findFirst_card (db_cards db) id b = Some card.
Proof.
  unfold post_cards_move, CardMoveSchema.
  destruct (isUuid id); [|done]. simpl.
  case_bool_decide; [|done]. simpl.
  destruct (findFirst_card _ _ _) as [card|]; [|done]. eauto.
Qed.

(** X2: the optimistic update of the client agrees with the server.  When
    the client shows the board as GET /board returned it and the move
    request succeeds, [moveLocally] leaves the client with the same cards in
    the same columns and in the same order as the next GET /board returns. *)
Theorem optimistic_move_agrees `{Platform} (db : Db) (b actor id : string) (body : CardMoveBody) :
  cards_wf (db_cards db) →
  out_result (post_cards_move db b actor id body) = Ok () →
  ∃ cols,
    moveLocally (get_board db b) id (mv_toColumn body) (mv_toIndex body) = Some cols
    ∧ view_ids cols = view_ids (get_board (out_db (post_cards_move db b actor id body)) b).
Proof.
  intros Hwf Hok.
  apply post_cards_move_Ok in Hok as (Huuid & Hk & card & Hcard).
  set (cs := db_cards db) in *. set (X := card_column card).
  set (Y := mv_toColumn body). set (k := mv_toIndex body) in *.
  set (G := findMany_column cs b).
  pose proof (move_card_in_source db b id card Hcard) as Hin.
  pose proof (move_card_not_elsewhere db b id card Hwf Hcard) as Hout.
  fold cs X in Hin, Hout.
  (* the card in its column, as the client finds it *)
  assert (∃ index c0, list_find (λ c, card_id c = id) (G X) = Some (index, c0))
    as (index & c0 & Hfind).
  { destruct (list_find (λ c, card_id c = id) (G X)) as [[i c0]|] eqn:E; [eauto|].
    apply list_find_None in E. unfold column_ids in Hin.
    apply list_elem_of_fmap in Hin as (c & Hc & Hin).
    rewrite Forall_forall in E. by destruct (E c Hin). }
  pose proof Hfind as Hfind'. apply list_find_Some in Hfind' as (Hlook & Hid0 & _).
  rewrite get_board_column_view. fold cs G. unfold moveLocally.
  rewrite (findColumnForCard_column_view G COLUMNS_IN_ORDER X id index c0);
    [|apply in_COLUMNS_IN_ORDER| |done].
  2:{ intros col Hcol. by apply Hout. }
  destruct (alter_column G COLUMNS_IN_ORDER X (delete index (G X))
              NoDup_COLUMNS_IN_ORDER (in_COLUMNS_IN_ORDER X)) as (i & -> & Hins).
  cbn [col_cards col_id column_view]. rewrite Hlook, Hins.
  set (G1 := λ col, if decide (col = X) then delete index (G X) else G col).
  destruct (alter_column G1 COLUMNS_IN_ORDER Y
              (splice_card (Z.to_nat (Z.max 0 (Z.min k (Z.of_nat (length (G1 Y))))))
                           (set_column Y c0) (G1 Y))
              NoDup_COLUMNS_IN_ORDER (in_COLUMNS_IN_ORDER Y)) as (j & -> & Hins2).
  cbn [col_cards col_id column_view]. rewrite Hins2.
  eexists. split; [done|].
  rewrite view_ids_column_view, get_board_column_view, view_ids_column_view.
  apply list_fmap_ext. intros _ col _. f_equal.
  change (card_id <$> findMany_column ?c b col) with (column_ids c b col).
  assert (removeFrom id (column_ids cs b X) = card_id <$> delete index (G X)) as Hrem.
  { by apply (removeFrom_delete (G X) id index c0). }
  destruct (decide (X = Y)) as [HXY|HXY].
  - rewrite (post_cards_move_same db b actor id body card) by done. cbn [out_db db_cards set_cards].
    fold cs X k. destruct (decide (col = Y)) as [->|HcolY].
    + rewrite <- HXY. unfold G1. rewrite decide_True by done.
      rewrite fmap_splice_card, <- Hrem. cbn [set_column card_id]. rewrite Hid0.
      trans (same_ids cs b id X k);
        [|symmetry; exact (proj1 (same_after db b id body card Hwf Hcard))].
      unfold same_ids, clamp. rewrite Hrem, length_fmap. by rewrite (Z.min_comm k).
    + unfold G1. rewrite decide_False by congruence.
      symmetry. apply column_ids_frame.
      apply (same_frame db b id body card Hwf Hcard). intros [_ ?]. unfold X, Y in *. congruence.
  - rewrite (post_cards_move_cross db b actor id body card) by done.
    cbn [out_db db_cards set_cards]. fold cs X Y k.
    destruct (decide (col = Y)) as [->|HcolY]; [|destruct (decide (col = X)) as [->|HcolX]].
    + unfold G1. rewrite decide_False by done.
      rewrite fmap_splice_card. cbn [set_column card_id]. rewrite Hid0.
      trans (new_to_ids cs b id Y k);
        [|symmetry; exact (proj1 (cross_to_after db b id body card Hwf Hcard HXY))].
      unfold new_to_ids, clamp. rewrite removeFrom_notin by (apply Hout; unfold X, Y in *; congruence).
      unfold column_ids. fold (G Y). by rewrite length_fmap, (Z.min_comm k).
    + unfold G1. rewrite decide_True by done.
      trans (new_from_ids cs b id X);
        [|symmetry; exact (proj1 (cross_from_after db b id body card Hwf Hcard HXY))].
      by unfold new_from_ids.
    + unfold G1. rewrite decide_False by done.
      symmetry. apply column_ids_frame.
      apply (cross_frame db b id body card Hwf Hcard b col HXY). intros [_ [?|?]]; unfold X, Y in *; congruence.
Qed.

Lemma optimistic_move_agrees_witness :
  let db := three_cards_db in
  let out := post_cards_move (H := test_platform) db DEFAULT_BOARD_ID "u0" "a" (mkMoveBody DONE 5) in
  cards_wf (db_cards db)
  ∧ out_result out = Ok ()
  ∧ ∃ cols, moveLocally (get_board db DEFAULT_BOARD_ID) "a" DONE 5 = Some cols
            ∧ view_ids cols = view_ids (get_board (out_db out) DEFAULT_BOARD_ID)
            ∧ view_ids cols = [(BACKLOG, []); (HIGH_PRIORITY, []); (TODO, ["b"; "c"]);
                               (IN_PROGRESS, []); (READY_FOR_ACCEPTANCE, []); (DONE, ["a"])].
Proof.
  assert (cards_wf (db_cards three_cards_db)) as Hwf
    by (unfold cards_wf; apply (bool_decide_unpack _); vm_compute; exact I).
  assert (out_result (post_cards_move (H := test_platform) three_cards_db DEFAULT_BOARD_ID "u0" "a"
                                      (mkMoveBody DONE 5)) = Ok ()) as Hok
    by (vm_compute; reflexivity).
  destruct (optimistic_move_agrees (H := test_platform) three_cards_db DEFAULT_BOARD_ID "u0" "a"
              (mkMoveBody DONE 5) Hwf Hok) as (cols & Hm & Hv).
  split_and!; [exact Hwf|exact Hok|].
  exists cols. split_and!; [exact Hm|exact Hv|].
  rewrite Hv. vm_compute. reflexivity.
Defined.

(* ================================================================== *)
(** * Editing a card                                                    *)
(* ================================================================== *)

(** Merge sort commutes with a map that keeps the order. *)
Section merge_sort_fmap.
Context {A : Type} (R : relation A) `{∀ x y, Decision (R x y)} (f : A → A).
Hypothesis Hf : ∀ x y, R (f x) (f y) ↔ R x y.

Local Abbreviation smap := (fmap (M := list) (fmap (M := option) (fmap (M := list) f))).

Lemma list_merge_fmap (l1 l2 : list A) :
  list_merge R (f <$> l1) (f <$> l2) = f <$> list_merge R l1 l2.
Proof.
  revert l2. induction l1 as [|x1 l1 IH1]; intros l2; [by rewrite fmap_nil, !list_merge_nil_l|].
  induction l2 as [|x2 l2 IH2]; [by rewrite fmap_nil, !list_merge_nil_r|].
  rewrite !fmap_cons, !list_merge_cons.
  destruct (decide (R x1 x2)) as [HR|HR].
  - rewrite decide_True by (by apply Hf). rewrite fmap_cons. f_equal.
    rewrite <- IH1. by rewrite fmap_cons.
  - rewrite decide_False by (by rewrite Hf). rewrite fmap_cons. f_equal.
    rewrite <- IH2. by rewrite fmap_cons.
Qed.

Lemma merge_list_to_stack_fmap (st : list (option (list A))) (l : list A) :
  merge_list_to_stack R (smap st) (f <$> l)
  = smap (merge_list_to_stack R st l).
Proof.
  revert l. induction st as [|[l'|] st IH]; intros l; [done| |done].
  cbn. f_equal. by rewrite list_merge_fmap, IH.
Qed.

Lemma merge_stack_fmap (st : list (option (list A))) :
  merge_stack R (smap st) = f <$> merge_stack R st.
Proof.
  induction st as [|[l|] st IH]; [done| |done].
  cbn. by rewrite IH, list_merge_fmap.
Qed.

Lemma merge_sort_aux_fmap (st : list (option (list A))) (l : list A) :
  merge_sort_aux R (smap st) (f <$> l) = f <$> merge_sort_aux R st l.
Proof.
  revert st. induction l as [|x l IH]; intros st; [apply merge_stack_fmap|].
  cbn. rewrite <- IH. f_equal. apply (merge_list_to_stack_fmap st [x]).
Qed.

Lemma merge_sort_fmap (l : list A) : merge_sort R (f <$> l) = f <$> merge_sort R l.
Proof. apply (merge_sort_aux_fmap []). Qed.
End merge_sort_fmap.

Lemma filter_fmap_commute (P : Card → Prop) `{∀ c, Decision (P c)} (f : Card → Card)
    (cs : list Card) :
  (∀ c, P (f c) ↔ P c) → filter P (f <$> cs) = f <$> filter P cs.
Proof.
  intros HP. induction cs as [|c cs IH]; [done|].
  rewrite fmap_cons, !filter_cons. destruct (decide (P c)) as [Hc|Hc].
  - rewrite decide_True by (by apply HP). by rewrite fmap_cons, IH.
  - rewrite decide_False by (by rewrite HP). done.
Qed.

(** A write that keeps board, column and position of every row keeps every
    partition in its order. *)
Lemma findMany_column_fmap (f : Card → Card) (cs : list Card) b col :
  (∀ c, card_boardId (f c) = card_boardId c ∧ card_column (f c) = card_column c
        ∧ card_position (f c) = card_position c) →
  findMany_column (f <$> cs) b col = f <$> findMany_column cs b col.
Proof.
  intros Hf. unfold findMany_column.
  rewrite <- (merge_sort_fmap position_le f).
  - f_equal. apply filter_fmap_commute.
    intros c. unfold in_partition. destruct (Hf c) as (-> & -> & _). done.
  - intros x y. unfold position_le.
    destruct (Hf x) as (_ & _ & ->). by destruct (Hf y) as (_ & _ & ->).
Qed.

Lemma get_board_fmap (f : Card → Card) db db' b :
  db_cards db' = f <$> db_cards db →
  (∀ c, card_id (f c) = card_id c ∧ card_boardId (f c) = card_boardId c
        ∧ card_column (f c) = card_column c ∧ card_position (f c) = card_position c) →
  view_ids (get_board db' b) = view_ids (get_board db b)
  ∧ ∀ col, positions (db_cards db') b col = positions (db_cards db) b col.
Proof.
  intros Hcs Hf.
  assert (∀ col, findMany_column (db_cards db') b col = f <$> findMany_column (db_cards db) b col)
    as Hfm.
  { intros col. rewrite Hcs. apply findMany_column_fmap. intros c. by destruct (Hf c) as (_ & ?). }
  split.
  - rewrite !get_board_column_view, !view_ids_column_view.
    apply list_fmap_ext. intros _ col _. f_equal. rewrite Hfm, <- list_fmap_compose.
    apply list_fmap_ext. intros _ c _. simpl. by destruct (Hf c) as (-> & _).
  - intros col. unfold positions. rewrite Hfm, <- list_fmap_compose.
    apply list_fmap_ext. intros _ c _. simpl. by destruct (Hf c) as (_ & _ & _ & ->).
Qed.

Lemma fmap_id_cards (cs : list Card) : (λ c, c) <$> cs = cs.
Proof. apply list_fmap_id. Qed.

(** X3: an edit of a card never moves a card.  Whatever PATCH /cards/:id
    is sent and whatever it answers, every board shows afterwards the same
    cards in the same columns and in the same order, at the same
    positions. *)
Theorem edit_keeps_order `{Platform} (db : Db) (b : string) (actor : User) (id : string)
    (body : CardUpdateBody) (b' : string) :
  let db' := out_db (patch_card db b actor id body) in
  view_ids (get_board db' b') = view_ids (get_board db b')
  ∧ ∀ col, positions (db_cards db') b' col = positions (db_cards db) b' col.
Proof.
  intros db'.
  assert (db' = db ∨ db_cards db' = (λ c, if decide (card_id c = id) then apply_update body c else c)
                                     <$> db_cards db) as [Heq|Hcs].
  { unfold db', patch_card.
    destruct (isUuid id); [|by left]. destruct (CardUpdateSchema body); [|by left]. simpl.
    destruct (findFirst_card _ _ _); [|by left].
    destruct (_ && _); [by left|by right]. }
  - by rewrite Heq.
  - eapply get_board_fmap; [exact Hcs|]. intros c. cbn beta.
    by destruct (decide (card_id c = id)).
Qed.

(* ================================================================== *)
(** * Assignee and participants of a card                               *)
(* ================================================================== *)

(** X4: the assignee and the participants of a card are in the hands of
    its author and of the admins.  A user who is neither cannot change the
    assignee of any card through PATCH /cards/:id, whatever else the request
    edits, and the requests to add or to remove a participant leave the
    store as it is. *)
Theorem manager_only `{Platform} (db : Db) (b : string) (actor : User) (id : string) :
  (∀ card, findFirst_card (db_cards db) id b = Some card →
           canManage actor (card_authorId card) = false) →
  (∀ body, card_assignee <$> db_cards (out_db (patch_card db b actor id body))
           = card_assignee <$> db_cards db)
  ∧ (∀ body, out_db (post_participant db b actor id body) = db)
  ∧ (∀ userId, out_db (delete_participant db b actor id userId) = db).
Proof.
  intros Hno. split_and!.
  - intros body. unfold patch_card.
    destruct (isUuid id); [|done]. destruct (CardUpdateSchema body); [|done]. simpl.
    destruct (findFirst_card _ _ _) as [card|] eqn:Hcard; [|done].
    rewrite (Hno card eq_refl). simpl. rewrite andb_true_r.
    case_bool_decide as Ha; [done|]. simpl.
    rewrite <- list_fmap_compose. apply list_fmap_ext. intros _ c _. simpl.
    destruct (decide (card_id c = id)); [|done]. simpl.
    by rewrite Ha.
  - intros body. unfold post_participant.
    destruct (isUuid id); [|done]. destruct (AddParticipantSchema body); [|done]. simpl.
    destruct (findFirst_card _ _ _) as [card|] eqn:Hcard; [|done].
    by rewrite (Hno card eq_refl).
  - intros userId. unfold delete_participant.
    destruct (isUuid id); [|done]. destruct (isUuid userId); [|done]. simpl.
    destruct (findFirst_card _ _ _) as [card|] eqn:Hcard; [|done].
    by rewrite (Hno card eq_refl).
Qed.

Lemma manager_only_witness :
  let body := mkUpdateBody (Some "renamed") None (Some (Some "bob")) None None None in
  findFirst_card (db_cards team_db) "a" DEFAULT_BOARD_ID = Some ann_card
  ∧ canManage bob_2fa (card_authorId ann_card) = false
  ∧ out_result (patch_card (H := test_platform) team_db DEFAULT_BOARD_ID bob_2fa "a" body)
    = Throw (HttpError 403 "Forbidden")
  ∧ card_assignee <$> db_cards (out_db (patch_card (H := test_platform) team_db DEFAULT_BOARD_ID
                                                   bob_2fa "a" body))
    = [None; None; None]
  ∧ out_db (post_participant (H := test_platform) team_db DEFAULT_BOARD_ID bob_2fa "a"
                             (mkAddParticipant (Some "u4") None)) = team_db
  ∧ out_db (delete_participant (H := test_platform) team_db DEFAULT_BOARD_ID bob_2fa "a" "u3")
    = team_db.
Proof.
  assert (∀ card, findFirst_card (db_cards team_db) "a" DEFAULT_BOARD_ID = Some card →
                  canManage bob_2fa (card_authorId card) = false) as Hno.
  { intros card Hcard. vm_compute in Hcard. injection Hcard as <-. reflexivity. }
  destruct (manager_only (H := test_platform) team_db DEFAULT_BOARD_ID bob_2fa "a" Hno)
    as (H1 & H2 & H3).
  split_and!; [reflexivity|reflexivity|reflexivity| |apply H2|apply H3].
  rewrite H1. reflexivity.
Defined.

(** X5: adding a participant is idempotent.  The same request a second
    time gets the same answer and leaves the store as the first one left
    it: a card never lists a user twice. *)
Theorem add_participant_idempotent `{Platform} (db : Db) (b : string) (actor : User)
    (id : string) (body : AddParticipantBody) :
  let o1 := post_participant db b actor id body in
  let o2 := post_participant (out_db o1) b actor id body in
  out_result o2 = out_result o1 ∧ out_db o2 = out_db o1.
Proof.
  intros o1 o2. unfold o2, o1. clear o1 o2. unfold post_participant.
  destruct (isUuid id) eqn:Hid; cbn [negb throw out_db out_result];
    [|by rewrite ?Hid, ?Hs, ?Hcard, ?Hm].
  destruct (AddParticipantSchema body) eqn:Hs; cbn [negb throw out_db out_result];
    [|by rewrite ?Hid, ?Hs, ?Hcard, ?Hm].
  destruct (findFirst_card (db_cards db) id b) as [card|] eqn:Hcard;
    cbn [negb throw out_db out_result]; [|by rewrite ?Hid, ?Hs, ?Hcard, ?Hm].
  destruct (canManage actor (card_authorId card)) eqn:Hm;
    cbn [negb throw out_db out_result]; [|by rewrite ?Hid, ?Hs, ?Hcard, ?Hm].
  unfold findUnique_user, findUnique_user_by_email.
  destruct (match truthy (ap_userId body) with
            | Some userId => Ok (snd <$> list_find (λ u, user_id u = userId) (db_users db))
            | None => match ap_email body with
                      | Some email => Ok (snd <$> list_find (λ u, user_email u = email) (db_users db))
                      | None => Throw PrismaError
                      end
            end) as [[user|]|e] eqn:Hu;
    cbn [negb throw out_db out_result db_cards db_users set_participants];
    rewrite Hcard, Hm; cbn [negb]; rewrite Hu; [|done..].
  cbn [out_db out_result db_participants]. split; [done|].
  change (set_participants ?x (set_participants ?y db)) with (set_participants x db).
  f_equal. unfold upsert_participant at 1.
  rewrite decide_True; [done|].
  unfold upsert_participant. case_decide; [done|]. apply elem_of_app. right. by left.
Qed.

(** ** Participants and notifications *)

Lemma card_update_ids id p (cs cs' : list Card) :
  card_update id p cs = Some cs' → card_id <$> cs' = card_id <$> cs.
Proof.
  unfold card_update. case_decide; [|done]. intros [= <-].
  rewrite <- list_fmap_compose. apply list_fmap_ext. intros _ c _. simpl.
  by destruct (decide (card_id c = id)).
Qed.

Lemma transaction_ids tx (cs cs' : list Card) :
  transaction tx cs = Some cs' → card_id <$> cs' = card_id <$> cs.
Proof.
  revert cs. induction tx as [|[id p] tx IH]; intros cs; simpl; [by intros [= <-]|].
  destruct (card_update id p cs) as [cs1|] eqn:E; [|done].
  intros Htx. rewrite (IH _ Htx). by eapply card_update_ids.
Qed.

(** A move writes the table of cards only, and keeps the ids. *)
Lemma move_out_db `{Platform} db b actor id body :
  ∃ cs', out_db (post_cards_move db b actor id body) = set_cards cs' db
         ∧ card_id <$> cs' = card_id <$> db_cards db.
Proof.
  assert (∃ cs', db = set_cards cs' db ∧ card_id <$> cs' = card_id <$> db_cards db) as Hsame.
  { exists (db_cards db). by rewrite set_cards_same. }
  unfold post_cards_move.
  destruct (isUuid id); [|done]. destruct (CardMoveSchema body); [|done]. simpl.
  destruct (findFirst_card _ _ _) as [card|]; [|done].
  destruct (decide (card_column card = mv_toColumn body)).
  - destruct (transaction _ _) as [cs'|] eqn:E; [|done].
    exists cs'. split; [done|]. by eapply transaction_ids.
  - destruct (transaction _ _) as [cs'|] eqn:E; [|done].
    exists cs'. split; [done|]. by eapply transaction_ids.
Qed.

Lemma move_notify `{Platform} db b actor id body n :
  n ∈ out_notify (post_cards_move db b actor id body) →
  n_cardId n = id ∧ n_actorId n = actor.
Proof.
  unfold post_cards_move.
  destruct (isUuid id); [|by intros ?%elem_of_nil].
  destruct (CardMoveSchema body); [|by intros ?%elem_of_nil]. simpl.
  destruct (findFirst_card _ _ _) as [card|]; [|by intros ?%elem_of_nil].
  destruct (decide (card_column card = mv_toColumn body)).
  - destruct (transaction _ _); by intros ?%elem_of_nil.
  - destruct (transaction _ _); [|by intros ?%elem_of_nil].
    simpl. by intros ->%list_elem_of_singleton.
Qed.

(** A participant of the card with an address, other than the actor, is
    among the recipients. *)
Lemma notify_includes db n u :
  users_wf db → u ∈ db_users db →
  mkParticipant (n_cardId n) (user_id u) ∈ db_participants db →
  n_cardId n ∈ card_id <$> db_cards db →
  user_id u ≠ n_actorId n → user_email u ≠ "" →
  ∃ rs, notifyCardParticipants db n = Some rs ∧ user_email u ∈ rs.
Proof.
  intros Hwf Hu Hrow Hcard Hactor Hmail. unfold notifyCardParticipants.
  destruct (list_find (λ c, card_id c = n_cardId n) (db_cards db)) as [x|] eqn:E.
  2:{ apply list_find_None in E. rewrite Forall_forall in E.
      apply list_elem_of_fmap in Hcard as (c & Hid & Hc). by destruct (E c Hc). }
  match goal with |- context [decide (?rs = [])] => set (recipients := rs) end.
  assert (user_email u ∈ recipients) as Hin.
  { unfold recipients. apply list_elem_of_filter. split; [done|].
    apply list_elem_of_fmap. exists u. split; [done|].
    apply list_elem_of_filter. split; [done|].
    apply list_elem_of_omap. exists (mkParticipant (n_cardId n) (user_id u)). split; [done|].
    simpl. rewrite decide_True by done.
    change (snd <$> list_find (λ u0, user_id u0 = user_id u) (db_users db))
      with (findUnique_user db (user_id u)).
    by apply findUnique_user_elem. }
  case_decide as Hnil; [rewrite Hnil in Hin; by apply elem_of_nil in Hin|].
  by exists recipients.
Qed.

Lemma post_participant_Ok `{Platform} db b actor id body u :
  out_result (post_participant db b actor id body) = Ok u →
  u ∈ db_users db
  ∧ id ∈ card_id <$> db_cards db
  ∧ out_db (post_participant db b actor id body)
    = set_participants (upsert_participant (mkParticipant id (user_id u)) (db_participants db)) db.
Proof.
  unfold post_participant.
  destruct (isUuid id); [|done]. destruct (AddParticipantSchema body); [|done]. simpl.
  destruct (findFirst_card _ _ _) as [card|] eqn:Hcard; [|done].
  destruct (canManage _ _); [|done]. simpl.
  apply findFirst_card_Some in Hcard as (Hc & Hid & _).
  assert (id ∈ card_id <$> db_cards db) as Hin.
  { apply list_elem_of_fmap. by exists card. }
  assert (∀ (P : User → Prop) `{∀ x, Decision (P x)} u',
            snd <$> list_find P (db_users db) = Some u' → u' ∈ db_users db) as Hfind.
  { intros P ? u'. destruct (list_find P _) as [[i x]|] eqn:E; [|done].
    intros [= <-]. apply list_find_Some in E as (Hi & _). by eapply list_elem_of_lookup_2. }
  unfold findUnique_user, findUnique_user_by_email.
  destruct (truthy (ap_userId body)) as [userId|].
  - destruct (snd <$> list_find _ _) as [u'|] eqn:E; [|done].
    simpl. intros [= <-]. split_and!; [by eapply Hfind|done|done].
  - destruct (ap_email body) as [email|]; [|done].
    destruct (snd <$> list_find _ _) as [u'|] eqn:E; [|done].
    simpl. intros [= <-]. split_and!; [by eapply Hfind|done|done].
Qed.

Lemma elem_of_upsert_participant row ps : row ∈ upsert_participant row ps.
Proof. unfold upsert_participant. case_decide; [done|]. apply elem_of_app. right. by left. Qed.

(** X6: a participant hears of the card.  Once a user has been added to a
    card, the notification of a later move of the card by somebody else
    goes to the address of that user. *)
Theorem added_participant_is_notified `{Platform} (db : Db) (b : string) (manager : User)
    (id : string) (pbody : AddParticipantBody) (u : User) (actor : string) (mbody : CardMoveBody)
    (n : Notification) :
  users_wf db →
  out_result (post_participant db b manager id pbody) = Ok u →
  user_id u ≠ actor → user_email u ≠ "" →
  let db1 := out_db (post_participant db b manager id pbody) in
  let out := post_cards_move db1 b actor id mbody in
  n ∈ out_notify out →
  ∃ rs, notifyCardParticipants (out_db out) n = Some rs ∧ user_email u ∈ rs.
Proof.
  intros Hwf Hok Hactor Hmail db1 mv Hn.
  apply post_participant_Ok in Hok as (Hu & Hid & Hdb1). fold db1 in Hdb1.
  apply move_notify in Hn as [Hcard Hact].
  destruct (move_out_db db1 b actor id mbody) as (cs' & Hdb2 & Hids). fold mv in Hdb2.
  apply notify_includes.
  - unfold users_wf. by rewrite Hdb2, Hdb1.
  - by rewrite Hdb2, Hdb1.
  - rewrite Hdb2, Hdb1, Hcard. apply elem_of_upsert_participant.
  - rewrite Hdb2. cbn [db_cards set_cards]. rewrite Hids, Hdb1, Hcard. done.
  - by rewrite Hact.
  - done.
Qed.

Lemma added_participant_is_notified_witness :
  let added := post_participant (H := test_platform) team_db DEFAULT_BOARD_ID ann_2fa "a"
                                (mkAddParticipant (Some "u4") None) in
  let out := post_cards_move (H := test_platform) (out_db added) DEFAULT_BOARD_ID "u3" "a"
                             (mkMoveBody DONE 0) in
  let n := mkNotification "a" "u3" moved (Some TODO) (Some DONE) in
  users_wf team_db
  ∧ out_result added = Ok bob_2fa
  ∧ n ∈ out_notify out
  ∧ ∃ rs, notifyCardParticipants (out_db out) n = Some rs ∧ "bob@example.org" ∈ rs.
Proof.
  assert (users_wf team_db) as Hwf
    by (unfold users_wf; apply (bool_decide_unpack _); vm_compute; exact I).
  assert (out_result (post_participant (H := test_platform) team_db DEFAULT_BOARD_ID ann_2fa "a"
                                       (mkAddParticipant (Some "u4") None)) = Ok bob_2fa) as Hok
    by (vm_compute; reflexivity).
  set (n := mkNotification "a" "u3" moved (Some TODO) (Some DONE)).
  assert (n ∈ out_notify (post_cards_move (H := test_platform)
                            (out_db (post_participant (H := test_platform) team_db
                                       DEFAULT_BOARD_ID ann_2fa "a"
                                       (mkAddParticipant (Some "u4") None)))
                            DEFAULT_BOARD_ID "u3" "a" (mkMoveBody DONE 0))) as Hn
    by (vm_compute; left).
  assert (user_id bob_2fa ≠ "u3") as Hactor by (vm_compute; discriminate).
  assert (user_email bob_2fa ≠ "") as Hmail by (vm_compute; discriminate).
  split_and!; [exact Hwf|exact Hok|exact Hn|].
  exact (added_participant_is_notified (H := test_platform) team_db DEFAULT_BOARD_ID ann_2fa "a"
           (mkAddParticipant (Some "u4") None) bob_2fa "u3" (mkMoveBody DONE 0) n
           Hwf Hok Hactor Hmail Hn).
Defined.

(** X7: a removed participant hears no more of the card.  After a
    participant has been removed from a card, every address a notification
    about the card goes to is the address of a user other than the removed
    one, who is still a participant of the card. *)
Theorem removed_participant_not_notified `{Platform} (db : Db) (b : string) (manager : User)
    (id userId : string) (n : Notification) (rs : list string) (e : string) :
  out_result (delete_participant db b manager id userId) = Ok () →
  let db1 := out_db (delete_participant db b manager id userId) in
  n_cardId n = id →
  notifyCardParticipants db1 n = Some rs → e ∈ rs →
  ∃ u, u ∈ db_users db ∧ user_email u = e ∧ user_id u ≠ userId
       ∧ mkParticipant id (user_id u) ∈ db_participants db1.
Proof.
  intros Hok db1 Hcard Hrs He.
  assert (db1 = set_participants
                  (filter (λ p, ¬ (cp_cardId p = id ∧ cp_userId p = userId)) (db_participants db))
                  db) as Hdb1.
  { unfold db1. revert Hok. unfold delete_participant.
    destruct (isUuid id); [|done]. destruct (isUuid userId); [|done]. simpl.
    destruct (findFirst_card _ _ _); [|done]. by destruct (canManage _ _). }
  destruct (notify_recipients db1 n rs e Hrs He) as (p & u & Hp & Hpc & Hu & Hid & Hmail & _).
  exists u. rewrite Hdb1 in Hu. split_and!; [done|done| |].
  - rewrite Hdb1 in Hp. cbn [db_participants set_participants] in Hp.
    apply list_elem_of_filter in Hp as [Hp _]. intros Heq. apply Hp. split; congruence.
  - destruct p as [pc pu]. simpl in *. by subst.
Qed.

Lemma removed_participant_not_notified_witness :
  let db0 := out_db (post_participant (H := test_platform) team_db DEFAULT_BOARD_ID ann_2fa "a"
                                      (mkAddParticipant (Some "u4") None)) in
  let db1 := out_db (post_participant (H := test_platform) db0 DEFAULT_BOARD_ID ann_2fa "a"
                                      (mkAddParticipant (Some "u0") None)) in
  let removed := delete_participant (H := test_platform) db1 DEFAULT_BOARD_ID ann_2fa "a" "u4" in
  let n := mkNotification "a" "u3" updated None None in
  out_result removed = Ok ()
  ∧ notifyCardParticipants (out_db removed) n = Some ["admin@local"]
  ∧ ∃ u, u ∈ db_users db1 ∧ user_email u = "admin@local" ∧ user_id u ≠ "u4"
         ∧ mkParticipant "a" (user_id u) ∈ db_participants (out_db removed).
Proof.
  split_and!; [reflexivity|reflexivity|].
  eapply (removed_participant_not_notified (H := test_platform) _ DEFAULT_BOARD_ID ann_2fa "a" "u4"
            (mkNotification "a" "u3" updated None None) ["admin@local"]);
    [reflexivity|reflexivity|reflexivity|left].
Defined.

(* ================================================================== *)
(** * The lifetime of a trusted device                                  *)
(* ================================================================== *)

Lemma verifyTrustedDeviceToken_iff `{Platform} db userId token now :
  (verifyTrustedDeviceToken db userId token now).1 = true
  ↔ ∃ expiresAt, (userId, sha256Hex token, expiresAt) ∈ td_grant <$> db_trustedDevices db
                 ∧ now < expiresAt.
Proof.
  unfold verifyTrustedDeviceToken.
  destruct (list_find _ (db_trustedDevices db)) as [[i d]|] eqn:E; simpl.
  - apply list_find_Some in E as (Hi & (H1 & H2 & H3) & _). split; [intros _|done].
    exists (td_expiresAt d). split; [|done].
    apply list_elem_of_fmap. exists d. split; [|by eapply list_elem_of_lookup_2].
    unfold td_grant. by rewrite H1, H2.
  - apply list_find_None in E. rewrite Forall_forall in E. split; [done|].
    intros (e & (d & Hg & Hd)%list_elem_of_fmap & Hlt). destruct (E d Hd).
    unfold td_grant in Hg. injection Hg as -> Hh ->. done.
Qed.

(** A verification refreshes [lastUsedAt] and nothing else. *)
Lemma verifyTrustedDeviceToken_grants `{Platform} db userId token now :
  td_grant <$> db_trustedDevices (verifyTrustedDeviceToken db userId token now).2
  = td_grant <$> db_trustedDevices db.
Proof.
  unfold verifyTrustedDeviceToken.
  destruct (list_find _ (db_trustedDevices db)) as [[i d]|]; [|done]. simpl.
  rewrite <- list_fmap_compose. apply list_fmap_ext. intros _ d' _. simpl.
  by case_decide.
Qed.

Lemma use_devices_grants `{Platform} uses db :
  td_grant <$> db_trustedDevices (use_devices db uses) = td_grant <$> db_trustedDevices db.
Proof.
  revert db. induction uses as [|[[u tok] t] uses IH]; intros db; [done|].
  unfold use_devices in *. simpl. rewrite IH. apply verifyTrustedDeviceToken_grants.
Qed.

Lemma issueTrustedDevice_Some `{Platform} db userId token newId now db' :
  issueTrustedDevice db userId token newId now = Some db' →
  (sha256Hex token ∉ td_tokenHash <$> db_trustedDevices db)
  ∧ db' = set_trustedDevices
            (db_trustedDevices db
             ++ [mkTrustedDevice newId userId (sha256Hex token)
                                 (now + DAYS * 24 * 60 * 60 * 1000) now]) db.
Proof.
  unfold issueTrustedDevice. case_decide as Hd; [done|]. intros [= <-].
  split; [|done]. intros Hin. apply Hd. right. by left.
Qed.

Lemma issued_grants `{Platform} db userId token newId now db' u e :
  issueTrustedDevice db userId token newId now = Some db' →
  (u, sha256Hex token, e) ∈ td_grant <$> db_trustedDevices db'
  ↔ u = userId ∧ e = now + 30 * 24 * 60 * 60 * 1000.
Proof.
  intros (Hfresh & ->)%issueTrustedDevice_Some. cbn [db_trustedDevices set_trustedDevices].
  rewrite fmap_app, elem_of_app. cbn [fmap list_fmap td_grant td_userId td_tokenHash td_expiresAt].
  rewrite list_elem_of_singleton. unfold DAYS. split.
  - intros [(d & Hg & Hd)%list_elem_of_fmap|Heq].
    + destruct Hfresh. apply list_elem_of_fmap. exists d. split; [|done].
      unfold td_grant in Hg. by injection Hg as _ -> _.
    + by injection Heq as -> ->.
  - intros [-> ->]. by right.
Qed.

(** X8: a trusted device is trusted for thirty days, no more and no less.
    However often and by whomever tokens are verified after a device has
    been issued, the token of the device is accepted for the user it was
    issued to, and for nobody else, exactly as long as thirty days have not
    passed since it was issued: using the device does not extend the
    trust. *)
Theorem trusted_device_lifetime `{Platform} (db : Db) (userId token newId : string) (now : Z)
    (db' : Db) (uses : list (string * string * Z)) (u : string) (t : Z) :
  issueTrustedDevice db userId token newId now = Some db' →
  (verifyTrustedDeviceToken (use_devices db' uses) u token t).1 = true
  ↔ u = userId ∧ t < now + 30 * 24 * 60 * 60 * 1000.
Proof.
  intros Hissue. rewrite verifyTrustedDeviceToken_iff, use_devices_grants. split.
  - intros (e & He & Hlt). apply (issued_grants _ _ _ _ _ _ _ _ Hissue) in He as [-> ->]. done.
  - intros [-> Hlt]. eexists. split; [|exact Hlt]. by apply (issued_grants _ _ _ _ _ _ _ _ Hissue).
Qed.

Lemma trusted_device_lifetime_witness :
  let db' := set_trustedDevices
               [mkTrustedDevice "d0" "u3" "ann-device-token" 1000 0;
                mkTrustedDevice "d1" "u3" "token-1" 2592000005 5] login_db in
  let uses := [("u3", "token-1", 2000000000); ("u0", "token-1", 7)] in
  issueTrustedDevice (H := test_platform) login_db "u3" "token-1" "d1" 5 = Some db'
  ∧ (verifyTrustedDeviceToken (H := test_platform) (use_devices (H := test_platform) db' uses)
       "u3" "token-1" 2592000004).1 = true
  ∧ (verifyTrustedDeviceToken (H := test_platform) (use_devices (H := test_platform) db' uses)
       "u3" "token-1" 2592000005).1 = false.
Proof.
  assert (issueTrustedDevice (H := test_platform) login_db "u3" "token-1" "d1" 5
          = Some (set_trustedDevices
                    [mkTrustedDevice "d0" "u3" "ann-device-token" 1000 0;
                     mkTrustedDevice "d1" "u3" "token-1" 2592000005 5] login_db)) as Hissue
    by (vm_compute; reflexivity).
  split_and!; [exact Hissue| |].
  - apply (trusted_device_lifetime (H := test_platform) _ _ _ _ _ _ _ _ _ Hissue).
    split; [reflexivity|lia].
  - apply not_true_is_false.
    rewrite (trusted_device_lifetime (H := test_platform) _ _ _ _ _ _ _ _ _ Hissue).
    intros [_ Hlt]. lia.
Defined.

(* ================================================================== *)
(** * Signing in on a remembered device                                 *)
(* ================================================================== *)

Lemma login_resolve_users `{Platform} db db' login :
  db_users db' = db_users db → login_resolve db' login = login_resolve db login.
Proof.
  intros Hu. unfold login_resolve, findFirst_user_by_email, findMany_users_by_name.
  by rewrite Hu.
Qed.

Lemma login_board_memberships db db' u :
  db_memberships db' = db_memberships db → login_board db' u = login_board db u.
Proof. intros Hm. unfold login_board. by rewrite Hm. Qed.

Lemma verifyTrustedDeviceToken_frame `{Platform} db userId token now :
  let db' := (verifyTrustedDeviceToken db userId token now).2 in
  db_users db' = db_users db ∧ db_memberships db' = db_memberships db.
Proof.
  unfold verifyTrustedDeviceToken. by destruct (list_find _ (db_trustedDevices db)) as [[i d]|].
Qed.

(** What a successful login with a code and [rememberDevice] went
    through. *)
Lemma login_remember_Ok `{Platform} db sess env body r :
  a_result (post_login db sess env body) = Ok r →
  user_totpEnabled (resp_user r) = true →
  truthy (lb_totp body) ≠ None →
  lb_rememberDevice body = Some true →
  ∃ secret db',
    LoginSchema body = true
    ∧ login_resolve db (lb_login body) = Ok (Some (resp_user r))
    ∧ verifyPassword (lb_password body) (user_passwordHash (resp_user r)) = true
    ∧ truthy (user_totpSecret (resp_user r)) = Some secret
    ∧ issueTrustedDevice db (user_id (resp_user r)) (le_newToken env) (le_newDeviceId env)
                         (le_now env) = Some db'
    ∧ post_login db sess env body = login_success db' (resp_user r) (Some (le_newToken env))
    ∧ r = mkLoginResponse (resp_user r) true (login_board db' (resp_user r)).
Proof.
  intros Hok Hen Htotp Hrem. revert Hok. unfold post_login.
  destruct (LoginSchema body) eqn:Hs; [|done]. simpl.
  destruct (login_resolve db (lb_login body)) as [[u|]|] eqn:Hres; [|done..].
  destruct (verifyPassword _ _) eqn:Hpw; [|done]. simpl.
  destruct (user_totpEnabled u) eqn:Hu.
  2:{ unfold login_success. simpl. intros [= <-]. simpl in Hen. congruence. }
  destruct (truthy (user_totpSecret u)) as [secret|] eqn:Hsec; [|done].
  destruct (truthy (lb_totp body)) as [totp|]; [|done].
  destruct (verifyTotp totp secret); [|done]. simpl. rewrite Hrem. simpl.
  destruct (issueTrustedDevice _ _ _ _ _) as [db'|] eqn:Hiss; [|done].
  unfold login_success. simpl. intros [= <-]. simpl in *.
  exists secret, db'. rewrite Hu. by split_and!.
Qed.

(** X9: a remembered device replaces the code for thirty days.  After a
    login with a code that asks to remember the device, the cookie the
    response sets lets the same login and password in again without a code
    until thirty days have passed, with the same answer; from then on the
    login is refused with 401 "Two-factor required" and the session stays as
    it was. *)
Theorem remembered_device_round_trip `{Platform} (db : Db) (sess : Session) (env : LoginEnv)
    (body : LoginBody) (r : LoginResponse) :
  a_result (post_login db sess env body) = Ok r →
  user_totpEnabled (resp_user r) = true →
  truthy (lb_totp body) ≠ None →
  lb_rememberDevice body = Some true →
  le_newToken env ≠ "" →
  let once := post_login db sess env body in
  let again := mkLoginBody (lb_login body) (lb_password body) None None in
  a_trustCookie once = Some (le_newToken env)
  ∧ ∀ sess2 env2,
      le_trustCookie env2 = a_trustCookie once →
      let twice := post_login (a_db once) sess2 env2 again in
      (le_now env2 < le_now env + 30 * 24 * 60 * 60 * 1000 → a_result twice = Ok r)
      ∧ (le_now env + 30 * 24 * 60 * 60 * 1000 ≤ le_now env2 →
         a_result twice = Throw (HttpError 401 "Two-factor required")
         ∧ a_session twice = sess2).
Proof.
  intros Hok Hen Htotp Hrem Htoken once again.
  destruct (login_remember_Ok db sess env body r Hok Hen Htotp Hrem)
    as (secret & db' & Hs & Hres & Hpw & Hsec & Hiss & Hfirst & Hr).
  set (u := resp_user r) in *.
  unfold once. rewrite Hfirst. cbn [login_success a_trustCookie a_db]. split; [done|].
  intros sess2 env2 Hcookie. set (twice := post_login db' sess2 env2 again).
  pose proof (issueTrustedDevice_Some _ _ _ _ _ _ Hiss) as [_ Hdb'].
  assert (db_users db' = db_users db) as Husers by (by rewrite Hdb').
  assert (db_memberships db' = db_memberships db) as Hmem by (by rewrite Hdb').
  assert (LoginSchema again = true) as Hs2.
  { revert Hs. unfold LoginSchema, again. simpl.
    intros ([-> ->]%andb_prop & _)%andb_prop. done. }
  assert (truthy (le_trustCookie env2) = Some (le_newToken env)) as Htr.
  { rewrite Hcookie. simpl. by rewrite decide_False. }
  pose proof (verifyTrustedDeviceToken_iff db' (user_id u) (le_newToken env) (le_now env2)) as Hiff.
  pose proof (verifyTrustedDeviceToken_frame db' (user_id u) (le_newToken env) (le_now env2))
    as [Hu2 Hm2].
  assert (∀ ok db2, verifyTrustedDeviceToken db' (user_id u) (le_newToken env) (le_now env2)
                    = (ok, db2) →
            twice = if ok then login_success db2 u None
                     else auth_throw db' sess2 (HttpError 401 "Two-factor required")) as Hsecond.
  { intros ok db2 Hv. unfold twice, post_login. rewrite Hs2. simpl.
    rewrite (login_resolve_users db db') by done. rewrite Hres. simpl.
    rewrite Hpw. simpl. rewrite Hen, Hsec, Htr, Hv. done. }
  destruct (verifyTrustedDeviceToken db' (user_id u) (le_newToken env) (le_now env2))
    as [ok db2] eqn:Hv.
  rewrite (Hsecond ok db2 eq_refl). simpl in Hiff, Hu2, Hm2. split.
  - intros Hlt. assert (ok = true) as ->.
    { apply Hiff. eexists. split; [|exact Hlt]. by apply (issued_grants _ _ _ _ _ _ _ _ Hiss). }
    unfold login_success. simpl. rewrite Hen, Hr. simpl. f_equal. f_equal.
    rewrite (login_board_memberships db' db2) by done. done.
  - intros Hge. assert (ok = false) as ->.
    { apply not_true_is_false. intros Htrue. apply Hiff in Htrue as (e & He & Hlt).
      apply (issued_grants _ _ _ _ _ _ _ _ Hiss) in He as [_ ->]. lia. }
    done.
Qed.

Lemma remembered_device_round_trip_witness :
  let env := mkLoginEnv None 5 "token-1" "d1" in
  let body := mkLoginBody "ann@example.org" "ann-password" (Some "ann-totp") (Some true) in
  let once := post_login (H := test_platform) login_db empty_session env body in
  let again := mkLoginBody "ann@example.org" "ann-password" None None in
  let r := mkLoginResponse ann_2fa true (Some DEFAULT_BOARD_ID) in
  a_result once = Ok r
  ∧ a_trustCookie once = Some "token-1"
  ∧ a_result (post_login (H := test_platform) (a_db once) empty_session
                         (mkLoginEnv (Some "token-1") 2592000004 "token-2" "d2") again) = Ok r
  ∧ a_result (post_login (H := test_platform) (a_db once) empty_session
                         (mkLoginEnv (Some "token-1") 2592000005 "token-2" "d2") again)
    = Throw (HttpError 401 "Two-factor required").
Proof.
  set (env := mkLoginEnv None 5 "token-1" "d1").
  set (body := mkLoginBody "ann@example.org" "ann-password" (Some "ann-totp") (Some true)).
  set (r := mkLoginResponse ann_2fa true (Some DEFAULT_BOARD_ID)).
  assert (a_result (post_login (H := test_platform) login_db empty_session env body) = Ok r)
    as Hok by (vm_compute; reflexivity).
  assert (user_totpEnabled (resp_user r) = true) as Hen by reflexivity.
  assert (truthy (lb_totp body) ≠ None) as Htotp by (vm_compute; discriminate).
  assert (lb_rememberDevice body = Some true) as Hrem by reflexivity.
  assert (le_newToken env ≠ "") as Htoken by (vm_compute; discriminate).
  destruct (remembered_device_round_trip (H := test_platform) login_db empty_session env body r
              Hok Hen Htotp Hrem Htoken) as [Hcookie Hagain].
  split_and!; [exact Hok|exact Hcookie| |].
  - apply (Hagain empty_session (mkLoginEnv (Some "token-1") 2592000004 "token-2" "d2"));
      [by rewrite Hcookie|simpl; lia].
  - apply (Hagain empty_session (mkLoginEnv (Some "token-1") 2592000005 "token-2" "d2"));
      [by rewrite Hcookie|simpl; lia].
Defined.

(* ================================================================== *)
(** * Reset links                                                       *)
(* ================================================================== *)

Lemma reset_tokens_unique (l : list PasswordResetToken) r1 r2 :
  NoDup (prt_tokenHash <$> l) → r1 ∈ l → r2 ∈ l → prt_tokenHash r1 = prt_tokenHash r2 → r1 = r2.
Proof.
  intros Hnd (i & Hi)%list_elem_of_lookup (j & Hj)%list_elem_of_lookup Heq.
  assert (i = j) as ->.
  { eapply NoDup_lookup; [done| |]; rewrite list_lookup_fmap.
    - by rewrite Hi.
    - rewrite Hj. simpl. by rewrite Heq. }
  congruence.
Qed.

(** What a successful redemption of a token does to the table of tokens. *)
Lemma post_password_reset_Ok `{Platform} db now body db' :
  post_password_reset db now body = (Ok (), db') →
  ∃ rec, rec ∈ db_resetTokens db
         ∧ prt_tokenHash rec = sha256Hex (rb_token body)
         ∧ (20 ≤ String.length (rb_token body))%nat
         ∧ db_resetTokens db'
           = (λ r, if decide (prt_id r = prt_id rec)
                   then mkResetToken (prt_id r) (prt_userId r) (prt_tokenHash r)
                                     (prt_expiresAt r) (Some now)
                   else r) <$> db_resetTokens db.
Proof.
  unfold post_password_reset. destruct (ResetPasswordSchema body) eqn:Hs; simpl; [|done].
  destruct (list_find _ (db_resetTokens db)) as [[i rec]|] eqn:E; [|done].
  apply list_find_Some in E as (Hi & (H1 & _) & _).
  unfold user_update. case_decide; [|done]. intros [= <-].
  exists rec. split_and!; [by eapply list_elem_of_lookup_2|done| |done].
  unfold ResetPasswordSchema in Hs. apply andb_prop in Hs as [Hs _].
  by apply bool_decide_eq_true in Hs.
Qed.

(** X10: a reset token works once.  After a token has been redeemed, every
    further request with the same token, at any time and with any new
    password of valid length, is refused with 400 "Invalid or expired token"
    and changes nothing. *)
Theorem reset_token_single_use `{Platform} (db : Db) (now : Z) (body : ResetPasswordBody)
    (db' : Db) (now' : Z) (body' : ResetPasswordBody) :
  NoDup (prt_tokenHash <$> db_resetTokens db) →
  post_password_reset db now body = (Ok (), db') →
  rb_token body' = rb_token body →
  (8 ≤ String.length (rb_newPassword body'))%nat →
  post_password_reset db' now' body'
  = (Throw (HttpError 400 "Invalid or expired token"), db').
Proof.
  intros Hnd Hok Htok Hpw.
  apply post_password_reset_Ok in Hok as (rec & Hrec & Hhash & Hlen & Htokens).
  unfold post_password_reset, ResetPasswordSchema. rewrite Htok.
  rewrite !bool_decide_eq_true_2 by done. simpl.
  destruct (list_find _ (db_resetTokens db')) as [[i r']|] eqn:E; [|done].
  apply list_find_Some in E as (Hi & (H1 & _ & H3) & _).
  apply list_elem_of_lookup_2 in Hi. rewrite Htokens in Hi.
  apply list_elem_of_fmap in Hi as (r & -> & Hr).
  destruct (decide (prt_id r = prt_id rec)) as [|Hne]; [done|].
  destruct Hne. f_equal. apply (reset_tokens_unique (db_resetTokens db)); [done..|].
  simpl in H1. congruence.
Qed.

Lemma reset_token_single_use_witness :
  let body := mkResetBody "ann-reset-token-0123456789" "new-password" in
  let db' := (post_password_reset (H := test_platform) login_db 10 body).2 in
  NoDup (prt_tokenHash <$> db_resetTokens login_db)
  ∧ post_password_reset (H := test_platform) login_db 10 body = (Ok (), db')
  ∧ post_password_reset (H := test_platform) db' 11
                        (mkResetBody "ann-reset-token-0123456789" "other-password")
    = (Throw (HttpError 400 "Invalid or expired token"), db').
Proof.
  assert (NoDup (prt_tokenHash <$> db_resetTokens login_db)) as Hnd
    by (apply (bool_decide_unpack _); vm_compute; exact I).
  set (body := mkResetBody "ann-reset-token-0123456789" "new-password").
  assert (post_password_reset (H := test_platform) login_db 10 body
          = (Ok (), (post_password_reset (H := test_platform) login_db 10 body).2)) as Hok
    by (vm_compute; reflexivity).
  split_and!; [exact Hnd|exact Hok|].
  apply (reset_token_single_use (H := test_platform) login_db 10 body _ 11
           (mkResetBody "ann-reset-token-0123456789" "other-password") Hnd Hok);
    [reflexivity|simpl; lia].
Defined.

(** ** Forgotten passwords *)

Lemma reset_resolve_elem `{Platform} db login u :
  reset_resolve db login = Some u → u ∈ db_users db.
Proof.
  unfold reset_resolve, findFirst_user_by_email, findMany_users_by_name.
  destruct (includesAt _).
  - destruct (list_find _ (db_users db)) as [[i x]|] eqn:E; [|done].
    intros [= <-]. apply list_find_Some in E as (Hi & _). by eapply list_elem_of_lookup_2.
  - destruct (take 2 _) as [|x [|y l]] eqn:E; [done| |done].
    intros [= <-]. assert (x ∈ take 2 (filter (λ u, equalsInsensitive (user_name u)
                                                   (toLowerCase (trim login)) = true)
                                              (db_users db))) as Hx by (rewrite E; left).
    apply elem_of_take in Hx as (i & Hx & _). apply list_elem_of_lookup_2 in Hx.
    by apply list_elem_of_filter in Hx as [_ ?].
Qed.

Lemma getMailConfig_mailConfigured ms env :
  is_Some (getMailConfig ms env) → mailConfigured ms env = true.
Proof.
  unfold getMailConfig, mailConfigured. intros [cfg Hcfg]. revert Hcfg.
  destruct ms as [rec|].
  - destruct (ms_enabled rec); [|done]. simpl.
    destruct (truthy (ms_host rec)); [|done].
    destruct (truthy_port (ms_port rec)); [|done].
    destruct (truthy (ms_user rec)); [|done].
    destruct (truthy (ms_pass rec)); [|done]. done.
  - destruct (truthy (SMTP_HOST env)); [|done].
    destruct (truthy (SMTP_USER env)); [|done].
    destruct (truthy (SMTP_PASS env)); [|done]. done.
Qed.

Lemma post_password_forgot_mail `{Platform} db ms env now token newId login addr tok :
  f_mail (post_password_forgot db ms env now token newId login) = Some (addr, tok) →
  ∃ u, reset_resolve db login = Some u ∧ user_email u = addr ∧ tok = token
       ∧ (sha256Hex token ∉ prt_tokenHash <$> db_resetTokens db)
       ∧ f_db (post_password_forgot db ms env now token newId login)
         = set_resetTokens
             (db_resetTokens db
              ++ [mkResetToken newId (user_id u) (sha256Hex token) (now + 1000 * 60 * 60) None])
             db.
Proof.
  unfold post_password_forgot.
  destruct (negb _); [done|].
  destruct (decide (trim login = "")); [done|].
  destruct (reset_resolve db login) as [u|]; [|done].
  destruct (decide (user_email u = "")); [done|].
  destruct (negb _); [done|].
  case_decide as Hd; [done|]. simpl. intros [= <- <-].
  exists u. split_and!; [done..| |done]. intros ?. apply Hd. by right.
Qed.

(** X11: the request for a reset link never tells whether the login is
    known.  Whatever the table of users holds, a request with a login gets
    the answer ok, as long as the database accepts the new token.  The link
    is handed to [sendEmail] exactly when the login resolves to one user
    with an address and the handler counts mail as configured: then the
    mail is for the address of that user and carries the token, and the
    store has gained exactly one row, the reset token of that user with the
    hash of the token, valid for one hour and unused; otherwise the store is
    left as it is.  Whenever the mailer has a configuration to send with,
    the handler counts mail as configured; the converse fails: with a
    disabled row of mail settings and the SMTP variables of the environment
    set, the handler counts mail as configured, while the mailer, for which
    the row is authoritative, has no configuration. *)
Theorem forgot_never_tells `{Platform} (db : Db) (ms : option MailSettings) (env : MailEnv)
    (now : Z) (token newId login : string) :
  (1 ≤ String.length login)%nat →
  newId ∉ prt_id <$> db_resetTokens db →
  sha256Hex token ∉ prt_tokenHash <$> db_resetTokens db →
  let o := post_password_forgot db ms env now token newId login in
  f_result o = Ok ()
  ∧ (is_Some (f_mail o)
     ↔ trim login ≠ "" ∧ mailConfigured ms env = true
       ∧ ∃ u, reset_resolve db login = Some u ∧ user_email u ≠ "")
  ∧ (f_mail o = None → f_db o = db)
  ∧ (∀ addr tok, f_mail o = Some (addr, tok) →
       tok = token
       ∧ ∃ u, reset_resolve db login = Some u ∧ user_email u = addr
              ∧ f_db o
                = mkDb (db_users db) (db_boards db) (db_memberships db) (db_cards db)
                       (db_participants db) (db_trustedDevices db)
                       (db_resetTokens db
                        ++ [mkResetToken newId (user_id u) (sha256Hex token)
                                         (now + 60 * 60 * 1000) None])
                       (db_sessions db))
  ∧ (is_Some (getMailConfig ms env) → mailConfigured ms env = true)
  ∧ (∀ rec, ms = Some rec → ms_enabled rec = false →
       truthy (SMTP_HOST env) ≠ None → truthy (SMTP_USER env) ≠ None →
       truthy (SMTP_PASS env) ≠ None →
       mailConfigured ms env = true ∧ getMailConfig ms env = None).
Proof.
  intros Hlen Hid Hhash o.
  split_and!; [| | | |apply getMailConfig_mailConfigured|].
  - unfold o, post_password_forgot. rewrite bool_decide_eq_true_2 by done. simpl.
    destruct (decide (trim login = "")); [done|].
    destruct (reset_resolve db login) as [u|]; [|done].
    destruct (decide (user_email u = "")); [done|].
    destruct (mailConfigured ms env); [|done]. simpl.
    rewrite decide_False; [done|]. by intros [?|?].
  - unfold o, post_password_forgot. rewrite bool_decide_eq_true_2 by done. simpl.
    destruct (decide (trim login = "")) as [Ht|Ht].
    { simpl. split; [by intros [? ?]|]. by intros [? _]. }
    destruct (reset_resolve db login) as [u|].
    2:{ simpl. split; [by intros [? ?]|]. by intros (_ & _ & u & ? & _). }
    destruct (decide (user_email u = "")) as [He|He].
    { simpl. split; [by intros [? ?]|]. intros (_ & _ & u' & [= <-] & ?). done. }
    destruct (mailConfigured ms env).
    2:{ simpl. split; [by intros [? ?]|]. by intros (_ & ? & _). }
    simpl. rewrite decide_False by (by intros [?|?]). simpl.
    split; [|by eexists]. intros _. split_and!; [done..|]. by exists u.
  - unfold o, post_password_forgot. rewrite bool_decide_eq_true_2 by done. simpl.
    destruct (decide (trim login = "")); [done|].
    destruct (reset_resolve db login) as [u|]; [|done].
    destruct (decide (user_email u = "")); [done|].
    destruct (mailConfigured ms env); [|done]. simpl.
    by rewrite decide_False by (by intros [?|?]).
  - intros addr tok Hmail.
    apply post_password_forgot_mail in Hmail as (u & Hu & He & -> & _ & Hdb).
    split; [done|]. exists u. split_and!; [done..|].
    unfold o. rewrite Hdb. unfold set_resetTokens.
    by replace (now + 1000 * 60 * 60) with (now + 60 * 60 * 1000) by lia.
  - intros rec -> Hoff Hh Hu Hp. unfold mailConfigured, getMailConfig. rewrite Hoff. simpl.
    by rewrite !bool_decide_eq_true_2.
Qed.

Lemma forgot_never_tells_witness :
  let env := mkMailEnv (Some "smtp.example.org") 587 (Some "mailer") (Some "secret") None false in
  let known := post_password_forgot (H := test_platform) login_db None env 0
                 "fresh-reset-token-0123456789" "r1" "ann@example.org" in
  let unknown := post_password_forgot (H := test_platform) login_db None env 0
                   "fresh-reset-token-0123456789" "r1" "zoe@example.org" in
  f_result known = Ok () ∧ f_result unknown = Ok ()
  ∧ f_mail known = Some ("ann@example.org", "fresh-reset-token-0123456789")
  ∧ length (db_resetTokens (f_db known)) = S (length (db_resetTokens login_db))
  ∧ f_mail unknown = None ∧ f_db unknown = login_db.
Proof.
  set (env := mkMailEnv (Some "smtp.example.org") 587 (Some "mailer") (Some "secret") None false).
  assert ("r1" ∉ prt_id <$> db_resetTokens login_db) as Hid
    by (apply (bool_decide_unpack _); vm_compute; exact I).
  assert (sha256Hex (Platform := test_platform) "fresh-reset-token-0123456789"
          ∉ prt_tokenHash <$> db_resetTokens login_db) as Hhash
    by (apply (bool_decide_unpack _); vm_compute; exact I).
  destruct (forgot_never_tells (H := test_platform) login_db None env 0
              "fresh-reset-token-0123456789" "r1" "ann@example.org")
    as (H1 & _ & _ & Hstored & _);
    [simpl; lia|exact Hid|exact Hhash|].
  destruct (forgot_never_tells (H := test_platform) login_db None env 0
              "fresh-reset-token-0123456789" "r1" "zoe@example.org") as (H2 & _ & H3 & _);
    [simpl; lia|exact Hid|exact Hhash|].
  destruct (Hstored "ann@example.org" "fresh-reset-token-0123456789" eq_refl)
    as (_ & u & _ & _ & Hdb).
  split_and!; [exact H1|exact H2|reflexivity| |reflexivity|apply H3; reflexivity].
  rewrite Hdb. reflexivity.
Defined.

(** X12: a reset link is good for one hour.  When the request for a link
    has mailed a token, the token sets a new password for the user the mail
    went to at any time before one hour has passed, and clears the
    must-change-password flag; from one hour on it is refused with 400
    "Invalid or expired token" and the store stays as it is. *)
Theorem reset_link_lifetime `{Platform} (db : Db) (ms : option MailSettings) (env : MailEnv)
    (now : Z) (token newId login addr : string) (t : Z) (pw : string) :
  users_wf db →
  let o := post_password_forgot db ms env now token newId login in
  f_mail o = Some (addr, token) →
  (20 ≤ String.length token)%nat → (8 ≤ String.length pw)%nat →
  ∃ u, reset_resolve db login = Some u ∧ user_email u = addr
       ∧ (t < now + 60 * 60 * 1000 →
          ∃ db2, post_password_reset (f_db o) t (mkResetBody token pw) = (Ok (), db2)
                 ∧ findUnique_user db2 (user_id u)
                   = Some (with_password (hashPassword pw) false u))
       ∧ (now + 60 * 60 * 1000 ≤ t →
          post_password_reset (f_db o) t (mkResetBody token pw)
          = (Throw (HttpError 400 "Invalid or expired token"), f_db o)).
Proof.
  intros Hwf o Hmail Htok Hpw.
  apply post_password_forgot_mail in Hmail as (u & Hres & Haddr & _ & Hfresh & Hdb).
  fold o in Hdb. exists u. split_and!; [done..| |].
  - intros Hlt. unfold post_password_reset, ResetPasswordSchema. simpl.
    rewrite !bool_decide_eq_true_2 by done. simpl. rewrite Hdb.
    cbn [db_resetTokens set_resetTokens].
    set (new := mkResetToken newId (user_id u) (sha256Hex token) (now + 1000 * 60 * 60) None).
    assert (list_find (λ r, prt_tokenHash r = sha256Hex token ∧ t < prt_expiresAt r
                            ∧ prt_usedAt r = None) (db_resetTokens db ++ [new])
            = Some (length (db_resetTokens db), new)) as ->.
    { apply list_find_Some. split; [|split].
      - by rewrite lookup_app_r, Nat.sub_diag by done.
      - simpl. split_and!; [done|lia|done].
      - intros j y Hj Hlt' (Hy & _). rewrite lookup_app_l in Hj by done.
        destruct Hfresh. apply list_elem_of_fmap. exists y. split; [done|].
        by eapply list_elem_of_lookup_2. }
    pose proof (reset_resolve_elem _ _ _ Hres) as Hu.
    assert (findUnique_user db (user_id u) = Some u) as Hfind by (by apply findUnique_user_elem).
    cbn [prt_userId prt_id new].
    destruct (user_update (user_id u) (with_password (hashPassword pw) false)
                (set_resetTokens (db_resetTokens db ++ [new]) db)) as [db1|] eqn:Hup.
    2:{ unfold user_update in Hup. cbn [db_users set_resetTokens] in Hup.
        rewrite decide_True in Hup; [done|]. by apply list_elem_of_fmap_2. }
    eexists. split; [done|].
    unfold findUnique_user, delete_user_sessions, mark_used.
    cbn [db_users set_sessions set_resetTokens].
    apply (findUnique_user_update _ db1 (user_id u) (with_password (hashPassword pw) false) u)
      in Hup; [exact Hup|done|].
    unfold findUnique_user. cbn [db_users set_resetTokens]. exact Hfind.
  - intros Hge. unfold post_password_reset, ResetPasswordSchema. simpl.
    rewrite !bool_decide_eq_true_2 by done. simpl. rewrite Hdb.
    cbn [db_resetTokens set_resetTokens].
    destruct (list_find _ _) as [[i r]|] eqn:E; [|done].
    apply list_find_Some in E as (Hi & (H1 & H2 & _) & _).
    apply list_elem_of_lookup_2, elem_of_app in Hi as [Hi|Hi].
    + destruct Hfresh. apply list_elem_of_fmap. by exists r.
    + apply list_elem_of_singleton in Hi as ->. simpl in H2. lia.
Qed.

Lemma reset_link_lifetime_witness :
  let env := mkMailEnv (Some "smtp.example.org") 587 (Some "mailer") (Some "secret") None false in
  let token := "fresh-reset-token-0123456789" in
  let o := post_password_forgot (H := test_platform) login_db None env 0 token "r1"
                                "ann@example.org" in
  users_wf login_db
  ∧ f_mail o = Some ("ann@example.org", token)
  ∧ (∃ db2, post_password_reset (H := test_platform) (f_db o) 3599999
                                (mkResetBody token "new-password") = (Ok (), db2)
            ∧ findUnique_user db2 "u3" = Some (with_password "new-password" false ann_2fa))
  ∧ post_password_reset (H := test_platform) (f_db o) 3600000 (mkResetBody token "new-password")
    = (Throw (HttpError 400 "Invalid or expired token"), f_db o).
Proof.
  set (env := mkMailEnv (Some "smtp.example.org") 587 (Some "mailer") (Some "secret") None false).
  set (token := "fresh-reset-token-0123456789").
  assert (users_wf login_db) as Hwf
    by (unfold users_wf; apply (bool_decide_unpack _); vm_compute; exact I).
  assert (f_mail (post_password_forgot (H := test_platform) login_db None env 0 token "r1"
                                       "ann@example.org") = Some ("ann@example.org", token))
    as Hmail by (vm_compute; reflexivity).
  assert (20 ≤ String.length token)%nat as Htok by (simpl; lia).
  assert (8 ≤ String.length "new-password")%nat as Hpw by (simpl; lia).
  split_and!; [exact Hwf|exact Hmail| |].
  - destruct (reset_link_lifetime (H := test_platform) login_db None env 0 token "r1"
                "ann@example.org" "ann@example.org" 3599999 "new-password" Hwf Hmail Htok Hpw)
      as (u & Hu & _ & Hbefore & _).
    vm_compute in Hu. injection Hu as <-. apply Hbefore. lia.
  - destruct (reset_link_lifetime (H := test_platform) login_db None env 0 token "r1"
                "ann@example.org" "ann@example.org" 3600000 "new-password" Hwf Hmail Htok Hpw)
      as (u & _ & _ & _ & Hafter).
    apply Hafter. lia.
Defined.

(* ================================================================== *)
(** * Enrolling in and passing the second factor                        *)
(* ================================================================== *)

Lemma login_resolve_elem `{Platform} db login u :
  login_resolve db login = Ok (Some u) → u ∈ db_users db.
Proof.
  assert (∀ email, findFirst_user_by_email db email = Some u → u ∈ db_users db) as Hmail.
  { intros email. unfold findFirst_user_by_email.
    destruct (list_find _ (db_users db)) as [[i x]|] eqn:E; [|done].
    intros [= <-]. apply list_find_Some in E as (Hi & _). by eapply list_elem_of_lookup_2. }
  unfold login_resolve. case_decide; [intros [= Hu]; by eapply Hmail|].
  destruct (includesAt _); [intros [= Hu]; by eapply Hmail|].
  unfold findMany_users_by_name.
  destruct (take 2 _) as [|x [|y l]] eqn:E; [done| |done].
  intros [= <-].
  assert (x ∈ take 2 (filter (λ u, equalsInsensitive (user_name u) (trim login) = true)
                             (db_users db))) as Hx by (rewrite E; left).
  apply elem_of_take in Hx as (i & Hx & _). apply list_elem_of_lookup_2 in Hx.
  by apply list_elem_of_filter in Hx as [_ ?].
Qed.

Lemma with_totp_twice e1 s1 t1 e2 s2 t2 u :
  with_totp e1 s1 t1 (with_totp e2 s2 t2 u) = with_totp e1 s1 t1 u.
Proof. done. Qed.

Lemma user_update_wf id f db db' :
  (∀ u, user_id (f u) = user_id u) →
  user_update id f db = Some db' → users_wf db → users_wf db'.
Proof.
  intros Hf. unfold user_update. case_decide; [|done]. intros [= <-] Hwf.
  unfold users_wf in *. cbn [db_users set_users]. rewrite <- list_fmap_compose.
  erewrite list_fmap_ext; [exact Hwf|]. intros _ u _. simpl. by case_decide.
Qed.

(** The two steps of the enrollment, when the second one succeeds. *)
Lemma enrollment_Ok `{Platform} db sess secret code :
  secret ≠ "" →
  let o1 := post_2fa_setup db sess secret in
  let o2 := post_2fa_enable (a_db o1) (a_session o1) code in
  a_result o2 = Ok () →
  ∃ u db1 db2,
    getAuthUser db sess = Some u
    ∧ user_update (user_id u)
        (λ u, with_totp (user_totpEnabled u) (user_totpSecret u) (Some secret) u) db = Some db1
    ∧ user_update (user_id u) (with_totp true (Some secret) None) db1 = Some db2
    ∧ verifyTotp code secret = true
    ∧ a_db o2 = db2
    ∧ a_session o2 = mkSession (sess_user sess) true (sess_boardId sess)
    ∧ getAuthUser db2 (a_session o2) = Some (with_totp true (Some secret) None u).
Proof.
  intros Hsecret o1 o2. unfold o2, o1. clear o1 o2.
  unfold post_2fa_setup, requireLogin.
  destruct (getAuthUser db sess) as [u|] eqn:Hu.
  2:{ cbn [auth_throw a_db a_session]. unfold post_2fa_enable, requireLogin. by rewrite Hu. }
  destruct (getAuthUser_Some _ _ _ Hu) as (userId & Hs & Hne & Hf).
  pose proof (findUnique_user_Some _ _ _ Hf) as [_ Hid]. subst userId. rewrite Hf.
  set (f1 := λ u0, with_totp (user_totpEnabled u0) (user_totpSecret u0) (Some secret) u0).
  destruct (user_update (user_id u) f1 db) as [db1|] eqn:Hup1.
  2:{ destruct (user_update_is_Some db (user_id u) f1 u Hf) as [? Hsome]. congruence. }
  cbn [a_db a_session].
  pose proof (findUnique_user_update db db1 (user_id u) f1 u (λ _, eq_refl) Hup1 Hf) as Hf1.
  assert (getAuthUser db1 sess = Some (f1 u)) as Hu1.
  { unfold getAuthUser. rewrite Hs. simpl. by rewrite decide_False. }
  unfold post_2fa_enable, requireLogin. rewrite Hu1.
  destruct (CodeSchema code); [|done]. cbn [negb]. change (user_id (f1 u)) with (user_id u).
  rewrite Hf1. cbn [f1 with_totp user_totpTempSecret truthy]. rewrite decide_False by done.
  destruct (verifyTotp code secret) eqn:Hcode; [|done]. cbn [negb].
  change (user_id (f1 u)) with (user_id u).
  destruct (user_update (user_id u) (with_totp true (Some secret) None) db1) as [db2|] eqn:Hup2;
    [|by simpl].
  cbn [a_result a_db a_session]. intros _.
  exists u, db1, db2. split_and!; [done..|].
  unfold getAuthUser. cbn [sess_user]. rewrite Hs. simpl. rewrite decide_False by done.
  rewrite (findUnique_user_update db1 db2 (user_id u) (with_totp true (Some secret) None) (f1 u)
             (λ _, eq_refl) Hup2 Hf1).
  done.
Qed.

(** X13: enrollment makes the second factor mandatory.  When the code
    sent to POST /auth/2fa/enable is accepted after POST /auth/2fa/setup, the
    code is one for the secret the setup drew, that secret is the confirmed
    secret of the user, the session passes the two-factor check of the gate,
    and from then on the password of the user alone, without a code and
    without the cookie of a trusted device, signs nobody in as that user. *)
Theorem enrollment_enforces_second_factor `{Platform} (db : Db) (sess : Session)
    (secret code : string) :
  users_wf db → secret ≠ "" →
  let o1 := post_2fa_setup db sess secret in
  let o2 := post_2fa_enable (a_db o1) (a_session o1) code in
  a_result o2 = Ok () →
  ∃ u, getAuthUser db sess = Some u
       ∧ verifyTotp code secret = true
       ∧ getAuthUser (a_db o2) (a_session o2) = Some (with_totp true (Some secret) None u)
       ∧ requireTwoFactor (getAuthUser (a_db o2) (a_session o2)) (a_session o2) = Ok ()
       ∧ ∀ sess' env body u',
           login_resolve (a_db o2) (lb_login body) = Ok (Some u') →
           user_id u' = user_id u →
           truthy (lb_totp body) = None → truthy (le_trustCookie env) = None →
           ∀ r, a_result (post_login (a_db o2) sess' env body) ≠ Ok r.
Proof.
  intros Hwf Hsecret o1 o2 Hok.
  destruct (enrollment_Ok db sess secret code Hsecret Hok)
    as (u & db1 & db2 & Hu & Hup1 & Hup2 & Hcode & Hdb2 & Hsess & Hu2).
  fold o1 o2 in Hdb2, Hsess, Hu2. rewrite Hdb2.
  exists u. split_and!; [done..| |].
  - rewrite Hu2, Hsess. done.
  - intros sess' env body u' Hres Hid Htotp Hcookie r.
    assert (users_wf db2) as Hwf2.
    { eapply user_update_wf; [|exact Hup2|]; [done|].
      eapply user_update_wf; [|exact Hup1|]; done. }
    assert (u' = with_totp true (Some secret) None u) as ->.
    { destruct (getAuthUser_Some _ _ _ Hu2) as (userId & _ & _ & Hf).
      apply findUnique_user_Some in Hf as [Hin Hid2].
      eapply (users_wf_unique db2); [done|by eapply login_resolve_elem|done|].
      by rewrite Hid. }
    unfold post_login. destruct (LoginSchema body); [|done]. simpl.
    rewrite Hres. destruct (verifyPassword _ _); [|done]. simpl.
    rewrite decide_False by done. by rewrite Htotp, Hcookie.
Qed.

Lemma enrollment_enforces_second_factor_witness :
  let db := login_db in
  let sess := mkSession (Some "u1") false (Some DEFAULT_BOARD_ID) in
  let o1 := post_2fa_setup db sess "kim-totp" in
  let o2 := post_2fa_enable (H := test_platform) (a_db o1) (a_session o1) "kim-totp" in
  users_wf db ∧ a_result o2 = Ok ()
  ∧ requireTwoFactor (getAuthUser (a_db o2) (a_session o2)) (a_session o2) = Ok ()
  ∧ a_result (post_login (H := test_platform) (a_db o2) empty_session login_env0
                         (mkLoginBody "kim@example.org" "kim-password-1" None None))
    = Throw (HttpError 401 "Two-factor required").
Proof.
  assert (users_wf login_db) as Hwf
    by (unfold users_wf; apply (bool_decide_unpack _); vm_compute; exact I).
  assert ("kim-totp" ≠ "") as Hsecret by discriminate.
  set (sess := mkSession (Some "u1") false (Some DEFAULT_BOARD_ID)).
  assert (a_result (post_2fa_enable (H := test_platform)
                      (a_db (post_2fa_setup login_db sess "kim-totp"))
                      (a_session (post_2fa_setup login_db sess "kim-totp")) "kim-totp")
          = Ok ()) as Hok by (vm_compute; reflexivity).
  destruct (enrollment_enforces_second_factor (H := test_platform) login_db sess
              "kim-totp" "kim-totp" Hwf Hsecret Hok) as (u & _ & _ & _ & Hgate & _).
  split_and!; [exact Hwf|exact Hok|exact Hgate|vm_compute; reflexivity].
Defined.

Lemma getAuthUser_findUnique db sess u :
  getAuthUser db sess = Some u → findUnique_user db (user_id u) = Some u.
Proof.
  intros (userId & _ & _ & Hf)%getAuthUser_Some.
  pose proof (findUnique_user_Some _ _ _ Hf) as [_ Hid]. by rewrite Hid.
Qed.

Lemma getAuthUser_users db db' sess :
  db_users db' = db_users db → getAuthUser db' sess = getAuthUser db sess.
Proof. intros Hu. unfold getAuthUser, findUnique_user. by rewrite Hu. Qed.

(** X14: no code, no pass.  POST /auth/2fa/verify marks a session as
    two-factor-passed only when the code verifies against the confirmed
    secret of the enrolled user of the session, whatever the rest of the
    request and whatever the answer; it never changes the user or the board
    of the session.  When it answers ok the session passes the two-factor
    check of the gate, and a device it was asked to remember is trusted for
    that user for thirty days. *)
Theorem second_factor_needs_code `{Platform} (db : Db) (sess : Session) (env : LoginEnv)
    (body : Verify2FABody) :
  let o := post_2fa_verify db sess env body in
  (sess_twoFactorPassed (a_session o) = true →
   sess_twoFactorPassed sess = true
   ∨ ∃ u secret, getAuthUser db sess = Some u ∧ user_totpEnabled u = true
                 ∧ user_totpSecret u = Some secret
                 ∧ verifyTotp (vb_code body) secret = true)
  ∧ sess_user (a_session o) = sess_user sess
  ∧ sess_boardId (a_session o) = sess_boardId sess
  ∧ (a_result o = Ok () →
     requireTwoFactor (getAuthUser (a_db o) (a_session o)) (a_session o) = Ok ()
     ∧ (vb_rememberDevice body = Some true →
        a_trustCookie o = Some (le_newToken env)
        ∧ ∃ u, getAuthUser db sess = Some u
               ∧ ∀ t, (verifyTrustedDeviceToken (a_db o) (user_id u) (le_newToken env) t).1 = true
                      ↔ t < le_now env + 30 * 24 * 60 * 60 * 1000)).
Proof.
  intros o. unfold o, post_2fa_verify, requireLogin. clear o.
  destruct (getAuthUser db sess) as [user|] eqn:Huser; [|by split_and!; auto].
  destruct (CodeSchema (vb_code body)); [|by split_and!; auto]. cbn [negb].
  rewrite (getAuthUser_findUnique _ _ _ Huser).
  destruct (user_totpEnabled user) eqn:Hen; [|by split_and!; auto]. cbn [negb].
  destruct (user_totpSecret user) as [secret0|] eqn:Hsec0; [|by split_and!; auto].
  simpl truthy. case_decide as Hsecret; [by split_and!; auto|].
  destruct (verifyTotp (vb_code body) secret0) eqn:Hcode; [|by split_and!; auto]. cbn [negb].
  assert (∃ u secret, Some user = Some u ∧ user_totpEnabled u = true
                      ∧ user_totpSecret u = Some secret
                      ∧ verifyTotp (vb_code body) secret = true) as Hwhy
    by (by exists user, secret0).
  assert (∀ db', db_users db' = db_users db →
            requireTwoFactor (getAuthUser db' (mkSession (sess_user sess) true (sess_boardId sess)))
                             (mkSession (sess_user sess) true (sess_boardId sess)) = Ok ())
    as Hgate.
  { intros db' Hu. rewrite (getAuthUser_users db db') by done.
    assert (getAuthUser db (mkSession (sess_user sess) true (sess_boardId sess)) = Some user) as ->
      by exact Huser.
    simpl. by rewrite Hen. }
  destruct (vb_rememberDevice body) as [[|]|]; cbn [default].
  - destruct (issueTrustedDevice db (user_id user) (le_newToken env) (le_newDeviceId env)
                                 (le_now env)) as [db'|] eqn:Hiss;
      cbn [a_result a_db a_session a_trustCookie]; split_and!; auto; [|done].
    intros _. pose proof (issueTrustedDevice_Some _ _ _ _ _ _ Hiss) as [_ Hdb'].
    split; [apply Hgate; by rewrite Hdb'|]. intros _. split; [done|].
    exists user. split; [done|]. intros t. rewrite verifyTrustedDeviceToken_iff. split.
    + intros (e & He & Hlt). apply (issued_grants _ _ _ _ _ _ _ _ Hiss) in He as [_ ->]. done.
    + intros Hlt. eexists. split; [|exact Hlt]. by apply (issued_grants _ _ _ _ _ _ _ _ Hiss).
  - cbn [a_result a_db a_session a_trustCookie]; split_and!; auto.
    intros _. split; [by apply Hgate|done].
  - cbn [a_result a_db a_session a_trustCookie]; split_and!; auto.
    intros _. split; [by apply Hgate|done].
Qed.

Lemma second_factor_needs_code_witness :
  let sess := mkSession (Some "u3") false (Some DEFAULT_BOARD_ID) in
  let env := mkLoginEnv None 5 "token-1" "d1" in
  let right := post_2fa_verify (H := test_platform) login_db sess env
                 (mkVerifyBody "ann-totp" (Some true)) in
  let wrong := post_2fa_verify (H := test_platform) login_db sess env
                 (mkVerifyBody "000000" (Some true)) in
  a_result right = Ok ()
  ∧ requireTwoFactor (getAuthUser (a_db right) (a_session right)) (a_session right) = Ok ()
  ∧ a_trustCookie right = Some "token-1"
  ∧ a_result wrong = Throw (HttpError 400 "Invalid code")
  ∧ sess_twoFactorPassed (a_session wrong) = false.
Proof.
  set (sess := mkSession (Some "u3") false (Some DEFAULT_BOARD_ID)).
  set (env := mkLoginEnv None 5 "token-1" "d1").
  destruct (second_factor_needs_code (H := test_platform) login_db sess env
              (mkVerifyBody "ann-totp" (Some true))) as (_ & _ & _ & Hok).
  assert (a_result (post_2fa_verify (H := test_platform) login_db sess env
                      (mkVerifyBody "ann-totp" (Some true))) = Ok ()) as Hres
    by (vm_compute; reflexivity).
  destruct (Hok Hres) as [Hgate Hrem]. destruct (Hrem eq_refl) as [Hcookie _].
  split_and!; [exact Hres|exact Hgate|exact Hcookie|reflexivity|reflexivity].
Defined.

(** X15: until they enrol, a signed-in user reaches no board and no card.
    A login of a user who has not enabled two-factor authentication
    succeeds with the session not two-factor-passed; the gate of the board
    and card endpoints and the gate of the admin endpoints refuse that
    session with 403 "2FA setup required", and the client shows the
    change-password or the two-factor setup view. *)
Theorem unenrolled_login_reaches_no_card `{Platform} (db : Db) (sess : Session) (env : LoginEnv)
    (body : LoginBody) (r : LoginResponse) :
  users_wf db →
  a_result (post_login db sess env body) = Ok r →
  user_totpEnabled (resp_user r) = false →
  user_id (resp_user r) ≠ "" →
  let o := post_login db sess env body in
  resp_twoFactorPassed r = false
  ∧ card_gate (a_db o) (a_session o) = Throw (HttpError 403 "2FA setup required")
  ∧ admin_gate (a_db o) (a_session o) = Throw (HttpError 403 "2FA setup required")
  ∧ App_view (Some (get_me (a_db o) (a_session o))) None
    = (if user_mustChangePassword (resp_user r) then ChangePasswordView else TwoFaSetupView).
Proof.
  intros Hwf Hok Hen Hid o.
  assert (∃ u, login_resolve db (lb_login body) = Ok (Some u)
               ∧ o = login_success db u None ∧ r = mkLoginResponse u false (login_board db u)
               ∧ user_totpEnabled u = false) as (u & Hres & Ho & Hr & Hu).
  { revert Hok. unfold o, post_login.
    destruct (LoginSchema body); [|done]. simpl.
    destruct (login_resolve db (lb_login body)) as [[u|]|]; [|done..].
    destruct (verifyPassword _ _); [|done]. simpl.
    destruct (user_totpEnabled u) eqn:Hu.
    - destruct (truthy (user_totpSecret u)); [|done].
      destruct (truthy (lb_totp body)).
      + destruct (verifyTotp _ _); [|done]. simpl.
        destruct (default false (lb_rememberDevice body)).
        * destruct (issueTrustedDevice _ _ _ _ _); [|done].
          unfold login_success. simpl. intros [= <-]. simpl in Hen. congruence.
        * unfold login_success. simpl. intros [= <-]. simpl in Hen. congruence.
      + destruct (truthy (le_trustCookie env)); [|done].
        destruct (verifyTrustedDeviceToken _ _ _ _) as [[|] db'']; [|done].
        unfold login_success. simpl. intros [= <-]. simpl in Hen. congruence.
    - unfold login_success. simpl. rewrite Hu. intros [= <-]. exists u. by rewrite Hu. }
  rewrite Ho, Hr in *. cbn [resp_user resp_twoFactorPassed] in *.
  unfold login_success. cbn [a_db a_session]. rewrite Hu.
  assert (findUnique_user db (user_id u) = Some u) as Hfind.
  { apply findUnique_user_elem; [done| |done]. by eapply login_resolve_elem. }
  split_and!; [done| | |].
  - unfold card_gate, requireLogin, getAuthUser. simpl. rewrite decide_False by done.
    rewrite Hfind. simpl. by rewrite Hu.
  - unfold admin_gate, requireLogin, getAuthUser. simpl. rewrite decide_False by done.
    rewrite Hfind. simpl. by rewrite Hu.
  - unfold App_view, get_me. simpl. rewrite decide_False by done. simpl.
    rewrite Hfind, Hu. by destruct (user_mustChangePassword u).
Qed.

Lemma unenrolled_login_reaches_no_card_witness :
  let body := mkLoginBody "kim@example.org" "kim-password-1" None None in
  let o := post_login (H := test_platform) login_db empty_session login_env0 body in
  let kim := member "u1" "kim@example.org" "Kim" "kim-password-1" in
  users_wf login_db
  ∧ a_result o = Ok (mkLoginResponse kim false (Some DEFAULT_BOARD_ID))
  ∧ card_gate (a_db o) (a_session o) = Throw (HttpError 403 "2FA setup required")
  ∧ App_view (Some (get_me (a_db o) (a_session o))) None = TwoFaSetupView.
Proof.
  assert (users_wf login_db) as Hwf
    by (unfold users_wf; apply (bool_decide_unpack _); vm_compute; exact I).
  set (body := mkLoginBody "kim@example.org" "kim-password-1" None None).
  set (kim := member "u1" "kim@example.org" "Kim" "kim-password-1").
  assert (a_result (post_login (H := test_platform) login_db empty_session login_env0 body)
          = Ok (mkLoginResponse kim false (Some DEFAULT_BOARD_ID))) as Hok
    by (vm_compute; reflexivity).
  destruct (unenrolled_login_reaches_no_card (H := test_platform) login_db empty_session
              login_env0 body _ Hwf Hok eq_refl) as (_ & Hgate & _ & Hview);
    [vm_compute; discriminate|].
  split_and!; [exact Hwf|exact Hok|exact Hgate|exact Hview].
Defined.

(* ================================================================== *)
(** * Members and their boards                                          *)
(* ================================================================== *)

Lemma user_update_memberships id f db db' :
  user_update id f db = Some db' → db_memberships db' = db_memberships db.
Proof. unfold user_update. case_decide; [|done]. by intros [= <-]. Qed.

Lemma elem_of_upsert_memberships id (boardIds : list string) (ms : list BoardMembership) m :
  m ∈ upsert_memberships id boardIds ms
  ↔ m ∈ ms ∨ ∃ b, b ∈ boardIds ∧ m = mkMembership b id.
Proof.
  unfold upsert_memberships. revert ms.
  induction boardIds as [|b bs IH]; intros ms; simpl.
  - split; [by left|]. intros [?|(b & Hb & _)]; [done|]. by apply elem_of_nil in Hb.
  - rewrite IH. case_decide as Hin.
    + split.
      * intros [?|(b' & Hb' & ->)]; [by left|]. right. exists b'. split; [by right|done].
      * intros [?|(b' & [->|Hb']%elem_of_cons & ->)]; [by left|by left|].
        right. by exists b'.
    + rewrite elem_of_app, list_elem_of_singleton. split.
      * intros [[?| ->]|(b' & Hb' & ->)]; [by left| |].
        -- right. exists b. split; [by left|done].
        -- right. exists b'. split; [by right|done].
      * intros [?|(b' & [->|Hb']%elem_of_cons & ->)]; [by left; left|by left; right|].
        right. by exists b'.
Qed.

(** What a successful PUT /auth/users/:id/boards writes. *)
Lemma put_user_boards_Ok `{Platform} db id body db' :
  put_user_boards db id body = (Ok (), db') →
  ∃ u, findUnique_user db id = Some u
       ∧ user_role u = MEMBER
       ∧ sb_boardIds body ≠ []
       ∧ sb_defaultBoardId body ∈ sb_boardIds body
       ∧ db_users db' = upd id (with_defaultBoardId (Some (sb_defaultBoardId body))) <$> db_users db
       ∧ db_memberships db'
         = upsert_memberships id (sb_boardIds body)
             (filter (λ m, bm_userId m ≠ id ∨ bm_boardId m ∈ sb_boardIds body)
                     (db_memberships db)).
Proof.
  unfold put_user_boards. destruct (isUuid id); [|done]. simpl.
  destruct (findUnique_user db id) as [u|] eqn:Hu; [|done].
  destruct (bool_decide (user_role u = ADMIN)) eqn:Hrole; [done|]. simpl.
  destruct (user_isSystem u); [done|].
  destruct (SetUserBoardsSchema body) eqn:Hs; [|done]. simpl.
  destruct (bool_decide (sb_defaultBoardId body ∈ sb_boardIds body)) eqn:Hdef; simpl; [|done].
  apply bool_decide_eq_true in Hdef.
  destruct (forallb _ _); simpl; [|done].
  destruct (user_update _ _ db) as [db1|] eqn:Hup; [|done]. intros [= <-].
  exists u. apply bool_decide_eq_false in Hrole.
  pose proof (user_update_memberships _ _ _ _ Hup) as Hms.
  apply user_update_users in Hup.
  split_and!; [done|by destruct (user_role u)| |done|done|by rewrite Hms].
  intros Hnil. rewrite Hnil in Hdef. by apply elem_of_nil in Hdef.
Qed.

(** X16: PUT /auth/users/:id/boards replaces the boards of a member.  When
    the request succeeds the boards the member belongs to are exactly the
    boards of the list, the default board of the member is the requested
    one and is among them, and the memberships of every other user are as
    they were. *)
Theorem put_user_boards_exact `{Platform} (db : Db) (id : string) (body : SetUserBoardsBody)
    (db' : Db) :
  put_user_boards db id body = (Ok (), db') →
  (∀ b, mkMembership b id ∈ db_memberships db' ↔ b ∈ sb_boardIds body)
  ∧ (∀ m, bm_userId m ≠ id → m ∈ db_memberships db' ↔ m ∈ db_memberships db)
  ∧ has_membership db' (sb_defaultBoardId body) id = true
  ∧ ∃ u, findUnique_user db id = Some u
         ∧ findUnique_user db' id
           = Some (with_defaultBoardId (Some (sb_defaultBoardId body)) u).
Proof.
  intros Hok. pose proof Hok as Hok'.
  apply put_user_boards_Ok in Hok as (u & Hu & _ & _ & Hdef & Hus & Hms).
  assert (∀ b, mkMembership b id ∈ db_memberships db' ↔ b ∈ sb_boardIds body) as Hmine.
  { intros b. rewrite Hms, elem_of_upsert_memberships, list_elem_of_filter. simpl. split.
    - intros [[[?|?] _]|(b' & Hb' & [= ->])]; done.
    - intros Hb. right. by exists b. }
  split_and!; [done| | |].
  - intros m Hm. rewrite Hms, elem_of_upsert_memberships, list_elem_of_filter. split.
    + intros [[_ ?]|(b & _ & ->)]; done.
    + intros ?. left. split; [by left|done].
  - unfold has_membership. apply bool_decide_eq_true. by apply Hmine.
  - exists u. split; [done|].
    unfold findUnique_user in *. rewrite Hus.
    change (upd id ?f) with (λ u0, if decide (user_id u0 = id) then f u0 else u0).
    rewrite findUnique_user_map by (intros x; by case_decide).
    rewrite Hu. simpl. apply findUnique_user_Some in Hu as [_ Hid].
    by rewrite decide_True.
Qed.

Lemma put_user_boards_exact_witness :
  let db := set_memberships [mkMembership DEFAULT_BOARD_ID "u0"; mkMembership "b2" "u0"]
              (set_users [admin_2fa; member "u1" "kim@example.org" "Kim" "kim-password-1"]
                         two_boards_db) in
  let body := mkSetBoardsBody ["b2"] "b2" in
  let db' := (put_user_boards (H := test_platform) db "u1" body).2 in
  put_user_boards (H := test_platform) db "u1" body = (Ok (), db')
  ∧ (∀ b, mkMembership b "u1" ∈ db_memberships db' ↔ b ∈ ["b2"])
  ∧ has_membership db' "b2" "u1" = true.
Proof.
  set (db := set_memberships [mkMembership DEFAULT_BOARD_ID "u0"; mkMembership "b2" "u0"]
               (set_users [admin_2fa; member "u1" "kim@example.org" "Kim" "kim-password-1"]
                          two_boards_db)).
  set (body := mkSetBoardsBody ["b2"] "b2").
  assert (put_user_boards (H := test_platform) db "u1" body
          = (Ok (), (put_user_boards (H := test_platform) db "u1" body).2)) as Hok
    by (vm_compute; reflexivity).
  destruct (put_user_boards_exact (H := test_platform) db "u1" body _ Hok) as (H1 & _ & H3 & _).
  split_and!; [exact Hok|exact H1|exact H3].
Defined.

(** ** No member without a board *)

(** An update of user rows that keeps ids and roles, with no membership
    lost, keeps the invariant. *)
Lemma members_have_board_upd db db' id f :
  (∀ u, user_id (f u) = user_id u ∧ user_role (f u) = user_role u) →
  db_users db' = upd id f <$> db_users db →
  db_memberships db ⊆ db_memberships db' →
  members_have_board db → members_have_board db'.
Proof.
  intros Hf Hus Hms Hinv u' Hu' Hrole. rewrite Hus in Hu'.
  apply list_elem_of_fmap in Hu' as (u & -> & Hu).
  assert (user_id (upd id f u) = user_id u ∧ user_role (upd id f u) = user_role u) as [Hid Hr].
  { unfold upd. case_decide; [apply Hf|done]. }
  rewrite Hid. rewrite Hr in Hrole.
  destruct (Hinv u Hu Hrole) as (m & Hm & Hmu). exists m. split; [by apply Hms|done].
Qed.

Lemma post_users_members `{Platform} db sess newId body :
  members_have_board db → members_have_board (post_users db sess newId body).2.
Proof.
  intros Hinv. unfold post_users. destruct (CreateUserSchema body); simpl; [|done].
  destruct (truthy _) as [boardId|]; simpl; [|done].
  case_decide; simpl; [done|].
  intros u Hu Hrole. cbn [db_users db_memberships set_memberships set_users] in *.
  apply elem_of_app in Hu as [Hu|Hu].
  - destruct (Hinv u Hu Hrole) as (m & Hm & Hmu). exists m. split; [|done].
    apply elem_of_app. by left.
  - apply list_elem_of_singleton in Hu as ->. exists (mkMembership boardId newId).
    split; [|done]. apply elem_of_app. right. by left.
Qed.

Lemma post_user_password_members `{Platform} db id pw :
  members_have_board db → members_have_board (post_user_password db id pw).2.
Proof.
  intros Hinv. unfold post_user_password. destruct (isUuid id); simpl; [|done].
  destruct (ChangePasswordSchema pw); simpl; [|done].
  destruct (user_update _ _ db) as [db'|] eqn:E; simpl; [|done].
  eapply (members_have_board_upd db db' id); [|by eapply user_update_users| |done]; [done|].
  by rewrite (user_update_memberships _ _ _ _ E).
Qed.

Lemma delete_user_members `{Platform} db actor id :
  members_have_board db → members_have_board (delete_user db actor id).2.
Proof.
  intros Hinv. unfold delete_user. destruct (isUuid id); simpl; [|done].
  case_decide; simpl; [done|].
  destruct (findUnique_user db id) as [u0|]; simpl; [|done].
  destruct (user_isSystem u0); simpl; [done|].
  destruct (_ && _); simpl; [done|].
  intros u Hu Hrole.
  cbn [user_delete db_users db_memberships delete_user_sessions set_sessions] in *.
  apply list_elem_of_filter in Hu as [Hne Hu].
  destruct (Hinv u Hu Hrole) as (m & Hm & Hmu). exists m. split; [|done].
  apply list_elem_of_filter. split; [congruence|done].
Qed.

Lemma put_user_boards_members `{Platform} db id body :
  members_have_board db → members_have_board (put_user_boards db id body).2.
Proof.
  intros Hinv.
  destruct (put_user_boards db id body) as [[[]|e] db'] eqn:Hput.
  2:{ assert (db' = db) as -> ; [|done].
      revert Hput. unfold put_user_boards.
      repeat first [ progress simpl
                   | match goal with
                     | |- (if ?c then _ else _) = _ → _ => destruct c
                     | |- match ?c with _ => _ end = _ → _ => destruct c
                     end ];
      congruence. }
  simpl. apply put_user_boards_Ok in Hput as (u0 & Hu0 & _ & Hne & _ & Hus & Hms).
  intros u' Hu' Hrole. rewrite Hus in Hu'.
  apply list_elem_of_fmap in Hu' as (u & -> & Hu).
  assert (user_id (upd id (with_defaultBoardId (Some (sb_defaultBoardId body))) u) = user_id u
          ∧ user_role (upd id (with_defaultBoardId (Some (sb_defaultBoardId body))) u)
            = user_role u) as [Hid Hr].
  { unfold upd. by case_decide. }
  rewrite Hid. rewrite Hr in Hrole. rewrite Hms.
  destruct (decide (user_id u = id)) as [Heq|Hneq].
  - destruct (sb_boardIds body) as [|b bs] eqn:Hbs; [done|].
    exists (mkMembership b id). split; [|done].
    apply elem_of_upsert_memberships. right. exists b. split; [by left|done].
  - destruct (Hinv u Hu Hrole) as (m & Hm & Hmu). exists m. split; [|done].
    apply elem_of_upsert_memberships. left. apply list_elem_of_filter. split; [|done].
    left. congruence.
Qed.

Lemma upd_same id (l : list User) : upd id (λ x, x) <$> l = l.
Proof.
  induction l as [|x l IH]; [done|]. rewrite fmap_cons, IH. f_equal.
  unfold upd. by case_decide.
Qed.

Lemma patch_user_members `{Platform} db id body :
  users_wf db → members_have_board db → members_have_board (patch_user db id body).2.
Proof.
  intros Hwf Hinv. unfold patch_user. destruct (isUuid id); simpl; [|done].
  destruct (AdminUpdateUserSchema body); simpl; [|done].
  destruct (findUnique_user db id) as [u|] eqn:Hu; simpl; [|done].
  destruct (user_isSystem u && bool_decide (au_role body ≠ None)); simpl; [done|].
  destruct (_ && _ && _); simpl; [done|].
  destruct (match truthy (au_email body) with Some e => email_taken db e id | None => false end);
    simpl; [done|].
  destruct (patch_user_tx db u body) as [db'|] eqn:Htx; simpl; [|done].
  destruct (findUnique_user db' id) as [u'|]; simpl; [|done].
  pose proof (findUnique_user_Some _ _ _ Hu) as [Hin Hid].
  unfold patch_user_tx in Htx. rewrite Hid in Htx.
  set (count := length (filter (λ m, bm_userId m = id) (db_memberships db))) in *.
  set (nextRole := default (user_role u) (au_role body)) in *.
  destruct (if bool_decide (nextRole = MEMBER) && bool_decide (count = 0%nat)
            then _ else Some db) as [db1|] eqn:Hstep1; [|done].
  (* the membership step *)
  assert (∃ f1, (∀ x, user_id (f1 x) = user_id x ∧ user_role (f1 x) = user_role x)
                ∧ db_users db1 = upd id f1 <$> db_users db
                ∧ db_memberships db ⊆ db_memberships db1
                ∧ (nextRole = MEMBER →
                   ∃ m, m ∈ db_memberships db1 ∧ bm_userId m = id))
    as (f1 & Hf1 & Hus1 & Hms1 & Hmine).
  { destruct (bool_decide (nextRole = MEMBER) && bool_decide (count = 0%nat)) eqn:Hcond.
    - case_decide; [|done].
      pose proof (user_update_memberships _ _ _ _ Hstep1) as Hm.
      apply user_update_users in Hstep1. cbn [db_users db_memberships set_memberships] in *.
      eexists. split_and!; [|exact Hstep1| |]; [done| |].
      + rewrite Hm. intros m ?. apply elem_of_app. by left.
      + intros _. eexists. split; [rewrite Hm; apply elem_of_app; right; by left|done].
    - injection Hstep1 as <-. exists (λ x, x). split_and!; [done| |done|].
      + by rewrite upd_same.
      + intros Hnext. rewrite bool_decide_eq_true_2 in Hcond by done. simpl in Hcond.
        apply bool_decide_eq_false in Hcond.
        destruct (filter (λ m, bm_userId m = id) (db_memberships db)) as [|m l] eqn:Hfl;
          [done|].
        assert (m ∈ filter (λ m, bm_userId m = id) (db_memberships db)) as Hm
          by (rewrite Hfl; left).
        apply list_elem_of_filter in Hm as [? ?]. by exists m. }
  destruct (bool_decide _) in Htx; [done|].
  pose proof (user_update_memberships _ _ _ _ Htx) as Hms2.
  apply user_update_users in Htx.
  intros x' Hx' Hrole. rewrite Htx, Hus1 in Hx'.
  apply list_elem_of_fmap in Hx' as (x1 & -> & Hx1).
  apply list_elem_of_fmap in Hx1 as (x & -> & Hx).
  destruct (decide (user_id x = id)) as [Heq|Hneq].
  - assert (x = u) as -> by (eapply users_wf_unique; [done..|congruence]).
    destruct (Hf1 u) as [Hi1 Hr1].
    assert (upd id (with_email_role (au_email body) (au_role body)) (upd id f1 u)
            = with_email_role (au_email body) (au_role body) (f1 u)) as Hboth.
    { unfold upd. rewrite (decide_True (P := user_id u = id)) by done.
      rewrite decide_True by congruence. done. }
    rewrite Hboth in *. cbn [with_email_role user_role user_id] in *.
    destruct Hmine as (m & Hm & Hmu).
    + unfold nextRole. by rewrite <- Hr1.
    + exists m. rewrite Hms2. split; [done|]. congruence.
  - assert (upd id (with_email_role (au_email body) (au_role body)) (upd id f1 x) = x) as Hsame.
    { unfold upd. rewrite (decide_False (P := user_id x = id)) by done.
      by rewrite decide_False by done. }
    rewrite Hsame in *. destruct (Hinv x Hx Hrole) as (m & Hm & Hmu).
    exists m. rewrite Hms2. split; [by apply Hms1|done].
Qed.

Lemma admin_step_members `{Platform} db req :
  users_wf db → members_have_board db → members_have_board (admin_step db req).
Proof.
  intros Hwf Hinv. destruct req as [sess op]. unfold admin_step.
  destruct (admin_gate db sess) as [actor|e]; [|done].
  destruct op as [newId body|id pw|id body|id|id body].
  - by apply post_users_members.
  - by apply post_user_password_members.
  - by apply patch_user_members.
  - by apply delete_user_members.
  - by apply put_user_boards_members.
Qed.

(** X17: user administration locks no member out.  When every user with
    role MEMBER belongs to a board, then so it is after any sequence of
    admin requests on users: creating a user, setting a password, changing
    e-mail or role, setting the boards of a member, deleting a user. *)
Theorem members_keep_a_board `{Platform} (db : Db) (reqs : list (Session * AdminOp)) :
  users_wf db → (1 ≤ admin_count db)%nat →
  members_have_board db →
  members_have_board (admin_run db reqs).
Proof.
  revert db. induction reqs as [|req reqs IH]; intros db Hwf Hc Hinv; [done|].
  simpl. destruct (admin_step_ok db req Hwf Hc) as (Hwf1 & Hc1 & _).
  apply IH; [done..|]. by apply admin_step_members.
Qed.

Lemma members_keep_a_board_witness :
  let db' := admin_run (H := test_platform) login_db member_requests in
  users_wf login_db ∧ (1 ≤ admin_count login_db)%nat ∧ members_have_board login_db
  ∧ user_id <$> db_users db' = ["u0"; "u1"; "u2"; "u5"; "u9"]
  ∧ user_role <$> db_users db' = [ADMIN; MEMBER; MEMBER; MEMBER; MEMBER]
  ∧ members_have_board db'.
Proof.
  assert (users_wf login_db) as Hwf
    by (unfold users_wf; apply (bool_decide_unpack _); vm_compute; exact I).
  assert (1 ≤ admin_count login_db)%nat as Hc by (vm_compute; lia).
  assert (members_have_board login_db) as Hinv.
  { intros u Hu _. exists (mkMembership DEFAULT_BOARD_ID (user_id u)). split; [|done].
    unfold login_db in *. cbn [db_users db_memberships] in *.
    repeat (apply elem_of_cons in Hu as [->|Hu]; [apply (bool_decide_unpack _); vm_compute; exact I|]).
    by apply elem_of_nil in Hu. }
  split_and!; [exact Hwf|exact Hc|exact Hinv|reflexivity|reflexivity|].
  exact (members_keep_a_board (H := test_platform) login_db member_requests Hwf Hc Hinv).
Defined.

(* ================================================================== *)
(** * Deleting a user                                                   *)
(* ================================================================== *)

(** X18: a deleted user is locked out at once.  After DELETE
    /auth/users/:id has succeeded the gates of the card and of the admin
    endpoints answer 401 to every request whose session still carries the
    user, whatever rows the table of sessions holds (the handler drops the
    sessions of the user only as a best effort); no participation of the
    user is left, no token of a trusted device is accepted for them, and
    the other users are as they were. *)
Theorem deleted_user_is_locked_out `{Platform} (db : Db) (actor id : string) (db' : Db) :
  delete_user db actor id = (Ok (), db') →
  (∀ rows sess, sess_user sess = Some id →
     card_gate (set_sessions rows db') sess = Throw (HttpError 401 "Unauthorized")
     ∧ admin_gate (set_sessions rows db') sess = Throw (HttpError 401 "Unauthorized"))
  ∧ (∀ p, p ∈ db_participants db' → cp_userId p ≠ id)
  ∧ (∀ token now, verifyTrustedDeviceToken db' id token now = (false, db'))
  ∧ (∀ u, user_id u ≠ id → u ∈ db_users db' ↔ u ∈ db_users db).
Proof.
  unfold delete_user. destruct (isUuid id); simpl; [|done].
  case_decide; simpl; [done|].
  destruct (findUnique_user db id) as [u0|]; simpl; [|done].
  destruct (user_isSystem u0); simpl; [done|].
  destruct (_ && _); simpl; [done|]. intros [= <-].
  split_and!.
  - intros rows sess Hs.
    assert (getAuthUser (set_sessions rows (user_delete id (delete_user_sessions id db))) sess
            = None) as Hnone.
    { unfold getAuthUser. rewrite Hs. simpl.
      case_decide; [done|]. unfold findUnique_user. cbn [user_delete db_users set_sessions].
      destruct (list_find _ _) as [[i x]|] eqn:E; [|done].
      apply list_find_Some in E as (Hi & Hx & _). apply list_elem_of_lookup_2 in Hi.
      by apply list_elem_of_filter in Hi as [? _]. }
    unfold card_gate, admin_gate, requireLogin. by rewrite Hnone.
  - intros p Hp. cbn [user_delete db_participants] in Hp.
    by apply list_elem_of_filter in Hp as [? _].
  - intros token now. apply verifyTrustedDeviceToken_false. intros d Hd (Hu & _).
    cbn [user_delete db_trustedDevices] in Hd. by apply list_elem_of_filter in Hd as [? _].
  - intros u Hu. cbn [user_delete db_users delete_user_sessions set_sessions].
    rewrite list_elem_of_filter. split; [by intros [_ ?]|by intros].
Qed.

Lemma deleted_user_is_locked_out_witness :
  let ann_session := mkSession (Some "u3") true (Some DEFAULT_BOARD_ID) in
  let db := set_sessions [("sid-ann", ann_session)]
              (set_participants [mkParticipant "b" "u3"] team_db) in
  let db' := (delete_user (H := test_platform) db "u0" "u3").2 in
  card_gate db ann_session = Ok (ann_2fa, DEFAULT_BOARD_ID)
  ∧ delete_user (H := test_platform) db "u0" "u3" = (Ok (), db')
  ∧ card_gate (set_sessions [("sid-ann", ann_session)] db') ann_session
    = Throw (HttpError 401 "Unauthorized")
  ∧ db_participants db' = [].
Proof.
  set (ann_session := mkSession (Some "u3") true (Some DEFAULT_BOARD_ID)).
  set (db := set_sessions [("sid-ann", ann_session)]
               (set_participants [mkParticipant "b" "u3"] team_db)).
  assert (delete_user (H := test_platform) db "u0" "u3"
          = (Ok (), (delete_user (H := test_platform) db "u0" "u3").2)) as Hok
    by (vm_compute; reflexivity).
  destruct (deleted_user_is_locked_out (H := test_platform) db "u0" "u3" _ Hok)
    as (Hgate & _).
  split_and!; [reflexivity|exact Hok| |reflexivity].
  by apply (Hgate [("sid-ann", ann_session)] ann_session).
Defined.

(* ================================================================== *)
(** * Boards                                                            *)
(* ================================================================== *)

(** X19: POST /boards/select accepts exactly the boards the gate of the
    card endpoints admits.  For a board id of valid form, the selection
    succeeds, and puts the board into the session, if and only if the gate
    lets the session with that board through; when it is refused the session
    stays as it was. *)
Theorem select_agrees_with_gate `{Platform} (db : Db) (sess : Session) (boardId : string) :
  BoardIdSchema boardId = true → boardId ≠ "" →
  let chosen := mkSession (sess_user sess) (sess_twoFactorPassed sess) (Some boardId) in
  (route_post_boards_select db sess boardId = (Ok boardId, chosen)
   ↔ ∃ u, card_gate db chosen = Ok (u, boardId))
  ∧ (route_post_boards_select db sess boardId = (Ok boardId, chosen)
     ∨ ∃ e, route_post_boards_select db sess boardId = (Throw e, sess)).
Proof.
  intros Hschema Hne chosen.
  unfold route_post_boards_select, boards_gate, card_gate, requireLogin.
  assert (getAuthUser db chosen = getAuthUser db sess) as -> by done.
  destruct (getAuthUser db sess) as [u|].
  2:{ split; [split; [done|by intros [? ?]]|right; by eexists]. }
  assert (requireTwoFactor (Some u) chosen = requireTwoFactor (Some u) sess) as -> by done.
  destruct (requireTwoFactor (Some u) sess) as [[]|e].
  2:{ split; [split; [done|by intros [? ?]]|right; by eexists]. }
  unfold post_boards_select, requireBoardContext. rewrite Hschema. simpl.
  rewrite decide_False by done.
  destruct (bool_decide (user_role u ≠ ADMIN) && negb (has_membership db boardId (user_id u))).
  - split; [split; [done|by intros [? ?]]|right; by eexists].
  - split; [split; [by exists u|done]|by left].
Qed.

Lemma select_agrees_with_gate_witness :
  let sess := mkSession (Some "u3") true (Some DEFAULT_BOARD_ID) in
  BoardIdSchema (H := test_platform) "b2" = true
  ∧ route_post_boards_select (H := test_platform) two_boards_db session_on_b2 DEFAULT_BOARD_ID
    = (Ok DEFAULT_BOARD_ID, admin_session)
  ∧ card_gate two_boards_db admin_session = Ok (admin_2fa, DEFAULT_BOARD_ID)
  ∧ route_post_boards_select (H := test_platform) team_db sess "b2"
    = (Throw (HttpError 403 "Forbidden"), sess)
  ∧ card_gate team_db (mkSession (Some "u3") true (Some "b2"))
    = Throw (HttpError 403 "Forbidden").
Proof.
  destruct (select_agrees_with_gate (H := test_platform) two_boards_db session_on_b2
              DEFAULT_BOARD_ID eq_refl) as [Hiff _]; [discriminate|].
  split_and!; [reflexivity| |reflexivity|reflexivity|reflexivity].
  apply Hiff. by exists admin_2fa.
Defined.

(** ** Sets of ids and rows *)

Lemma filter_all {A} (P : A → Prop) `{∀ x, Decision (P x)} (l : list A) :
  (∀ x, x ∈ l → P x) → filter P l = l.
Proof.
  induction l as [|x l IH]; intros HP; [done|].
  rewrite filter_cons_True by (apply HP; left). f_equal. apply IH. intros y Hy. apply HP. by right.
Qed.

Lemma filter_none {A} (P : A → Prop) `{∀ x, Decision (P x)} (l : list A) :
  (∀ x, x ∈ l → ¬ P x) → filter P l = [].
Proof.
  induction l as [|x l IH]; intros HP; [done|].
  rewrite filter_cons_False by (apply HP; left). apply IH. intros y Hy. apply HP. by right.
Qed.

Lemma elem_of_foldl_uniq (l acc : list string) x :
  x ∈ foldl (λ acc x, if decide (x ∈ acc) then acc else acc ++ [x]) acc l ↔ x ∈ acc ∨ x ∈ l.
Proof.
  revert acc. induction l as [|y l IH]; intros acc; simpl.
  - split; [by left|]. intros [?|?%elem_of_nil]; done.
  - rewrite IH. case_decide as Hy.
    + rewrite elem_of_cons. split; [intros [?|?]; auto|].
      intros [?|[->|?]]; auto.
    + rewrite elem_of_app, list_elem_of_singleton, elem_of_cons. tauto.
Qed.

Lemma NoDup_foldl_uniq (l acc : list string) :
  NoDup acc → NoDup (foldl (λ acc x, if decide (x ∈ acc) then acc else acc ++ [x]) acc l).
Proof.
  revert acc. induction l as [|y l IH]; intros acc Hnd; simpl; [done|].
  apply IH. case_decide as Hy; [done|].
  apply NoDup_app. split_and!; [done| |apply NoDup_singleton].
  intros z Hz ->%list_elem_of_singleton. done.
Qed.

Lemma elem_of_uniq l x : x ∈ uniq l ↔ x ∈ l.
Proof.
  unfold uniq. rewrite elem_of_foldl_uniq. split; [|by right].
  intros [?%elem_of_nil|?]; done.
Qed.

Lemma NoDup_uniq l : NoDup (uniq l).
Proof. apply NoDup_foldl_uniq, NoDup_nil_2. Qed.

Lemma elem_of_createMany_memberships (rows ms : list BoardMembership) m :
  m ∈ createMany_memberships rows ms ↔ m ∈ ms ∨ m ∈ rows.
Proof.
  unfold createMany_memberships. revert ms. induction rows as [|r rows IH]; intros ms; simpl.
  - split; [by left|]. intros [?|?%elem_of_nil]; done.
  - rewrite IH. case_decide as Hr.
    + rewrite elem_of_cons. split; [intros [?|?]; auto|].
      intros [?|[->|?]]; auto.
    + rewrite elem_of_app, list_elem_of_singleton, elem_of_cons. tauto.
Qed.

Lemma elem_of_board_members (ms : list BoardMembership) b uid :
  uid ∈ board_members ms b ↔ mkMembership b uid ∈ ms.
Proof.
  unfold board_members. rewrite list_elem_of_fmap. split.
  - intros ([b' u'] & -> & Hm). apply list_elem_of_filter in Hm as [Hb Hm].
    simpl in *. by subst.
  - intros Hm. exists (mkMembership b uid). split; [done|].
    by apply list_elem_of_filter.
Qed.

Lemma fallback_board_Some (ms : list BoardMembership) uid id b :
  fallback_board ms uid id = Some b → mkMembership b uid ∈ ms ∧ b ≠ id.
Proof.
  unfold fallback_board. destruct (list_find _ ms) as [[i [b' u']]|] eqn:E; [|done].
  simpl. intros [= <-]. apply list_find_Some in E as (Hi & [Hu Hb] & _). simpl in *.
  subst. split; [by eapply list_elem_of_lookup_2|done].
Qed.

(** The loop over the users in closed form. *)
Lemma repoint_defaults_fmap (ms : list BoardMembership) id (needing : list string)
    (users : list User) :
  repoint_defaults ms id needing users
  = (λ x, if decide (user_id x ∈ needing)
          then with_defaultBoardId (fallback_board ms (user_id x) id) x else x) <$> users.
Proof.
  unfold repoint_defaults. revert users.
  induction needing as [|uid L IH]; intros users; simpl.
  - rewrite <- (list_fmap_id users) at 1. apply list_fmap_ext. by intros _ x _.
  - rewrite IH, <- list_fmap_compose. apply list_fmap_ext. intros _ x _.
    unfold compose, upd. destruct (decide (user_id x = uid)) as [Heq|Hne].
    + rewrite (decide_True (P := user_id x ∈ uid :: L)) by (rewrite Heq; left).
      cbn [with_defaultBoardId user_id]. rewrite Heq. by case_decide.
    + destruct (decide (user_id x ∈ L)) as [HL|HL].
      * by rewrite decide_True by (by right).
      * rewrite decide_False; [done|]. by intros [?|?]%elem_of_cons.
Qed.

Lemma createMany_memberships_fresh (rows ms : list BoardMembership) :
  NoDup rows → (∀ r, r ∈ rows → r ∉ ms) → createMany_memberships rows ms = ms ++ rows.
Proof.
  unfold createMany_memberships. revert ms.
  induction rows as [|r rows IH]; intros ms Hnd Hfresh; simpl; [by rewrite app_nil_r|].
  apply NoDup_cons in Hnd as [Hr Hnd].
  rewrite decide_False by (apply Hfresh; left).
  rewrite IH; [by rewrite <- app_assoc|done|].
  intros r' Hr' [Hin| ->%list_elem_of_singleton]%elem_of_app.
  - by apply (Hfresh r'); [right|].
  - done.
Qed.

(** ** POST /boards *)

Lemma post_boards_Ok `{Platform} db user newId body view db' :
  post_boards db user newId body = (Ok view, db') →
  let ids := uniq (user_id user :: default [] (cbb_memberIds body)) in
  user_role user = ADMIN
  ∧ (newId ∉ board_id <$> db_boards db)
  ∧ view = mkBoardInfo newId (cbb_name body) (Some ids)
  ∧ db_users db' = db_users db
  ∧ db_boards db' = db_boards db ++ [mkBoard newId (cbb_name body)]
  ∧ db_memberships db' = createMany_memberships (mkMembership newId <$> ids) (db_memberships db).
Proof.
  unfold post_boards. case_decide as Hrole; [done|].
  destruct (CreateBoardSchema body); simpl; [|done].
  case_decide as Hfresh; [done|].
  destruct (forallb _ _); simpl; [|done]. intros [= <- <-].
  split_and!; [|done..]. by destruct (user_role user).
Qed.

(** X20: a new board has its creator and the requested users as members,
    each once.  When POST /boards succeeds the members of the new board are
    the creator and the users of the list, the answer lists them as they are
    stored, without repetition, and the memberships of the other boards are
    as they were. *)
Theorem created_board_members `{Platform} (db : Db) (user : User) (newId : string)
    (body : CreateBoardBody) (view : BoardInfo) (db' : Db) :
  memberships_wf db →
  post_boards db user newId body = (Ok view, db') →
  (∀ uid, mkMembership newId uid ∈ db_memberships db'
          ↔ uid = user_id user ∨ uid ∈ default [] (cbb_memberIds body))
  ∧ (∀ m, bm_boardId m ≠ newId → m ∈ db_memberships db' ↔ m ∈ db_memberships db)
  ∧ bi_memberIds view = Some (board_members (db_memberships db') newId)
  ∧ NoDup (board_members (db_memberships db') newId)
  ∧ mkBoard newId (cbb_name body) ∈ db_boards db'.
Proof.
  intros Hfk Hok. apply post_boards_Ok in Hok as (_ & Hfresh & -> & _ & Hboards & Hms).
  set (ids := uniq (user_id user :: default [] (cbb_memberIds body))) in *.
  assert (∀ uid, mkMembership newId uid ∉ db_memberships db) as Hnone.
  { intros uid Hin. apply Hfresh. by apply (Hfk _ Hin). }
  assert (board_members (db_memberships db') newId = ids) as Hmembers.
  { rewrite Hms, createMany_memberships_fresh.
    - unfold board_members. rewrite filter_app, fmap_app.
      assert (filter (λ m, bm_boardId m = newId) (db_memberships db) = []) as ->.
      { apply filter_none. intros [b u] Hm Hb. simpl in Hb. subst. by apply (Hnone u). }
      simpl. assert (filter (λ m, bm_boardId m = newId) (mkMembership newId <$> ids)
                     = mkMembership newId <$> ids) as ->.
      { apply filter_all. by intros m (uid & -> & _)%list_elem_of_fmap. }
      rewrite <- list_fmap_compose. apply list_fmap_id.
    - apply NoDup_fmap_2; [|apply NoDup_uniq]. by intros ?? [= ->].
    - intros r (uid & -> & _)%list_elem_of_fmap. apply Hnone. }
  split_and!.
  - intros uid. rewrite <- elem_of_board_members, Hmembers. unfold ids.
    by rewrite elem_of_uniq, elem_of_cons.
  - intros m Hm. rewrite Hms, elem_of_createMany_memberships. split; [|by left].
    intros [?|(uid & -> & _)%list_elem_of_fmap]; done.
  - by rewrite Hmembers.
  - rewrite Hmembers. apply NoDup_uniq.
  - rewrite Hboards. apply elem_of_app. right. by left.
Qed.

Lemma created_board_members_witness :
  let body := mkCreateBoardBody "Research" (Some ["u4"; "u0"; "u4"]) in
  let out := post_boards (H := test_platform) team_db admin_2fa "b7" body in
  memberships_wf team_db
  ∧ out.1 = Ok (mkBoardInfo "b7" "Research" (Some ["u0"; "u4"]))
  ∧ board_members (db_memberships out.2) "b7" = ["u0"; "u4"]
  ∧ (mkMembership "b7" "u4" ∈ db_memberships out.2)
  ∧ (mkMembership "b7" "u3" ∉ db_memberships out.2).
Proof.
  set (body := mkCreateBoardBody "Research" (Some ["u4"; "u0"; "u4"])).
  assert (memberships_wf team_db) as Hfk.
  { intros m Hm. unfold team_db in *. cbn [db_memberships db_boards] in *.
    repeat (apply elem_of_cons in Hm as [->|Hm]; [left|]). by apply elem_of_nil in Hm. }
  assert (post_boards (H := test_platform) team_db admin_2fa "b7" body
          = (Ok (mkBoardInfo "b7" "Research" (Some ["u0"; "u4"])),
             (post_boards (H := test_platform) team_db admin_2fa "b7" body).2)) as Hok
    by (vm_compute; reflexivity).
  destruct (created_board_members (H := test_platform) team_db admin_2fa "b7" body _ _ Hfk Hok)
    as (Hmine & _ & Hview & _).
  split_and!; [exact Hfk|by rewrite Hok| | |].
  - reflexivity.
  - apply Hmine. right. simpl. left.
  - intros Hin. apply Hmine in Hin as [Hin|Hin]; [discriminate|]. simpl in Hin.
    repeat (apply elem_of_cons in Hin as [Hin|Hin]; [discriminate|]). by apply elem_of_nil in Hin.
Defined.

(** ** PATCH /boards/:id *)

Lemma rename_board_ids id name (boards : list Board) :
  board_id <$> (rename_board id name <$> boards) = board_id <$> boards.
Proof.
  rewrite <- list_fmap_compose. apply list_fmap_ext. intros _ b _. simpl.
  unfold rename_board. by case_decide.
Qed.

(** What a successful PATCH /boards/:id writes, with the guards of the
    handler resolved. *)
Lemma patch_board_Ok `{Platform} db user id body view db' :
  patch_board db user id body = (Ok view, db') →
  id ∈ board_id <$> db_boards db
  ∧ db_boards db' = rename_board id (upb_name body) <$> db_boards db
  ∧ bi_memberIds view = Some (board_members (db_memberships db') id)
  ∧ match upb_memberIds body with
    | None => db_users db' = db_users db ∧ db_memberships db' = db_memberships db
    | Some memberIds =>
        let next := uniq memberIds in
        let existing := board_members (db_memberships db) id in
        let toRemove := filter (λ uid, uid ∉ next) existing in
        let toAdd := filter (λ uid, uid ∉ existing) next in
        let ms1 := filter (λ m, ¬ (bm_boardId m = id ∧ bm_userId m ∈ toRemove))
                          (db_memberships db) in
        let needing :=
          user_id <$> filter (λ u, user_id u ∈ toRemove ∧ user_defaultBoardId u = Some id)
                             (db_users db) in
        db_users db'
        = (λ x, if decide (user_id x ∈ needing)
                then with_defaultBoardId (fallback_board ms1 (user_id x) id) x else x)
            <$> db_users db
        ∧ db_memberships db' = createMany_memberships (mkMembership id <$> toAdd) ms1
    end.
Proof.
  unfold patch_board. case_decide; [done|].
  destruct (BoardIdSchema id); simpl; [|done].
  destruct (UpdateBoardSchema body); simpl; [|done].
  destruct (list_find _ (db_boards db)) as [[i found]|] eqn:Hfind; simpl; [|done].
  apply list_find_Some in Hfind as (Hi & Hid & _).
  assert (id ∈ board_id <$> db_boards db) as Hin.
  { apply list_elem_of_fmap. exists found. split; [done|]. by eapply list_elem_of_lookup_2. }
  destruct (upb_memberIds body) as [memberIds|].
  2:{ intros [= <- <-]. by split_and!. }
  set (next := uniq memberIds).
  set (existing := board_members (db_memberships db) id).
  set (toRemove := filter (λ uid, uid ∉ next) existing).
  set (toAdd := filter (λ uid, uid ∉ existing) next).
  set (ms1 := filter (λ m, ¬ (bm_boardId m = id ∧ bm_userId m ∈ toRemove)) (db_memberships db)).
  set (needing := user_id <$> filter (λ u, user_id u ∈ toRemove ∧ user_defaultBoardId u = Some id)
                                     (db_users db)).
  assert ((if decide (toRemove = []) then (db_users db, db_memberships db)
           else (repoint_defaults ms1 id needing (db_users db), ms1))
          = ((λ x, if decide (user_id x ∈ needing)
                   then with_defaultBoardId (fallback_board ms1 (user_id x) id) x else x)
               <$> db_users db, ms1)) as ->.
  { case_decide as Hnil; [|by rewrite repoint_defaults_fmap].
    assert (needing = []) as ->.
    { unfold needing. rewrite filter_none; [done|]. intros u _ [Hu _]. rewrite Hnil in Hu.
      by apply elem_of_nil in Hu. }
    f_equal.
    - rewrite <- (list_fmap_id (db_users db)) at 1. apply list_fmap_ext. by intros _ x _.
    - unfold ms1. rewrite filter_all; [done|]. intros m _ [_ Hm]. rewrite Hnil in Hm.
      by apply elem_of_nil in Hm. }
  case_decide as Hadd.
  - intros [= <- <-]. rewrite Hadd. by split_and!.
  - destruct (forallb _ toAdd); simpl; [|done]. intros [= <- <-]. by split_and!.
Qed.

(** X21: PATCH /boards/:id with a list of members replaces the members of
    the board.  When the request succeeds the members of the board are
    exactly the users of the list, the answer lists the members as they are
    stored, and the memberships of the other boards are as they were. *)
Theorem patched_board_members `{Platform} (db : Db) (user : User) (id : string)
    (body : UpdateBoardBody) (memberIds : list string) (view : BoardInfo) (db' : Db) :
  upb_memberIds body = Some memberIds →
  patch_board db user id body = (Ok view, db') →
  (∀ uid, mkMembership id uid ∈ db_memberships db' ↔ uid ∈ memberIds)
  ∧ (∀ m, bm_boardId m ≠ id → m ∈ db_memberships db' ↔ m ∈ db_memberships db)
  ∧ (∀ uid, uid ∈ default [] (bi_memberIds view) ↔ uid ∈ memberIds).
Proof.
  intros Hbody Hok. apply patch_board_Ok in Hok as (_ & _ & Hview & Hw).
  rewrite Hbody in Hw. destruct Hw as [_ Hms].
  assert (∀ uid, mkMembership id uid ∈ db_memberships db' ↔ uid ∈ memberIds) as Hmine.
  { intros uid. rewrite Hms, elem_of_createMany_memberships. split.
    - intros [Hin|Hin].
      + apply list_elem_of_filter in Hin as [Hkeep Hin].
        destruct (decide (uid ∈ memberIds)) as [|Hno]; [done|].
        destruct Hkeep. simpl. split; [done|]. apply list_elem_of_filter. split.
        * by rewrite elem_of_uniq.
        * by apply elem_of_board_members.
      + apply list_elem_of_fmap in Hin as (uid' & [= <-] & Hadd).
        apply list_elem_of_filter in Hadd as [_ Hadd]. by apply elem_of_uniq.
    - intros Hnext. destruct (decide (mkMembership id uid ∈ db_memberships db)) as [Hin|Hno].
      + left. apply list_elem_of_filter. split; [|done]. simpl. intros [_ Hrem].
        apply list_elem_of_filter in Hrem as [Hrem _]. apply Hrem. by apply elem_of_uniq.
      + right. apply list_elem_of_fmap. exists uid. split; [done|].
        apply list_elem_of_filter. split.
        * by rewrite elem_of_board_members.
        * by apply elem_of_uniq. }
  split_and!; [done| |].
  - intros m Hm. rewrite Hms, elem_of_createMany_memberships. split.
    + intros [[_ ?]%list_elem_of_filter|(uid & -> & _)%list_elem_of_fmap]; done.
    + intros ?. left. apply list_elem_of_filter. split; [|done]. by intros [? _].
  - intros uid. rewrite Hview. simpl. by rewrite elem_of_board_members.
Qed.

Lemma patched_board_members_witness :
  let body := mkUpdateBoardBody (Some "Team") (Some ["u4"; "u0"]) in
  let out := patch_board (H := test_platform) team_db admin_2fa DEFAULT_BOARD_ID body in
  out.1 = Ok (mkBoardInfo DEFAULT_BOARD_ID "Team" (Some ["u0"; "u4"]))
  ∧ (mkMembership DEFAULT_BOARD_ID "u4" ∈ db_memberships out.2)
  ∧ (mkMembership DEFAULT_BOARD_ID "u3" ∉ db_memberships out.2)
  ∧ user_defaultBoardId <$> db_users out.2
    = [Some DEFAULT_BOARD_ID; None; Some DEFAULT_BOARD_ID].
Proof.
  set (body := mkUpdateBoardBody (Some "Team") (Some ["u4"; "u0"])).
  assert (patch_board (H := test_platform) team_db admin_2fa DEFAULT_BOARD_ID body
          = (Ok (mkBoardInfo DEFAULT_BOARD_ID "Team" (Some ["u0"; "u4"])),
             (patch_board (H := test_platform) team_db admin_2fa DEFAULT_BOARD_ID body).2)) as Hok
    by (vm_compute; reflexivity).
  destruct (patched_board_members (H := test_platform) team_db admin_2fa DEFAULT_BOARD_ID body
              ["u4"; "u0"] _ _ eq_refl Hok) as (Hmine & _).
  split_and!; [by rewrite Hok| | |reflexivity].
  - apply Hmine. left.
  - intros Hin. apply Hmine in Hin.
    repeat (apply elem_of_cons in Hin as [Hin|Hin]; [discriminate|]). by apply elem_of_nil in Hin.
Defined.

(** ** DELETE /boards/:id *)

Lemma delete_board_Ok `{Platform} db user sess id db' sess' :
  delete_board db user sess id = (Ok (), db', sess') →
  let affected := user_id <$> filter (λ u, user_defaultBoardId u = Some id) (db_users db) in
  id ≠ DEFAULT_BOARD_ID
  ∧ id ∈ board_id <$> db_boards db
  ∧ db_users db'
    = (λ u, if decide (user_defaultBoardId u = Some id) then with_defaultBoardId None u else u)
        <$> ((λ x, if decide (user_id x ∈ affected)
                   then with_defaultBoardId (fallback_board (db_memberships db) (user_id x) id) x
                   else x) <$> db_users db)
  ∧ db_boards db' = filter (λ b, board_id b ≠ id) (db_boards db)
  ∧ db_memberships db' = filter (λ m, bm_boardId m ≠ id) (db_memberships db)
  ∧ db_cards db' = filter (λ c, card_boardId c ≠ id) (db_cards db)
  ∧ sess' = (if decide (sess_boardId sess = Some id)
             then mkSession (sess_user sess) (sess_twoFactorPassed sess) None else sess).
Proof.
  unfold delete_board. case_decide; [done|].
  destruct (BoardIdSchema id); simpl; [|done].
  case_decide as Hdef; [done|]. case_decide as Hin; [done|].
  intros [= <- <-]. cbn [db_users db_boards db_memberships db_cards].
  rewrite repoint_defaults_fmap. split_and!; [done| |done..].
  by destruct (decide (id ∈ board_id <$> db_boards db)).
Qed.




(** ** Board administration and the default boards *)

Ltac unchanged :=
  repeat first
    [ progress simpl
    | match goal with
      | |- (if ?c then _ else _) = _ → _ => destruct c
      | |- match ?c with _ => _ end = _ → _ => destruct c
      end ];
  congruence.

Lemma post_boards_ok `{Platform} db user newId body :
  boards_ok db → boards_ok (post_boards db user newId body).2.
Proof.
  intros (Hdef & Hfk & Hacc).
  destruct (post_boards db user newId body) as [[view|e] db'] eqn:Hpost.
  2:{ assert (db' = db) as ->; [|done]. revert Hpost. unfold post_boards. unchanged. }
  simpl. apply post_boards_Ok in Hpost as (_ & _ & _ & Hus & Hbs & Hms).
  split_and!.
  - rewrite Hbs, fmap_app. apply elem_of_app. by left.
  - intros m. rewrite Hms, elem_of_createMany_memberships, Hbs, fmap_app, elem_of_app.
    intros [Hm|(uid & -> & _)%list_elem_of_fmap]; [left; by apply Hfk|right; left].
  - intros u b. rewrite Hus, Hms, elem_of_createMany_memberships. intros Hu Hb. left.
    by apply Hacc.
Qed.

Lemma patch_board_ok `{Platform} db user id body :
  boards_ok db → boards_ok (patch_board db user id body).2.
Proof.
  intros (Hdef & Hfk & Hacc).
  destruct (patch_board db user id body) as [[view|e] db'] eqn:Hpatch.
  2:{ assert (db' = db) as ->; [|done]. revert Hpatch. unfold patch_board. unchanged. }
  simpl. apply patch_board_Ok in Hpatch as (Hid & Hbs & _ & Hw).
  assert (board_id <$> db_boards db' = board_id <$> db_boards db) as Hids
    by (rewrite Hbs; apply rename_board_ids).
  destruct (upb_memberIds body) as [memberIds|].
  2:{ destruct Hw as [Hus Hms]. unfold boards_ok, memberships_wf, defaults_accessible.
      rewrite Hids, Hus, Hms. done. }
  simpl in Hw. destruct Hw as [Hus Hms].
  match type of Hms with
  | _ = createMany_memberships (mkMembership id <$> ?a) ?m => set (toAdd := a) in *; set (ms1 := m) in *
  end.
  split_and!.
  - by rewrite Hids.
  - intros m. rewrite Hms, elem_of_createMany_memberships, Hids.
    intros [[_ Hm]%list_elem_of_filter|(uid & -> & _)%list_elem_of_fmap]; [by apply Hfk|done].
  - intros u' b. rewrite Hus, Hms, elem_of_createMany_memberships.
    intros (x & -> & Hx)%list_elem_of_fmap Hb. left. cbn beta in *.
    destruct (decide (user_id x ∈ _)) as [Hneed|Hneed].
    + cbn [with_defaultBoardId user_defaultBoardId user_id] in *.
      by apply fallback_board_Some in Hb as [? _].
    + apply list_elem_of_filter. split; [|by apply Hacc]. simpl. intros [-> Hrem].
      apply Hneed. apply list_elem_of_fmap. exists x. split; [done|].
      by apply list_elem_of_filter.
Qed.

Lemma delete_board_ok `{Platform} db user sess id :
  boards_ok db → boards_ok (delete_board db user sess id).1.2.
Proof.
  intros (Hdef & Hfk & Hacc).
  destruct (delete_board db user sess id) as [[[[]|e] db'] sess'] eqn:Hdel.
  2:{ assert (db' = db) as ->; [|done]. revert Hdel. unfold delete_board. unchanged. }
  simpl. apply delete_board_Ok in Hdel as (Hne & _ & Hus & Hbs & Hms & _).
  assert (∀ b, b ≠ id → b ∈ board_id <$> db_boards db → b ∈ board_id <$> db_boards db') as Hkeep.
  { intros b Hb (x & -> & Hx)%list_elem_of_fmap. rewrite Hbs.
    apply list_elem_of_fmap. exists x. split; [done|]. by apply list_elem_of_filter. }
  split_and!.
  - apply Hkeep; [congruence|done].
  - intros m. rewrite Hms. intros [Hb Hm]%list_elem_of_filter. apply Hkeep; [done|]. by apply Hfk.
  - intros u' b. rewrite Hus, Hms.
    intros (y & -> & (x & -> & Hx)%list_elem_of_fmap)%list_elem_of_fmap. cbn beta.
    destruct (decide (user_id x ∈ _)) as [Haff|Haff].
    + cbn [with_defaultBoardId user_defaultBoardId user_id].
      destruct (decide (fallback_board (db_memberships db) (user_id x) id = Some id)) as [Hf|Hf].
      { by apply fallback_board_Some in Hf as [_ ?]. }
      cbn [with_defaultBoardId user_defaultBoardId user_id]. intros Hb.
      apply fallback_board_Some in Hb as [Hm Hbid]. by apply list_elem_of_filter.
    + destruct (decide (user_defaultBoardId x = Some id)) as [Hd|Hd].
      { destruct Haff. apply list_elem_of_fmap. exists x. split; [done|].
        by apply list_elem_of_filter. }
      intros Hb. apply list_elem_of_filter. split; [simpl; congruence|by apply Hacc].
Qed.

Lemma board_step_ok `{Platform} db req : boards_ok db → boards_ok (board_step db req).
Proof.
  intros Hok. destruct req as [sess op]. unfold board_step.
  destruct (boards_gate db sess) as [user|e]; [|done].
  destruct op as [newId body|id body|id].
  - by apply post_boards_ok.
  - by apply patch_board_ok.
  - by apply delete_board_ok.
Qed.

(** X23: board administration keeps the default board and the default
    boards of the users sound.  Through any sequence of requests that
    create, change and delete boards the default board exists, every
    membership belongs to a board that exists (the memberships of a deleted
    board go with it), and the default board of every user who has one is a
    board they are a member of: who loses a board that was their default is
    given another board of theirs, or none. *)
Theorem board_administration_keeps_defaults `{Platform} (db : Db)
    (reqs : list (Session * BoardOp)) :
  boards_ok db → boards_ok (board_run db reqs).
Proof.
  revert db. induction reqs as [|req reqs IH]; intros db Hok; [done|].
  simpl. apply IH. by apply board_step_ok.
Qed.

Lemma board_administration_keeps_defaults_witness :
  let db' := board_run (H := test_platform) team_db board_requests in
  boards_ok team_db
  ∧ board_id <$> db_boards db' = [DEFAULT_BOARD_ID]
  ∧ db_memberships db' = [mkMembership DEFAULT_BOARD_ID "u0"; mkMembership DEFAULT_BOARD_ID "u4"]
  ∧ user_defaultBoardId <$> db_users db' = [Some DEFAULT_BOARD_ID; None; Some DEFAULT_BOARD_ID]
  ∧ user_defaultBoardId
      <$> db_users (board_run (H := test_platform) team_db (take 2 board_requests))
    = [Some DEFAULT_BOARD_ID; Some "b7"; Some DEFAULT_BOARD_ID]
  ∧ boards_ok db'.
Proof.
  assert (boards_ok team_db) as Hok.
  { split_and!.
    - left.
    - intros m Hm. unfold team_db in *. cbn [db_memberships db_boards] in *.
      repeat (apply elem_of_cons in Hm as [->|Hm]; [left|]). by apply elem_of_nil in Hm.
    - intros u b Hu Hb. unfold team_db in *. cbn [db_memberships db_users] in *.
      repeat (apply elem_of_cons in Hu as [->|Hu];
              [injection Hb as <-; apply (bool_decide_unpack _); vm_compute; exact I|]).
      by apply elem_of_nil in Hu. }
  split_and!; [exact Hok|reflexivity..|].
  exact (board_administration_keeps_defaults (H := test_platform) team_db board_requests Hok).
Defined.

(** ** GET /boards *)

(** X24: the boards a user is shown are the boards they can open.  Every
    board GET /boards lists for a user can be selected by that user; an
    admin is shown every board, each once, and a member exactly the boards
    they are a member of. *)
Theorem listed_boards_are_selectable `{Platform} (name_le : relation string)
    `{∀ x y, Decision (name_le x y)} (db : Db) (user : User) (sess : Session) :
  (∀ v, v ∈ get_boards name_le db user → BoardIdSchema (bi_id v) = true →
        post_boards_select db user sess (bi_id v)
        = (Ok (bi_id v), mkSession (sess_user sess) (sess_twoFactorPassed sess) (Some (bi_id v))))
  ∧ (user_role user = ADMIN →
     bi_id <$> get_boards name_le db user ≡ₚ board_id <$> db_boards db)
  ∧ (user_role user ≠ ADMIN → memberships_wf db →
     ∀ b, b ∈ bi_id <$> get_boards name_le db user ↔ has_membership db b (user_id user) = true).
Proof.
  assert (user_role user ≠ ADMIN →
          ∀ b, b ∈ bi_id <$> get_boards name_le db user → has_membership db b (user_id user) = true)
    as Hmember.
  { intros Hrole b. unfold get_boards. rewrite decide_False by done.
    intros (v & -> & Hv)%list_elem_of_fmap.
    apply list_elem_of_omap in Hv as ([mb mu] & Hm & Hv). simpl in Hv.
    case_decide as Hu; [|done]. subst mu.
    destruct (list_find _ (db_boards db)) as [[i b0]|] eqn:E; [|done].
    apply list_find_Some in E as (_ & Hid & _). simpl in *. injection Hv as <-. simpl.
    rewrite Hid. unfold has_membership. by apply bool_decide_eq_true. }
  split_and!.
  - intros v Hv Hschema. unfold post_boards_select. rewrite Hschema. simpl.
    destruct (decide (user_role user = ADMIN)) as [Hrole|Hrole].
    + by rewrite bool_decide_eq_false_2 by (by intros ?).
    + rewrite (Hmember Hrole (bi_id v)) by (by apply list_elem_of_fmap_2).
      by rewrite andb_false_r.
  - intros Hrole. unfold get_boards. rewrite decide_True by done.
    rewrite <- list_fmap_compose. rewrite merge_sort_Permutation.
    by erewrite list_fmap_ext.
  - intros Hrole Hfk b. split; [by apply Hmember|].
    intros Hm%bool_decide_eq_true. unfold get_boards. rewrite decide_False by done.
    pose proof (Hfk _ Hm) as (b0 & Hb0 & Hin)%list_elem_of_fmap. simpl in Hb0.
    destruct (list_find (λ x, board_id x = b) (db_boards db)) as [[i b1]|] eqn:E.
    2:{ apply list_find_None in E. rewrite Forall_forall in E. by destruct (E b0 Hin). }
    pose proof E as (_ & Hid & _)%list_find_Some.
    apply list_elem_of_fmap. exists (mkBoardInfo (board_id b1) (board_name b1) None).
    split; [done|]. apply list_elem_of_omap. exists (mkMembership b (user_id user)).
    split; [done|]. cbn [bm_userId bm_boardId]. rewrite decide_True by done.
    by rewrite E.
Qed.

Lemma listed_boards_are_selectable_witness :
  let sess := mkSession (Some "u3") true None in
  BoardIdSchema (H := test_platform) DEFAULT_BOARD_ID = true
  ∧ memberships_wf team_db
  ∧ bi_id <$> get_boards String.le team_db ann_2fa = [DEFAULT_BOARD_ID]
  ∧ post_boards_select (H := test_platform) team_db ann_2fa sess DEFAULT_BOARD_ID
    = (Ok DEFAULT_BOARD_ID, mkSession (Some "u3") true (Some DEFAULT_BOARD_ID))
  ∧ has_membership team_db DEFAULT_BOARD_ID "u3" = true.
Proof.
  assert (memberships_wf team_db) as Hfk.
  { intros m Hm. unfold team_db in *. cbn [db_memberships db_boards] in *.
    repeat (apply elem_of_cons in Hm as [->|Hm]; [left|]). by apply elem_of_nil in Hm. }
  destruct (listed_boards_are_selectable (H := test_platform) String.le team_db ann_2fa
              (mkSession (Some "u3") true None)) as (Hsel & _ & Hmem).
  split_and!; [reflexivity|exact Hfk|reflexivity| |].
  - apply (Hsel (mkBoardInfo DEFAULT_BOARD_ID "Main board" None)); [left|reflexivity].
  - apply (Hmem ltac:(discriminate) Hfk). left.
Defined.

(* ================================================================== *)
(** * Where a new card goes and what a delete leaves                    *)
(* ================================================================== *)

Lemma StronglySorted_filter {A} (R : relation A) (P : A → Prop) `{∀ x, Decision (P x)}
    (l : list A) :
  StronglySorted R l → StronglySorted R (filter P l).
Proof.
  induction 1 as [|x l Hl IH Hx]; [constructor|].
  rewrite filter_cons. case_decide; [|done]. constructor; [done|].
  rewrite Forall_forall in *. intros y [_ Hy]%list_elem_of_filter. by apply Hx.
Qed.

(** Two arrangements of the same cards in ascending order of position are
    the same when no two of the cards share a position. *)
Lemma sorted_cards_unique (l1 l2 : list Card) :
  NoDup (card_position <$> l1) →
  StronglySorted position_le l1 → StronglySorted position_le l2 → l1 ≡ₚ l2 → l1 = l2.
Proof.
  intros Hnd Hs1 Hs2 Hp. apply (StronglySorted_unique_strong position_le); [|done..].
  intros x1 x2 Hx1 Hx2 H12 H21. rewrite <- Hp in Hx2. unfold position_le in *.
  apply list_elem_of_lookup in Hx1 as [i Hi]. apply list_elem_of_lookup in Hx2 as [j Hj].
  assert (i = j) as ->; [|congruence].
  eapply NoDup_lookup; [exact Hnd| |]; rewrite list_lookup_fmap.
  - by rewrite Hi.
  - rewrite Hj. simpl. f_equal. lia.
Qed.

Lemma findMany_StronglySorted cs b col : StronglySorted position_le (findMany_column cs b col).
Proof. apply Sorted_StronglySorted; [apply _|]. apply Sorted_merge_sort, _. Qed.

(** X25: a new card goes to the bottom of its column.  When POST /cards
    succeeds and no two cards of the column share a position, the column
    shows afterwards the cards it showed, in the same order, followed by the
    new card; every other column of every board is as it was. *)
Theorem created_card_goes_last `{Platform} (db : Db) (b userId newId : string)
    (body : CardCreateBody) (card : Card) :
  out_result (post_cards db b userId newId body) = Ok card →
  NoDup (positions (db_cards db) b (card_column card)) →
  let db' := out_db (post_cards db b userId newId body) in
  card_id card = newId
  ∧ column_ids (db_cards db') b (card_column card)
    = column_ids (db_cards db) b (card_column card) ++ [newId]
  ∧ ∀ b' col, ¬ (b' = b ∧ col = card_column card) →
              findMany_column (db_cards db') b' col = findMany_column (db_cards db) b' col.
Proof.
  intros Hok Hnd db'. revert Hok. unfold db', post_cards.
  destruct (CardCreateSchema body); simpl; [|done].
  case_decide as Hfresh; simpl; [done|]. intros [= <-]. cbn [card_column card_id] in *.
  set (col := default BACKLOG (cb_column body)) in *.
  set (card := mkCard newId b _ _ _ _ col _ _ _ _).
  split; [done|]. split.
  - unfold column_ids.
    assert (findMany_column (db_cards db ++ [card]) b col = findMany_column (db_cards db) b col ++ [card])
      as ->; [|by rewrite fmap_app].
    symmetry. apply sorted_cards_unique.
    + rewrite fmap_app. fold (positions (db_cards db) b col).
      apply NoDup_app. split_and!; [done| |apply NoDup_singleton].
      intros z Hz ->%list_elem_of_singleton. unfold positions in Hz.
      rewrite findMany_Permutation in Hz. simpl in Hz.
      destruct (max_position (db_cards db) b col) as [m|] eqn:E; simpl in Hz.
      * apply max_position_Some in E as [_ Hmax]. specialize (Hmax _ Hz). lia.
      * apply max_position_None in E. rewrite E in Hz. by apply elem_of_nil in Hz.
    + apply StronglySorted_app_2; [|apply findMany_StronglySorted|repeat constructor].
      intros x1 x2 Hx1 ->%list_elem_of_singleton. unfold position_le. simpl.
      rewrite findMany_Permutation in Hx1.
      destruct (max_position (db_cards db) b col) as [m|] eqn:E; simpl.
      * apply max_position_Some in E as [_ Hmax].
        specialize (Hmax (card_position x1) (list_elem_of_fmap_2 _ _ _ Hx1)). lia.
      * apply max_position_None in E. rewrite E in Hx1. by apply elem_of_nil in Hx1.
    + apply findMany_StronglySorted.
    + rewrite !findMany_Permutation, filter_app. f_equiv.
      by rewrite filter_cons, decide_True.
  - intros b' col' Hne. unfold findMany_column. cbn [db_cards set_cards].
    rewrite filter_app, filter_cons, decide_False, filter_nil, app_nil_r; [done|].
    intros [? ?]. simpl in *. apply Hne. by split.
Qed.

Lemma created_card_goes_last_witness :
  let body := todo_card "fourth" in
  let out := post_cards (H := test_platform) three_cards_db DEFAULT_BOARD_ID "u0" "d" body in
  let card := mkCard "d" DEFAULT_BOARD_ID "fourth" None None None TODO 3 MEDIUM false (Some "u0") in
  out_result out = Ok card
  ∧ NoDup (positions (db_cards three_cards_db) DEFAULT_BOARD_ID TODO)
  ∧ column_ids (db_cards (out_db out)) DEFAULT_BOARD_ID TODO = ["a"; "b"; "c"; "d"].
Proof.
  set (card := mkCard "d" DEFAULT_BOARD_ID "fourth" None None None TODO 3 MEDIUM false (Some "u0")).
  assert (out_result (post_cards (H := test_platform) three_cards_db DEFAULT_BOARD_ID "u0" "d"
                                 (todo_card "fourth")) = Ok card) as Hok
    by (vm_compute; reflexivity).
  assert (NoDup (positions (db_cards three_cards_db) DEFAULT_BOARD_ID (card_column card))) as Hnd
    by (apply (bool_decide_unpack _); vm_compute; exact I).
  destruct (created_card_goes_last (H := test_platform) three_cards_db DEFAULT_BOARD_ID "u0" "d"
              (todo_card "fourth") card Hok Hnd) as (_ & Hlast & _).
  split_and!; [exact Hok|exact Hnd|]. exact Hlast.
Defined.

(** X26: a delete takes one card out and leaves the others in their
    order.  When DELETE /cards/:id succeeds, every column whose cards have
    different positions shows afterwards the cards it showed, in the same
    order, without the deleted card. *)
Theorem deleted_card_leaves_order `{Platform} (db : Db) (b id : string) (b' : string)
    (col : ColumnId) :
  out_result (delete_card db b id) = Ok () →
  NoDup (positions (db_cards db) b' col) →
  let db' := out_db (delete_card db b id) in
  findMany_column (db_cards db') b' col
  = filter (λ c, card_id c ≠ id) (findMany_column (db_cards db) b' col).
Proof.
  intros Hok Hnd db'. revert Hok. unfold db', delete_card.
  destruct (isUuid id); simpl; [|done].
  destruct (findFirst_card (db_cards db) id b) as [found|]; simpl; [|done]. intros _.
  assert (filter (in_partition b' col) (filter (λ c, card_id c ≠ id) (db_cards db))
          = filter (λ c, card_id c ≠ id) (filter (in_partition b' col) (db_cards db))) as Hcomm.
  { rewrite !list_filter_filter. apply list_filter_iff. intros c. tauto. }
  apply sorted_cards_unique.
  - unfold findMany_column. rewrite merge_sort_Permutation, Hcomm.
    eapply sublist_NoDup; [|apply fmap_sublist, sublist_filter].
    by apply NoDup_positions.
  - apply findMany_StronglySorted.
  - apply StronglySorted_filter, findMany_StronglySorted.
  - rewrite !findMany_Permutation. by rewrite Hcomm.
Qed.

Lemma deleted_card_leaves_order_witness :
  let out := delete_card (H := test_platform) three_cards_db DEFAULT_BOARD_ID "b" in
  out_result out = Ok ()
  ∧ NoDup (positions (db_cards three_cards_db) DEFAULT_BOARD_ID TODO)
  ∧ column_ids (db_cards (out_db out)) DEFAULT_BOARD_ID TODO = ["a"; "c"]
  ∧ findMany_column (db_cards (out_db out)) DEFAULT_BOARD_ID TODO
    = filter (λ c, card_id c ≠ "b") (findMany_column (db_cards three_cards_db) DEFAULT_BOARD_ID TODO).
Proof.
  assert (out_result (delete_card (H := test_platform) three_cards_db DEFAULT_BOARD_ID "b") = Ok ())
    as Hok by (vm_compute; reflexivity).
  assert (NoDup (positions (db_cards three_cards_db) DEFAULT_BOARD_ID TODO)) as Hnd
    by (apply (bool_decide_unpack _); vm_compute; exact I).
  split_and!; [exact Hok|exact Hnd|reflexivity|].
  exact (deleted_card_leaves_order (H := test_platform) three_cards_db DEFAULT_BOARD_ID "b"
           DEFAULT_BOARD_ID TODO Hok Hnd).
Defined.

(* ================================================================== *)
(** * Avatars                                                           *)
(* ================================================================== *)

Lemma to_int32_range x : - 2 ^ 31 ≤ to_int32 x < 2 ^ 31.
Proof. unfold to_int32. pose proof (Z.mod_pos_bound (x + 2 ^ 31) (2 ^ 32)). lia. Qed.

(** Wrapping an intermediate value does not change the wrapped result. *)
Lemma to_int32_step a c : to_int32 (to_int32 a * 31 + c) = to_int32 (a * 31 + c).
Proof.
  unfold to_int32. f_equal.
  rewrite (Z.mod_eq (a + 2 ^ 31) (2 ^ 32)) by lia.
  set (q := (a + 2 ^ 31) `div` 2 ^ 32).
  replace ((a + 2 ^ 31 - 2 ^ 32 * q - 2 ^ 31) * 31 + c + 2 ^ 31)
    with (a * 31 + c + 2 ^ 31 + (- (31 * q)) * 2 ^ 32) by lia.
  apply Z_mod_plus_full.
Qed.

Lemma avatar_hash_snoc codes c :
  avatar_hash (codes ++ [c]) = to_int32 (avatar_hash codes * 31 + c).
Proof. unfold avatar_hash. by rewrite foldl_app. Qed.

Lemma polynomial_hash_snoc codes c :
  polynomial_hash (codes ++ [c]) = polynomial_hash codes * 31 + c.
Proof. unfold polynomial_hash. by rewrite foldl_app. Qed.

Lemma avatar_hash_polynomial codes : avatar_hash codes = to_int32 (polynomial_hash codes).
Proof.
  induction codes as [|c codes IH] using rev_ind.
  - by vm_compute.
  - by rewrite avatar_hash_snoc, polynomial_hash_snoc, IH, to_int32_step.
Qed.

Lemma preset_of_hash_preset h :
  ∃ key, preset_of_hash h = Some key ∧ key ∈ AVATAR_PRESETS.
Proof.
  unfold preset_of_hash.
  set (idx := Z.rem (Z.abs h) (Z.of_nat (length AVATAR_PRESETS))).
  assert (0 ≤ idx < 12) as Hidx.
  { unfold idx. change (Z.of_nat (length AVATAR_PRESETS)) with 12.
    apply Z.rem_bound_pos; lia. }
  rewrite decide_True by lia.
  destruct (AVATAR_PRESETS !! Z.to_nat idx) as [key|] eqn:E.
  - exists key. split; [done|]. by eapply list_elem_of_lookup_2.
  - apply lookup_ge_None in E. change (length AVATAR_PRESETS) with 12%nat in E. lia.
Qed.

(** X27: the avatar shown for a user is always one of the twelve presets.
    The hash of the id is the polynomial hash with base 31 of its code
    units, reduced to a signed 32-bit number: wrapping at every step loses
    nothing.  Whatever the code units, the automatic preset is defined and
    is one of the list, which the backend accepts as a preset.  For a user
    without an uploaded picture the source of the avatar is the picture of
    the stored preset when that is one of the list, and the picture of the
    automatic preset in every other case. *)
Theorem avatar_is_a_preset (encode : string → string) (id : string)
    (avatarPreset : option string) :
  (∀ codes, avatar_hash codes = to_int32 (polynomial_hash codes)
            ∧ - 2 ^ 31 ≤ avatar_hash codes < 2 ^ 31
            ∧ ∃ key, autoAvatarPreset_codes codes = Some key
                     ∧ key ∈ AVATAR_PRESETS ∧ isAvatarPreset key = true)
  ∧ ∃ auto, autoAvatarPreset id = Some auto
            ∧ isAvatarPreset auto = true
            ∧ (∀ p, avatarPreset = Some p → p ∈ AVATAR_PRESETS →
                    avatarSrc encode id None avatarPreset = "/avatars/" +:+ p +:+ ".svg")
            ∧ ((∀ p, avatarPreset = Some p → p ∉ AVATAR_PRESETS) →
               avatarSrc encode id None avatarPreset = "/avatars/" +:+ auto +:+ ".svg").
Proof.
  split.
  - intros codes. split; [apply avatar_hash_polynomial|].
    split; [rewrite avatar_hash_polynomial; apply to_int32_range|].
    destruct (preset_of_hash_preset (avatar_hash codes)) as (key & Hkey & Hin).
    exists key. split_and!; [done..|by apply bool_decide_eq_true].
  - destruct (preset_of_hash_preset (avatar_hash (charCodes id))) as (auto & Hauto & Hin).
    exists auto. split_and!; [done|by apply bool_decide_eq_true| |].
    + intros p -> Hp. unfold avatarSrc. simpl.
      rewrite decide_False.
      2:{ intros ->. revert Hp. apply (bool_decide_unpack _). by vm_compute. }
      by rewrite bool_decide_eq_true_2.
    + intros Hnot. unfold avatarSrc. simpl.
      change (autoAvatarPreset id) with (preset_of_hash (avatar_hash (charCodes id))).
      rewrite Hauto. destruct avatarPreset as [p|]; simpl; [|done].
      case_decide; [done|]. rewrite bool_decide_eq_false_2; [done|]. by apply Hnot.
Qed.

Lemma avatar_is_a_preset_witness :
  autoAvatarPreset "u0" = Some "a4"
  ∧ avatarSrc (λ s, s) "u0" None (Some "a7") = "/avatars/a7.svg"
  ∧ avatarSrc (λ s, s) "u0" None (Some "zz") = "/avatars/a4.svg"
  ∧ avatarSrc (λ s, s) "u0" None None = "/avatars/a4.svg".
Proof.
  destruct (avatar_is_a_preset (λ s, s) "u0" (Some "a7")) as (_ & a1 & Ha1 & _ & Hstored & _).
  destruct (avatar_is_a_preset (λ s, s) "u0" (Some "zz")) as (_ & a2 & Ha2 & _ & _ & Hother).
  destruct (avatar_is_a_preset (λ s, s) "u0" None) as (_ & a3 & Ha3 & _ & _ & Hnone).
  assert (a2 = "a4") as -> by (vm_compute in Ha2; by injection Ha2).
  assert (a3 = "a4") as -> by (vm_compute in Ha3; by injection Ha3).
  split_and!.
  - reflexivity.
  - apply (Hstored "a7" eq_refl). apply (bool_decide_unpack _). vm_compute. exact I.
  - apply Hother. intros p [= <-]. apply (bool_decide_unpack _). vm_compute. exact I.
  - apply Hnone. intros p [=].
Defined.
